(** * GeeRPC: a shallow embedding of the RPC core

  The development follows the Go packages of the repository:
  [reflect] (the part of Go's reflection the service reflector uses),
  [codec] (header, gob codec over a connection), [geerpc] (options,
  service reflector, server, client, the receive loop of the client, the
  goroutines of a served connection), [xclient] (static discovery) and
  [geeorm] (dialect and schema).

  Go values that the program only moves around are kept abstract
  ([Value]); everything the program branches on is concrete. Code that
  can panic or block returns a [Res]. *)

From stdpp Require Import gmap strings list.
From Stdlib Require Import ZArith Lia Ascii.

(** ** Go runtime conventions *)

Module golang.

(** Outcome of running a piece of Go code to its end: it returns, it
    panics, or it blocks forever on a channel operation. *)
Inductive Res (A : Type) : Type :=
| Ok (a : A)
| Panic (msg : string)
| Blocked.
Arguments Ok {A} a.
Arguments Panic {A} msg.
Arguments Blocked {A}.

Definition bind {A B} (r : Res A) (k : A → Res B) : Res B :=
  match r with
  | Ok a => k a
  | Panic msg => Panic msg
  | Blocked => Blocked
  end.

Definition returns {A} (r : Res A) : bool :=
  match r with Ok _ => true | _ => false end.

(** [uint64] and [int] arithmetic wraps around. *)
Definition uint64 (z : Z) : Z := (z mod 2 ^ 64)%Z.
Definition int (z : Z) : Z := ((z + 2 ^ 63) mod 2 ^ 64 - 2 ^ 63)%Z.

(** A Go [error] value: [None] is [nil], [Some msg] an error whose
    [Error()] is [msg]. *)
Definition error := option string.

Definition nil_deref : string := "runtime error: invalid memory address or nil pointer dereference".
Definition index_out_of_range : string := "runtime error: index out of range".
Definition send_on_closed : string := "send on closed channel".

(** Values that travel as [interface{}]: arguments, replies, bodies. *)
Inductive Value : Type :=
| VNil
| VBool (b : bool)
| VInt (z : Z)
| VStr (s : string)
| VStruct (fields : list Z)
| VMap (entries : list (Z * Z))
| VSlice (elems : list Z)
| VEmptyStruct
| VFunc.

End golang.

#[global] Instance res_ret : MRet golang.Res := fun _ a => golang.Ok a.
#[global] Instance res_bind : MBind golang.Res := fun _ _ k r => golang.bind r k.

(** ** Package reflect: types as the service reflector sees them *)

Module reflect.

Inductive Kind : Type :=
| Bool | Int | Uint64 | String | Struct | Interface | Func | Chan
| Ptr | Map | Slice.

(** A predeclared type ([int], [string], [error]) has a name and an empty
    package path; a defined type has both; pointer, map and slice types
    built from a type literal have neither. *)
Inductive Type_ : Type :=
| Builtin (name : string) (k : Kind)
| Named (pkg name : string) (k : Kind)
| PtrTo (elem : Type_)
| MapOf (key elem : Type_)
| SliceOf (elem : Type_).

Definition kind (t : Type_) : Kind :=
  match t with
  | Builtin _ k => k
  | Named _ _ k => k
  | PtrTo _ => Ptr
  | MapOf _ _ => Map
  | SliceOf _ => Slice
  end.

Definition Name (t : Type_) : string :=
  match t with
  | Builtin n _ => n
  | Named _ n _ => n
  | _ => ""
  end.

Definition PkgPath (t : Type_) : string :=
  match t with
  | Named p _ _ => p
  | _ => ""
  end.

(** [t.Elem()] panics unless [t] is a pointer, map or slice (arrays and
    channels are not modelled). *)
Definition Elem (t : Type_) : golang.Res Type_ :=
  match t with
  | PtrTo e => golang.Ok e
  | MapOf _ e => golang.Ok e
  | SliceOf e => golang.Ok e
  | _ => golang.Panic "reflect: Elem of invalid type"
  end.

Definition is_ptr (t : Type_) : bool :=
  match t with PtrTo _ => true | _ => false end.

(** The type of the predeclared interface [error]:
    [reflect.TypeOf(( *error)(nil)).Elem()]. *)
Definition errorType : Type_ := Builtin "error" Interface.

(** The zero value [reflect.New(t)] points to. *)
Definition zero (t : Type_) : golang.Value :=
  match kind t with
  | Bool => golang.VBool false
  | Int | Uint64 => golang.VInt 0
  | String => golang.VStr ""
  | Struct => golang.VStruct []
  | _ => golang.VNil
  end.

(** A function type: its parameter types (receiver first for a method
    value obtained from [Type.Method]) and result types. *)
Record FuncType : Type := {
  ins : list Type_;
  outs : list Type_;
}.

Definition NumIn (f : FuncType) : nat := length (ins f).
Definition NumOut (f : FuncType) : nat := length (outs f).

(** [f.In(i)] and [f.Out(i)] panic out of range. *)
Definition In (f : FuncType) (i : nat) : golang.Res Type_ :=
  match ins f !! i with
  | Some t => golang.Ok t
  | None => golang.Panic golang.index_out_of_range
  end.

Definition Out (f : FuncType) (i : nat) : golang.Res Type_ :=
  match outs f !! i with
  | Some t => golang.Ok t
  | None => golang.Panic golang.index_out_of_range
  end.

(** What a method does when called through [Func.Call] with receiver,
    argument and reply: the new content behind the reply and the
    returned error. *)
Definition Impl : Type := golang.Value → golang.Value → golang.Value → golang.Value * golang.error.

Record Method : Type := {
  MName : string;
  MType : FuncType;
  MFunc : Impl;
}.

(** An object handed to [reflect.ValueOf]/[reflect.TypeOf]: its dynamic
    type, the exported methods of that type in the order
    [Type.Method(i)] lists them, and its content. *)
Record Object : Type := {
  otype : Type_;
  omethods : list Method;
  ovalue : golang.Value;
}.

(** [reflect.Indirect(v).Type()]. *)
Definition IndirectType (t : Type_) : Type_ :=
  match t with
  | PtrTo e => e
  | _ => t
  end.

End reflect.

#[global] Instance Kind_eq_dec : EqDecision reflect.Kind.
Proof. solve_decision. Defined.

#[global] Instance Type_eq_dec : EqDecision reflect.Type_.
Proof. solve_decision. Defined.

(** ** Package go/ast: [IsExported] *)

Module ast.

(** [ast.IsExported(name)]: the name starts with an upper-case letter.
    Names are byte strings here, so the test covers the ASCII letters. *)
Definition IsExported (name : string) : bool :=
  match name with
  | String c _ => bool_decide (65 ≤ Ascii.nat_of_ascii c ≤ 90)%nat
  | EmptyString => false
  end.

End ast.

(** ** Package codec *)

Module codec.

Record Header : Type := {
  ServiceMethod : string;
  Seq : Z;
  Error : string;
}.

Definition set_Error (h : Header) (e : string) : Header :=
  {| ServiceMethod := ServiceMethod h; Seq := Seq h; Error := e |}.

Definition GobType : string := "application/gob".
Definition JsonType : string := "application/json".

(** One gob message on the wire: an encoded header or an encoded body. *)
Inductive Msg : Type :=
| MsgHeader (h : Header)
| MsgBody (v : golang.Value).

(** The connection ([io.ReadWriteCloser]) as the codec sees it: what the
    peer has sent and is still unread, what has been written to the
    peer, whether [Close] was called, and whether writes fail because
    the peer is gone. *)
Record Conn : Type := {
  inbox : list Msg;
  wire : list Msg;
  closed : bool;
  broken : bool;
}.

Definition conn_write (c : Conn) (m : Msg) : Conn * golang.error :=
  if closed c then (c, Some "use of closed network connection")
  else if broken c then (c, Some "broken pipe")
  else ({| inbox := inbox c; wire := wire c ++ [m];
           closed := closed c; broken := broken c |}, None).

Definition conn_close (c : Conn) : Conn :=
  {| inbox := inbox c; wire := wire c; closed := true; broken := broken c |}.

Definition conn_read (c : Conn) : Conn * option Msg :=
  if closed c then (c, None)
  else match inbox c with
       | [] => (c, None)
       | m :: rest =>
           ({| inbox := rest; wire := wire c;
               closed := closed c; broken := broken c |}, Some m)
       end.

(** gob refuses nil, functions and channels. *)
Definition gob_encodable (v : golang.Value) : bool :=
  match v with
  | golang.VNil | golang.VFunc => false
  | _ => true
  end.

(** [GobCodec]: the connection, the bytes waiting in the [bufio.Writer]
    and the number of times it was flushed. The encoder and the decoder
    are both built on [conn] itself (see [NewGobCodec]). *)
Record GobCodec : Type := {
  conn : Conn;
  buf : list Msg;
  flushes : nat;
}.

Definition NewGobCodec (c : Conn) : GobCodec :=
  {| conn := c; buf := []; flushes := 0 |}.

Definition with_conn (c : GobCodec) (k : Conn) : GobCodec :=
  {| conn := k; buf := buf c; flushes := flushes c |}.

(** [c.enc.Encode(h)] for a header and for a body. *)
Definition enc_Encode_header (c : GobCodec) (h : Header) : GobCodec * golang.error :=
  let '(k, err) := conn_write (conn c) (MsgHeader h) in (with_conn c k, err).

Definition enc_Encode_body (c : GobCodec) (body : golang.Value) : GobCodec * golang.error :=
  if gob_encodable body then
    let '(k, err) := conn_write (conn c) (MsgBody body) in (with_conn c k, err)
  else (c, Some "gob: cannot encode value").

(** [c.buf.Flush()]: push what is buffered to the connection; on a write
    error the data stays buffered. *)
Fixpoint flush_all (k : Conn) (ms : list Msg) : Conn * list Msg :=
  match ms with
  | [] => (k, [])
  | m :: rest =>
      match conn_write k m with
      | (k', None) => flush_all k' rest
      | (k', Some _) => (k', ms)
      end
  end.

Definition buf_Flush (c : GobCodec) : GobCodec :=
  let '(k, rest) := flush_all (conn c) (buf c) in
  {| conn := k; buf := rest; flushes := S (flushes c) |}.

Definition Close (c : GobCodec) : GobCodec * golang.error :=
  if closed (conn c) then (c, Some "use of closed network connection")
  else (with_conn c (conn_close (conn c)), None).

(** The deferred function of [Write]. *)
Definition Write_deferred (c : GobCodec) (err : golang.error) : GobCodec :=
  let c1 := buf_Flush c in
  match err with
  | Some _ => fst (Close c1)
  | None => c1
  end.

Definition Write (c : GobCodec) (h : Header) (body : golang.Value) : GobCodec * golang.error :=
  let '(c1, err) := enc_Encode_header c h in
  match err with
  | Some _ => (Write_deferred c1 err, err)
  | None =>
      let '(c2, err) := enc_Encode_body c1 body in
      match err with
      | Some _ => (Write_deferred c2 err, err)
      | None => (Write_deferred c2 err, err)
      end
  end.

Definition EOF : string := "EOF".

(** [c.dec.Decode(h)]: the next message must be a header. A message of
    another shape is consumed and reported as an error. *)
Definition ReadHeader (c : GobCodec) : GobCodec * (Header + string) :=
  match conn_read (conn c) with
  | (k, None) => (with_conn c k, inr EOF)
  | (k, Some (MsgHeader h)) => (with_conn c k, inl h)
  | (k, Some (MsgBody _)) => (with_conn c k, inr "gob: type mismatch")
  end.

(** [c.dec.Decode(body)]. [accept] says which values the destination can
    hold; a nil destination ([None]) discards the message. *)
Definition ReadBody (c : GobCodec) (accept : option (golang.Value → bool))
  : GobCodec * (golang.Value + string) :=
  match conn_read (conn c) with
  | (k, None) => (with_conn c k, inr EOF)
  | (k, Some m) =>
      match accept, m with
      | None, _ => (with_conn c k, inl golang.VNil)
      | Some ok, MsgBody v =>
          if ok v then (with_conn c k, inl v)
          else (with_conn c k, inr "gob: type mismatch")
      | Some _, MsgHeader _ => (with_conn c k, inr "gob: type mismatch")
      end
  end.

(** The headers of the frames written to the peer so far. *)
Definition frames_written (k : Conn) : list Header :=
  omap (fun m => match m with MsgHeader h => Some h | MsgBody _ => None end) (wire k).

(** [NewCodecFuncMap] after [init]: only the gob constructor. *)
Definition NewCodecFuncMap : gmap string (Conn → GobCodec) :=
  {[ GobType := NewGobCodec ]}.

End codec.

(** ** Package geerpc: options *)

Module geerpc.

Definition MagicNumber : Z := 0x3bef5c.

Module Option.
(** Modelled from the spec: the declaration of [Option] that the
    client file is compiled against is not among the sources (it reads
    [opt.ConnectTimeout]); the two timeout fields follow the data model
    of the specification. The server file declares the first two
    fields. *)
Record t : Type := {
  MagicNumber : Z;
  CodecType : string;
  ConnectTimeout : Z;
  HandleTimeout : Z;
}.
End Option.

Definition DefaultOption : Option.t :=
  {| Option.MagicNumber := MagicNumber;
     Option.CodecType := codec.GobType;
     Option.ConnectTimeout := 0;
     Option.HandleTimeout := 0 |}.

(** [parseOptions(opts ...*Option)]: a nil pointer is [None]. The option
    that is returned in the last case is the caller's own object, updated
    in place; the model returns its new content. *)
Definition parseOptions (opts : list (option Option.t)) : option Option.t * golang.error :=
  match opts with
  | [] => (Some DefaultOption, None)
  | None :: _ => (Some DefaultOption, None)
  | Some opt0 :: rest =>
      if bool_decide (length opts ≠ 1) then
        (None, Some "number of options is more than 1")
      else
        let opt := opt0 in
        let opt := {| Option.MagicNumber := Option.MagicNumber DefaultOption;
                      Option.CodecType := Option.CodecType opt;
                      Option.ConnectTimeout := Option.ConnectTimeout opt;
                      Option.HandleTimeout := Option.HandleTimeout opt |} in
        let opt :=
          if bool_decide (Option.CodecType opt = "") then
            {| Option.MagicNumber := Option.MagicNumber opt;
               Option.CodecType := Option.CodecType DefaultOption;
               Option.ConnectTimeout := Option.ConnectTimeout opt;
               Option.HandleTimeout := Option.HandleTimeout opt |}
          else opt in
        (Some opt, None)
  end.

End geerpc.

(** ** Package geerpc: the service reflector *)

Module service.

Record methodType : Type := {
  method_ : reflect.Method;
  ArgType : reflect.Type_;
  ReplyType : reflect.Type_;
  numCalls : Z;
}.

Definition NumCalls (m : methodType) : Z := numCalls m.

(** [newArgv]: the content the decoder will fill, a zero value of the
    argument type or of its pointee. *)
Definition newArgv (m : methodType) : golang.Res golang.Value :=
  if bool_decide (reflect.kind (ArgType m) = reflect.Ptr) then
    e ← reflect.Elem (ArgType m); mret (reflect.zero e)
  else mret (reflect.zero (ArgType m)).

(** [newReplyv]: [m.ReplyType.Elem()] panics when the reply type has no
    element type. *)
Definition newReplyv (m : methodType) : golang.Res golang.Value :=
  e ← reflect.Elem (ReplyType m);
  match reflect.kind e with
  | reflect.Map => mret (golang.VMap [])
  | reflect.Slice => mret (golang.VSlice [])
  | _ => mret (reflect.zero e)
  end.

(** The field [method] of the Go struct [service]; [method_] above is the
    field [method] of [methodType]. *)
Record service : Type := {
  name : string;
  typ : reflect.Type_;
  rcvr : reflect.Object;
  method : gmap string methodType;
}.

Definition isExportedOrBuiltinType (t : reflect.Type_) : bool :=
  ast.IsExported (reflect.Name t) || bool_decide (reflect.PkgPath t = "").

(** One turn of the loop of [registerMethods] over [s.typ.Method(i)]. *)
Definition registerMethods_body (acc : gmap string methodType) (m : reflect.Method)
  : gmap string methodType :=
  let mType := reflect.MType m in
  if bool_decide (reflect.NumIn mType ≠ 3%nat ∨ reflect.NumOut mType ≠ 1%nat) then acc
  else
    match reflect.outs mType !! 0%nat, reflect.ins mType !! 1%nat, reflect.ins mType !! 2%nat with
    | Some out0, Some argType, Some replyType =>
        if bool_decide (out0 ≠ reflect.errorType) then acc
        else if negb (isExportedOrBuiltinType argType)
                || negb (isExportedOrBuiltinType replyType) then acc
        else <[reflect.MName m :=
                 {| method_ := m; ArgType := argType; ReplyType := replyType;
                    numCalls := 0 |}]> acc
    | _, _, _ => acc
    end.

Definition registerMethods (s : service) : service :=
  {| name := name s; typ := typ s; rcvr := rcvr s;
     method := foldl registerMethods_body ∅ (reflect.omethods (rcvr s)) |}.

(** [newService]: [log.Fatalf] ends the process, which is a [Panic] here. *)
Definition newService (obj : reflect.Object) : golang.Res service :=
  let s_name := reflect.Name (reflect.IndirectType (reflect.otype obj)) in
  if negb (ast.IsExported s_name) then
    golang.Panic ("rpc server: " +:+ s_name +:+ " is not valid service name")
  else
    mret (registerMethods
            {| name := s_name; typ := reflect.otype obj; rcvr := obj; method := ∅ |}).

(** [s.call(m, argv, replyv)]: [m] and [s] are pointers and may be nil,
    and [replyv] may be the zero [reflect.Value] ([None]). The result is
    the method descriptor with its counter advanced, the content behind
    [replyv] after the call, and the returned error. *)
Definition call (s : option service) (m : option methodType)
  (argv : golang.Value) (replyv : option golang.Value)
  : golang.Res (methodType * golang.Value * golang.error) :=
  match m with
  | None => golang.Panic golang.nil_deref
  | Some m =>
      let m' := {| method_ := method_ m; ArgType := ArgType m;
                   ReplyType := ReplyType m;
                   numCalls := golang.uint64 (numCalls m + 1) |} in
      match s, replyv with
      | None, _ => golang.Panic golang.nil_deref
      | Some _, None => golang.Panic "reflect: Call using zero Value argument"
      | Some s, Some reply =>
          let '(reply', err) :=
            reflect.MFunc (method_ m) (reflect.ovalue (rcvr s)) argv reply in
          mret (m', reply', err)
      end
  end.

End service.

(** ** Package geerpc: the server *)

Module server.

Import service.

Record Server : Type := {
  serviceMap : gmap string service;
}.

Definition NewServer : Server := {| serviceMap := ∅ |}.

Definition Register (server : Server) (obj : reflect.Object) : golang.Res (Server * golang.error) :=
  s ← newService obj;
  match serviceMap server !! name s with
  | Some _ => mret (server, Some ("rpc: service already defined" +:+ name s))
  | None => mret ({| serviceMap := <[name s := s]> (serviceMap server) |}, None)
  end.

(** [strings.LastIndex(s, ".")], [-1] when there is no dot. *)
Fixpoint LastIndexDot (s : string) : Z :=
  match s with
  | EmptyString => -1
  | String a rest =>
      let r := LastIndexDot rest in
      if (0 <=? r)%Z then (r + 1)%Z
      else if bool_decide (a = "."%char) then 0%Z
      else (-1)%Z
  end.

Definition findService (server : Server) (serviceMethod : string)
  : option service * option methodType * golang.error :=
  let dot := LastIndexDot serviceMethod in
  if (dot <? 0)%Z then
    (None, None,
     Some ("rpc server: service/method request ill-formed:" +:+ serviceMethod))
  else
    let serviceName := String.substring 0 (Z.to_nat dot) serviceMethod in
    let methodName :=
      String.substring (Z.to_nat (dot + 1))
                (String.length serviceMethod - Z.to_nat (dot + 1)) serviceMethod in
    match serviceMap server !! serviceName with
    | None => (None, None, Some ("rpc server: can't find service " +:+ serviceName))
    | Some svc =>
        match method svc !! methodName with
        | None => (Some svc, None, Some ("rpc server: can't find method " +:+ methodName))
        | Some mtype => (Some svc, Some mtype, None)
        end
    end.

(** The body of every error response: [struct{}{}]. *)
Definition invalidRequest : golang.Value := golang.VEmptyStruct.

Record request : Type := {
  h : codec.Header;
  argv : golang.Value;
  replyv : option golang.Value;
  mtype : option methodType;
  svc : option service;
}.

Definition readRequestHeader (cc : codec.GobCodec)
  : codec.GobCodec * option codec.Header * golang.error :=
  match codec.ReadHeader cc with
  | (cc', inr err) => (cc', None, Some err)
  | (cc', inl hd) => (cc', Some hd, None)
  end.

(** Which bodies gob decodes into a container of type [t]; gob looks
    through pointers. *)
Definition value_fits (t : reflect.Type_) (v : golang.Value) : bool :=
  match reflect.kind (reflect.IndirectType t), v with
  | reflect.Bool, golang.VBool _ => true
  | (reflect.Int | reflect.Uint64), golang.VInt _ => true
  | reflect.String, golang.VStr _ => true
  | reflect.Struct, (golang.VStruct _ | golang.VEmptyStruct) => true
  | reflect.Map, golang.VMap _ => true
  | reflect.Slice, golang.VSlice _ => true
  | _, _ => false
  end.

(** [readRequest]: [replyv] is [None] while it is the zero
    [reflect.Value]. *)
Definition readRequest (server : Server) (cc : codec.GobCodec)
  : golang.Res (codec.GobCodec * option request * golang.error) :=
  match readRequestHeader cc with
  | (cc, _, Some err) => mret (cc, None, Some err)
  | (cc, None, None) => mret (cc, None, None)
  | (cc, Some hd, None) =>
      let '(svc0, mtype0, err) := findService server (codec.ServiceMethod hd) in
      let req := {| h := hd; argv := golang.VNil; replyv := None;
                    mtype := mtype0; svc := svc0 |} in
      match err, mtype0 with
      | Some _, _ => mret (cc, Some req, err)
      | None, None => golang.Panic golang.nil_deref
      | None, Some mt =>
          a ← newArgv mt;
          r ← newReplyv mt;
          match codec.ReadBody cc (Some (value_fits (ArgType mt))) with
          | (cc, inr e) =>
              mret (cc, Some {| h := hd; argv := a; replyv := Some r;
                                mtype := mtype0; svc := svc0 |}, Some e)
          | (cc, inl v) =>
              mret (cc, Some {| h := hd; argv := v; replyv := Some r;
                                mtype := mtype0; svc := svc0 |}, None)
          end
      end
  end.

(** [sendResponse]: a write error is logged and dropped. The mutex
    [sending] orders concurrent writers and has no content here. *)
Definition sendResponse (cc : codec.GobCodec) (hd : codec.Header) (body : golang.Value)
  : codec.GobCodec :=
  fst (codec.Write cc hd body).

(** The write-back of [atomic.AddUint64(&m.numCalls, 1)]: the descriptor
    is shared with the server's registry through pointers. *)
Definition store_methodType (server : Server) (s : option service) (m : methodType) : Server :=
  match s with
  | None => server
  | Some s =>
      let s' := {| name := name s; typ := typ s; rcvr := rcvr s;
                   method := <[reflect.MName (method_ m) := m]> (method s) |} in
      {| serviceMap := <[name s := s']> (serviceMap server) |}
  end.

(** [handleRequest], run to its end. After the error response there is
    no [return]: the second [sendResponse] runs on both paths, with the
    header that now carries the error. *)
Definition handleRequest (server : Server) (cc : codec.GobCodec) (req : request)
  : golang.Res (Server * codec.GobCodec) :=
  '(m', reply', err) ← call (svc req) (mtype req) (argv req) (replyv req);
  let server := store_methodType server (svc req) m' in
  let '(hd, cc) :=
    match err with
    | Some e =>
        let hd := codec.set_Error (h req) e in
        (hd, sendResponse cc hd invalidRequest)
    | None => (h req, cc)
    end in
  mret (server, sendResponse cc hd reply').

(** The loop of [serveCodec]. Each handler is run to its end at the
    point where the source starts it with [go]: one of the schedules the
    program allows (the goroutines and all their schedules are in
    [serving] below). After the error response there is no [continue]:
    the handler is started for a failed request too. [fuel] bounds the
    number of turns, and [None] reports that it ran out. *)
Fixpoint serveCodec_loop (fuel : nat) (server : Server) (cc : codec.GobCodec)
  : golang.Res (option (Server * codec.GobCodec)) :=
  match fuel with
  | O => mret None
  | S fuel =>
      '(cc, req, err) ← readRequest server cc;
      match err, req with
      | Some _, None => mret (Some (server, cc))
      | Some e, Some req =>
          let req := {| h := codec.set_Error (h req) e; argv := argv req;
                        replyv := replyv req; mtype := mtype req; svc := svc req |} in
          let cc := sendResponse cc (h req) invalidRequest in
          '(server, cc) ← handleRequest server cc req;
          serveCodec_loop fuel server cc
      | None, None => golang.Panic golang.nil_deref
      | None, Some req =>
          '(server, cc) ← handleRequest server cc req;
          serveCodec_loop fuel server cc
      end
  end.

(** [serveCodec]: the loop, then [cc.Close()]. Every turn that stays in
    the loop takes a message from the connection, so one turn more than
    there are messages is enough. *)
Definition serveCodec (server : Server) (cc : codec.GobCodec)
  : golang.Res (option (Server * codec.GobCodec)) :=
  r ← serveCodec_loop (S (length (codec.inbox (codec.conn cc)))) server cc;
  match r with
  | None => mret None
  | Some (server, cc) => mret (Some (server, fst (codec.Close cc)))
  end.

(** [ServerConn]: [decoded] is what [json.NewDecoder(conn).Decode(&opt)]
    yields on the first bytes of the connection, [conn] the connection
    behind them. The deferred [conn.Close()] runs on every path. *)
Definition ServerConn (server : Server) (decoded : geerpc.Option.t + string)
  (conn : codec.Conn) : golang.Res (option (Server * codec.Conn)) :=
  match decoded with
  | inr _ => mret (Some (server, codec.conn_close conn))
  | inl opt =>
      if bool_decide (geerpc.Option.MagicNumber opt ≠ geerpc.MagicNumber) then
        mret (Some (server, codec.conn_close conn))
      else
        match codec.NewCodecFuncMap !! geerpc.Option.CodecType opt with
        | None => mret (Some (server, codec.conn_close conn))
        | Some f =>
            r ← serveCodec server (f conn);
            match r with
            | None => mret None
            | Some (server, cc) => mret (Some (server, codec.conn_close (codec.conn cc)))
            end
        end
  end.

End server.

(** ** Package geerpc: the client *)

Module client.

(** Calls and channels live on the heap and are shared through
    pointers: the pending table, the caller and the [Done] channel all
    hold the same [*Call]. *)
Definition ptr : Type := nat.

Record Call : Type := {
  Seq : Z;
  ServiceMethod : string;
  Args : golang.Value;
  Reply : golang.Value;
  Error : golang.error;
  Done : option ptr;
}.

(** A [chan *Call]: its capacity, the calls queued in its buffer and
    whether it was closed. *)
Record Chan : Type := {
  cap : nat;
  queue : list ptr;
  chan_closed : bool;
}.

Record Client : Type := {
  cc : codec.GobCodec;
  opt : geerpc.Option.t;
  header : codec.Header;
  seq : Z;
  pending : gmap Z ptr;
  closing : bool;
  shutdown : bool;
}.

Record World : Type := {
  self : Client;
  calls : gmap ptr Call;
  chans : gmap ptr Chan;
}.

Definition ErrShutdown : string := "connection is shut down".
Definition unbuffered : string := "rpc client: done channel is unbuffered".

Definition with_self (w : World) (c : Client) : World :=
  {| self := c; calls := calls w; chans := chans w |}.
Definition with_calls (w : World) (m : gmap ptr Call) : World :=
  {| self := self w; calls := m; chans := chans w |}.
Definition with_chans (w : World) (m : gmap ptr Chan) : World :=
  {| self := self w; calls := calls w; chans := m |}.

Definition set_Error (c : Call) (e : golang.error) : Call :=
  {| Seq := Seq c; ServiceMethod := ServiceMethod c; Args := Args c;
     Reply := Reply c; Error := e; Done := Done c |}.
Definition set_Seq (c : Call) (n : Z) : Call :=
  {| Seq := n; ServiceMethod := ServiceMethod c; Args := Args c;
     Reply := Reply c; Error := Error c; Done := Done c |}.

(** [call.Error = err] through the pointer. *)
Definition store_Error (p : ptr) (e : golang.error) (w : World) : golang.Res World :=
  match calls w !! p with
  | None => golang.Panic golang.nil_deref
  | Some c => mret (with_calls w (<[p := set_Error c e]> (calls w)))
  end.

(** [cap(ch)]. *)
Definition chan_cap (w : World) (ch : ptr) : nat :=
  match chans w !! ch with
  | Some k => cap k
  | None => 0
  end.

(** [call.done()], that is [call.Done <- call], while no other goroutine
    receives: the send goes into the buffer when there is room, blocks
    when there is none or the channel is nil, and panics on a closed
    channel. *)
Definition done (p : ptr) (w : World) : golang.Res World :=
  match calls w !! p with
  | None => golang.Panic golang.nil_deref
  | Some c =>
      match Done c with
      | None => golang.Blocked
      | Some ch =>
          match chans w !! ch with
          | None => golang.Blocked
          | Some k =>
              if chan_closed k then golang.Panic golang.send_on_closed
              else if bool_decide (length (queue k) < cap k) then
                mret (with_chans w
                        (<[ch := {| cap := cap k; queue := queue k ++ [p];
                                    chan_closed := chan_closed k |}]> (chans w)))
              else golang.Blocked
          end
      end
  end.

Definition Close (w : World) : golang.error * World :=
  let c := self w in
  if closing c then (Some ErrShutdown, w)
  else
    let '(cc', err) := codec.Close (cc c) in
    (err, with_self w {| cc := cc'; opt := opt c; header := header c; seq := seq c;
                         pending := pending c; closing := true;
                         shutdown := shutdown c |}).

Definition IsAvailable (w : World) : bool :=
  negb (shutdown (self w)) && negb (closing (self w)).

Definition registerCall (p : ptr) (w : World) : golang.Res (Z * golang.error * World) :=
  let c := self w in
  if closing c || shutdown c then mret (0%Z, Some ErrShutdown, w)
  else
    match calls w !! p with
    | None => golang.Panic golang.nil_deref
    | Some call =>
        let call := set_Seq call (seq c) in
        let w := with_calls w (<[p := call]> (calls w)) in
        let w := with_self w
                   {| cc := cc c; opt := opt c; header := header c;
                      seq := golang.uint64 (seq c + 1);
                      pending := <[Seq call := p]> (pending c);
                      closing := closing c; shutdown := shutdown c |} in
        mret (Seq call, None, w)
    end.

Definition removeCall (n : Z) (w : World) : option ptr * World :=
  let c := self w in
  (pending c !! n,
   with_self w {| cc := cc c; opt := opt c; header := header c; seq := seq c;
                  pending := delete n (pending c);
                  closing := closing c; shutdown := shutdown c |}).

(** The body of the [range] loop of [terminateCalls]. *)
Definition terminate_one (err : golang.error) (w : World) (p : ptr) : golang.Res World :=
  w ← store_Error p err w; done p w.

Fixpoint terminate_all (err : golang.error) (visit : list (Z * ptr)) (w : World)
  : golang.Res World :=
  match visit with
  | [] => mret w
  | (_, p) :: rest => w ← terminate_one err w p; terminate_all err rest w
  end.

(** [terminateCalls(err)]. [range] over a Go map visits every entry once
    in an order the language leaves open: [visit] is that order, a
    permutation of the entries of [pending]. *)
Definition terminateCalls (err : golang.error) (visit : list (Z * ptr)) (w : World)
  : golang.Res World :=
  let c := self w in
  let w := with_self w {| cc := cc c; opt := opt c; header := header c; seq := seq c;
                          pending := pending c; closing := closing c;
                          shutdown := true |} in
  terminate_all err visit w.

Definition send (p : ptr) (w : World) : golang.Res World :=
  '(n, err, w) ← registerCall p w;
  match err with
  | Some _ => w ← store_Error p err w; done p w
  | None =>
      match calls w !! p with
      | None => golang.Panic golang.nil_deref
      | Some call =>
          let c := self w in
          let hd := {| codec.ServiceMethod := ServiceMethod call;
                       codec.Seq := Seq call; codec.Error := "" |} in
          let '(cc', werr) := codec.Write (cc c) hd (Args call) in
          let w := with_self w {| cc := cc'; opt := opt c; header := hd; seq := seq c;
                                  pending := pending c; closing := closing c;
                                  shutdown := shutdown c |} in
          match werr with
          | None => mret w
          | Some _ =>
              let '(q, w) := removeCall n w in
              match q with
              | None => mret w
              | Some q => w ← store_Error q werr w; done q w
              end
          end
      end
  end.

(** [make(chan *Call, n)]: a channel at an address not in use. *)
Definition make_chan (n : nat) (w : World) : ptr * World :=
  let ch := fresh (dom (chans w)) in
  (ch, with_chans w (<[ch := {| cap := n; queue := []; chan_closed := false |}]> (chans w))).

(** [client.Go(serviceMethod, args, reply, done)]; the result is the
    pointer to the new [Call]. *)
Definition Go (serviceMethod : string) (args reply : golang.Value) (done : option ptr)
  (w : World) : golang.Res (ptr * World) :=
  '(done, w) ← match done with
               | None => mret (make_chan 10 w)
               | Some ch =>
                   if bool_decide (chan_cap w ch = 0) then golang.Panic unbuffered
                   else mret (ch, w)
               end;
  let p := fresh (dom (calls w)) in
  let w := with_calls w
             (<[p := {| Seq := 0; ServiceMethod := serviceMethod; Args := args;
                        Reply := reply; Error := None; Done := Some done |}]> (calls w)) in
  w ← send p w;
  mret (p, w).

(** [newClientCodec], before the receiving goroutine has done anything. *)
Definition newClientCodec (cc0 : codec.GobCodec) (opt0 : geerpc.Option.t) : World :=
  {| self := {| cc := cc0; opt := opt0;
                header := {| codec.ServiceMethod := ""; codec.Seq := 0; codec.Error := "" |};
                seq := 1; pending := ∅; closing := false; shutdown := false |};
     calls := ∅; chans := ∅ |}.

End client.

(** ** Package xclient: discovery over a fixed list of servers *)

Module xclient.

Definition RandomSelect : Z := 0.
Definition RoundRobinSelect : Z := 1.

Definition MaxInt32 : Z := 2 ^ 31 - 1.

(** A [*rand.Rand]: the raw numbers it is going to produce. [Intn(n)]
    panics unless [n > 0] and reduces the next raw number into [0, n). *)
Record Rand : Type := {
  raw : nat → Z;
  used : nat;
}.

Definition Intn (r : Rand) (n : Z) : golang.Res (Z * Rand) :=
  if (n <=? 0)%Z then golang.Panic "invalid argument to Intn"
  else mret ((raw r (used r) mod n)%Z, {| raw := raw r; used := S (used r) |}).

Record MultiServersDiscovery : Type := {
  r : Rand;
  servers : list string;
  index : Z;
}.

Definition Refresh (d : MultiServersDiscovery) : golang.error := None.

Definition Update (d : MultiServersDiscovery) (ss : list string)
  : MultiServersDiscovery * golang.error :=
  ({| r := r d; servers := ss; index := index d |}, None).

(** [s[i]] on a slice: panics out of range. *)
Definition slice_index (s : list string) (i : Z) : golang.Res string :=
  if (i <? 0)%Z then golang.Panic golang.index_out_of_range
  else match s !! Z.to_nat i with
       | Some x => mret x
       | None => golang.Panic golang.index_out_of_range
       end.

(** [Get(mode)]; [%] on [int] is [Z.rem], [+] wraps. *)
Definition Get (d : MultiServersDiscovery) (mode : Z)
  : golang.Res (string * golang.error * MultiServersDiscovery) :=
  let n := Z.of_nat (length (servers d)) in
  if (n =? 0)%Z then mret ("", Some "rpc discovery: no available servers", d)
  else if (mode =? RandomSelect)%Z then
    '(i, r') ← Intn (r d) n;
    s ← slice_index (servers d) i;
    mret (s, None, {| r := r'; servers := servers d; index := index d |})
  else if (mode =? RoundRobinSelect)%Z then
    s ← slice_index (servers d) (Z.rem (index d) n);
    mret (s, None, {| r := r d; servers := servers d;
                      index := Z.rem (golang.int (index d + 1)) n |})
  else mret ("", Some "rpc discovery: not supported select mode", d).

Definition GetAll (d : MultiServersDiscovery) : list string * golang.error :=
  (servers d, None).

(** [NewMultiServersDiscovery(servers)]; [rnd] is the generator that
    [rand.New(rand.NewSource(time.Now().UnixNano()))] returns. *)
Definition NewMultiServersDiscovery (ss : list string) (rnd : Rand)
  : golang.Res MultiServersDiscovery :=
  '(i, r') ← Intn rnd (MaxInt32 - 1);
  mret {| r := r'; servers := ss; index := i |}.

(** [k] calls of [Get(mode)] in a row with nothing in between; the
    addresses returned, in order. A call that reports an error ends the
    run with that error. *)
Fixpoint Get_n (k : nat) (mode : Z) (d : MultiServersDiscovery)
  : golang.Res (list string * golang.error * MultiServersDiscovery) :=
  match k with
  | O => mret ([], None, d)
  | S k =>
      '(s, err, d) ← Get d mode;
      match err with
      | Some _ => mret ([], err, d)
      | None =>
          '(rest, err, d) ← Get_n k mode d;
          mret (s :: rest, err, d)
      end
  end.

(** One call of [Get] for each mode of [modes], in order, whatever each
    returns. *)
Fixpoint Get_each (modes : list Z) (d : MultiServersDiscovery)
  : golang.Res (list (string * golang.error) * MultiServersDiscovery) :=
  match modes with
  | [] => mret ([], d)
  | mode :: modes =>
      '(s, err, d) ← Get d mode;
      '(rest, d) ← Get_each modes d;
      mret ((s, err) :: rest, d)
  end.

End xclient.

(** ** Receivers used in the examples

    [Foo] and [Args] are the types of the repository's tests and demo
    programs: [Foo] is a defined integer type with the method [Sum]; the
    method [Fail] returns an error. [Bar] has a method whose second
    parameter is not a pointer. *)

Module samples.

Definition Foo : reflect.Type_ := reflect.Named "geerpc" "Foo" reflect.Int.
Definition Args : reflect.Type_ := reflect.Named "geerpc" "Args" reflect.Struct.
Definition int : reflect.Type_ := reflect.Builtin "int" reflect.Int.

(** [func (f Foo) Sum(args Args, reply *int) error]. *)
Definition Sum : reflect.Method :=
  {| reflect.MName := "Sum";
     reflect.MType := {| reflect.ins := [reflect.PtrTo Foo; Args; reflect.PtrTo int];
                         reflect.outs := [reflect.errorType] |};
     reflect.MFunc := fun _ args reply =>
       match args with
       | golang.VStruct [num1; num2] => (golang.VInt (golang.int (num1 + num2)), None)
       | _ => (reply, None)
       end |}.

(** [func (f Foo) Fail(args Args, reply *int) error], which returns
    [errors.New("boom")] and leaves the reply alone. *)
Definition Fail : reflect.Method :=
  {| reflect.MName := "Fail";
     reflect.MType := {| reflect.ins := [reflect.PtrTo Foo; Args; reflect.PtrTo int];
                         reflect.outs := [reflect.errorType] |};
     reflect.MFunc := fun _ _ reply => (reply, Some "boom") |}.

(** [&foo] for [var foo Foo]. *)
Definition foo : reflect.Object :=
  {| reflect.otype := reflect.PtrTo Foo;
     reflect.omethods := [Fail; Sum];
     reflect.ovalue := golang.VInt 0 |}.

(** [type Bar int] with [func (b Bar) Echo(arg int, reply int) error]. *)
Definition Bar : reflect.Type_ := reflect.Named "geerpc" "Bar" reflect.Int.

Definition Echo : reflect.Method :=
  {| reflect.MName := "Echo";
     reflect.MType := {| reflect.ins := [reflect.PtrTo Bar; int; int];
                         reflect.outs := [reflect.errorType] |};
     reflect.MFunc := fun _ _ reply => (reply, None) |}.

Definition bar : reflect.Object :=
  {| reflect.otype := reflect.PtrTo Bar;
     reflect.omethods := [Echo];
     reflect.ovalue := golang.VInt 0 |}.

(** A server on which [&foo] was registered. *)
Definition foo_server : golang.Res server.Server :=
  '(srv, _) ← server.Register server.NewServer foo; mret srv.

(** An open connection on which the peer has sent [msgs]. *)
Definition incoming (msgs : list codec.Msg) : codec.GobCodec :=
  codec.NewGobCodec {| codec.inbox := msgs; codec.wire := [];
                       codec.closed := false; codec.broken := false |}.

Definition request_frame (serviceMethod : string) (n : Z) (body : golang.Value)
  : list codec.Msg :=
  [codec.MsgHeader {| codec.ServiceMethod := serviceMethod; codec.Seq := n;
                      codec.Error := "" |};
   codec.MsgBody body].

(** A client on a fresh connection, and the same client after
    [client.Go("Foo.Sum", Args{1, 3}, &reply, nil)]: the call is pending
    under sequence number 1. *)
Definition fresh_client : client.World :=
  client.newClientCodec (incoming []) geerpc.DefaultOption.

Definition one_pending : golang.Res (client.ptr * client.World) :=
  client.Go "Foo.Sum" (golang.VStruct [1; 3]%Z) (golang.VInt 0) None fresh_client.

Definition sum_call : client.Call :=
  {| client.Seq := 1; client.ServiceMethod := "Foo.Sum";
     client.Args := golang.VStruct [1; 3]%Z; client.Reply := golang.VInt 0;
     client.Error := None; client.Done := Some 0 |}.

Definition one_pending_world : client.World :=
  {| client.self :=
       {| client.cc :=
            {| codec.conn :=
                 {| codec.inbox := [];
                    codec.wire := request_frame "Foo.Sum" 1 (golang.VStruct [1; 3]%Z);
                    codec.closed := false; codec.broken := false |};
               codec.buf := []; codec.flushes := 1 |};
          client.opt := geerpc.DefaultOption;
          client.header := {| codec.ServiceMethod := "Foo.Sum"; codec.Seq := 1;
                              codec.Error := "" |};
          client.seq := 2;
          client.pending := {[ 1%Z := 0 ]};
          client.closing := false; client.shutdown := false |};
     client.calls := {[ 0 := sum_call ]};
     client.chans := {[ 0 := {| client.cap := 10; client.queue := [];
                                client.chan_closed := false |} ]} |}.

(** A world with one unbuffered channel, at address 0, and one with a
    channel of capacity 1. *)
Definition unbuffered_world : client.World :=
  client.with_chans fresh_client
    {[ 0 := {| client.cap := 0; client.queue := []; client.chan_closed := false |} ]}.

Definition buffered_world : client.World :=
  client.with_chans fresh_client
    {[ 0 := {| client.cap := 1; client.queue := []; client.chan_closed := false |} ]}.

End samples.

(** ** Vocabulary of the statements *)

Section vocabulary.

Import service.

(** What a descriptor recorded by the loop of [registerMethods] looks
    like: it comes from a method with three inputs and the single output
    [error], whose second and third inputs pass
    [isExportedOrBuiltinType]. The loop asks nothing else of the third
    input. *)
Definition recorded_from (m : reflect.Method) (d : methodType) : Prop :=
  method_ d = m ∧ numCalls d = 0%Z ∧
  reflect.outs (reflect.MType m) = [reflect.errorType] ∧
  (∃ recv, reflect.ins (reflect.MType m) = [recv; ArgType d; ReplyType d]) ∧
  isExportedOrBuiltinType (ArgType d) = true ∧
  isExportedOrBuiltinType (ReplyType d) = true.

(** The state of a discovery over the servers [ss] between two calls: the
    list is [ss] and the index is a non-negative [int] below the largest
    one. *)
Definition discovery_of (ss : list string) (d : xclient.MultiServersDiscovery) : Prop :=
  xclient.servers d = ss ∧ (0 ≤ xclient.index d < 2 ^ 63 - 1)%Z.


End vocabulary.

(** ** Package geerpc: the receive loop of the client *)

Module receive.

Import client.

Section receive.

(** [fmt.Errorf(format).Error()] for a format given without arguments:
    the text of the error built from the [Error] field of a header. *)
Variable Errorf : string → string.

(** The order in which [range] visits the entries of the pending table
    when [terminateCalls] runs. *)
Variable range : gmap Z ptr → list (Z * ptr).

Definition with_cc (w : World) (c : codec.GobCodec) : World :=
  with_self w {| cc := c; opt := opt (self w); header := header (self w);
                 seq := seq (self w); pending := pending (self w);
                 closing := closing (self w); shutdown := shutdown (self w) |}.

(** Whether gob decodes the body [v] into a reply that now holds [dst]:
    the two have the same shape. Any struct decodes into any struct. *)
Definition same_shape (dst v : golang.Value) : bool :=
  match dst, v with
  | golang.VBool _, golang.VBool _ => true
  | golang.VInt _, golang.VInt _ => true
  | golang.VStr _, golang.VStr _ => true
  | (golang.VStruct _ | golang.VEmptyStruct), (golang.VStruct _ | golang.VEmptyStruct) => true
  | golang.VMap _, golang.VMap _ => true
  | golang.VSlice _, golang.VSlice _ => true
  | _, _ => false
  end.

(** The destination [call.Reply] as [ReadBody] sees it; a nil [Reply]
    discards the body. *)
Definition reply_dest (c : Call) : option (golang.Value → bool) :=
  match Reply c with
  | golang.VNil => None
  | dst => Some (same_shape dst)
  end.

Definition set_Reply (c : Call) (v : golang.Value) : Call :=
  {| Seq := Seq c; ServiceMethod := ServiceMethod c; Args := Args c;
     Reply := v; Error := Error c; Done := Done c |}.

(** What [encoding/gob] leaves in a destination that already holds a
    value. The encoder omits the fields of a struct that have the zero
    value, and the decoder stores only what was transmitted: a field that
    is zero in the body keeps the value the destination has. A struct
    value lists the fields of its type in order, and a list shorter than
    the type stands for zeros in the rest, as [reflect.zero] has it. *)
Fixpoint fill_fields (dst body : list Z) : list Z :=
  match dst, body with
  | [], _ => body
  | _, [] => dst
  | d :: dst, b :: body => (if bool_decide (b = 0%Z) then d else b) :: fill_fields dst body
  end.

(** [m[k] = v] on a map kept as the list of its entries. *)
Fixpoint map_store (k v : Z) (m : list (Z * Z)) : list (Z * Z) :=
  match m with
  | [] => [(k, v)]
  | (k', v') :: m =>
      if bool_decide (k' = k) then (k, v) :: m else (k', v') :: map_store k v m
  end.

(** [dec.Decode(dst)] on a body [v] that [dst] can hold. A value that
    is not a struct is transmitted whole, zero or not, and replaces what
    was there, a slice with all its elements; the entries of a map are
    stored into the map that is there; a struct keeps the fields that
    were not transmitted. *)
Definition Decode_into (dst v : golang.Value) : golang.Value :=
  match dst, v with
  | golang.VStruct ds, golang.VStruct bs => golang.VStruct (fill_fields ds bs)
  | golang.VStruct _, golang.VEmptyStruct => dst
  | golang.VEmptyStruct, golang.VStruct _ => dst
  | golang.VMap ds, golang.VMap bs =>
      golang.VMap (foldl (fun m kv => map_store kv.1 kv.2 m) ds bs)
  | _, _ => v
  end.

(** What a successful [ReadBody(call.Reply)] with the body [v] leaves
    behind the reply pointer. *)
Definition store_Reply (p : ptr) (v : golang.Value) (w : World) : golang.Res World :=
  match calls w !! p with
  | None => golang.Panic golang.nil_deref
  | Some c =>
      match Reply c with
      | golang.VNil => mret w
      | dst => mret (with_calls w (<[p := set_Reply c (Decode_into dst v)]> (calls w)))
      end
  end.

Definition err_of {A} (r : A + string) : golang.error :=
  match r with
  | inl _ => None
  | inr e => Some e
  end.

(** One turn of the loop of [receive]; the result is [err] as the loop
    condition finds it. *)
Definition receive_turn (w : World) : golang.Res (golang.error * World) :=
  let '(cc1, r) := codec.ReadHeader (cc (self w)) in
  let w := with_cc w cc1 in
  match r with
  | inr e => mret (Some e, w)
  | inl hd =>
      let '(call, w) := removeCall (codec.Seq hd) w in
      match call with
      | None =>
          let '(cc2, r) := codec.ReadBody (cc (self w)) None in
          mret (err_of r, with_cc w cc2)
      | Some p =>
          if bool_decide (codec.Error hd ≠ "") then
            w ← store_Error p (Some (Errorf (codec.Error hd))) w;
            let '(cc2, r) := codec.ReadBody (cc (self w)) None in
            w ← done p (with_cc w cc2);
            mret (err_of r, w)
          else
            match calls w !! p with
            | None => golang.Panic golang.nil_deref
            | Some c =>
                let '(cc2, r) := codec.ReadBody (cc (self w)) (reply_dest c) in
                let w := with_cc w cc2 in
                w ← match r with
                    | inl v => store_Reply p v w
                    | inr e => store_Error p (Some ("reading body " +:+ e)) w
                    end;
                w ← done p w;
                mret (err_of r, w)
            end
      end
  end.

(** The loop [for err == nil]; [None] reports that the fuel ran out. *)
Fixpoint receive_loop (fuel : nat) (w : World) : golang.Res (option (golang.error * World)) :=
  match fuel with
  | O => mret None
  | S fuel =>
      '(err, w) ← receive_turn w;
      match err with
      | Some _ => mret (Some (err, w))
      | None => receive_loop fuel w
      end
  end.

(** [receive]: the loop, then [terminateCalls(err)]. A turn that stays in
    the loop has read a header, so one turn more than there are messages
    is enough. *)
Definition receive (w : World) : golang.Res (option World) :=
  r ← receive_loop (S (length (codec.inbox (codec.conn (cc (self w)))))) w;
  match r with
  | None => mret None
  | Some (err, w) =>
      w ← terminateCalls err (range (pending (self w))) w;
      mret (Some w)
  end.

End receive.

End receive.

(** ** Package geerpc: [XDial] *)

Module xdial.

(** [strings.Split(s, "@")]: the pieces between the occurrences of the
    separator, one more than there are occurrences. *)
Fixpoint Split_at (s : string) : list string :=
  match s with
  | EmptyString => [""]
  | String a rest =>
      if bool_decide (a = "@"%char) then "" :: Split_at rest
      else match Split_at rest with
           | piece :: pieces => String a piece :: pieces
           | [] => [String a ""]
           end
  end.

Section XDial.

(** The outcome of dialling, and the two dial functions [XDial] hands
    over to: [Dial] and [DialHTTP] open network connections, which is
    outside this development. [failed] is the result [(nil, err)]. *)
Variable Outcome : Type.
Variable failed : string → Outcome.
Variable Dial DialHTTP : string → string → list (option geerpc.Option.t) → Outcome.

Definition XDial (rpcAdr : string) (opts : list (option geerpc.Option.t)) : Outcome :=
  let parts := Split_at rpcAdr in
  match parts with
  | [protocol; addr] =>
      if bool_decide (protocol = "http") then DialHTTP "tcp" addr opts
      else Dial protocol addr opts
  | _ =>
      failed ("rpc client err: wrong format '" +:+ rpcAdr +:+ "', expect protocol@adr")
  end.

End XDial.

End xdial.

(** ** Packages geeorm/dialect and geeorm/schema *)

Module orm.

(** All the kinds of Go's reflection, which [DataTypeOf] switches on. *)
Inductive Kind : Type :=
| Invalid | Bool | Int | Int8 | Int16 | Int32 | Int64
| Uint | Uint8 | Uint16 | Uint32 | Uint64 | Uintptr
| Float32 | Float64 | Complex64 | Complex128
| Array | Chan | Func | Interface | Map | Pointer | Slice | String | Struct
| UnsafePointer.

(** [Kind.String()]. *)
Definition kind_name (k : Kind) : string :=
  match k with
  | Invalid => "invalid" | Bool => "bool" | Int => "int" | Int8 => "int8"
  | Int16 => "int16" | Int32 => "int32" | Int64 => "int64"
  | Uint => "uint" | Uint8 => "uint8" | Uint16 => "uint16" | Uint32 => "uint32"
  | Uint64 => "uint64" | Uintptr => "uintptr"
  | Float32 => "float32" | Float64 => "float64"
  | Complex64 => "complex64" | Complex128 => "complex128"
  | Array => "array" | Chan => "chan" | Func => "func" | Interface => "interface"
  | Map => "map" | Pointer => "ptr" | Slice => "slice" | String => "string"
  | Struct => "struct" | UnsafePointer => "unsafe.Pointer"
  end.

(** The type of a struct field as the dialect looks at it: its kind, its
    name, and whether it is [time.Time]. *)
Record FieldType : Type := {
  kind : Kind;
  type_name : string;
  is_Time : bool;
}.

(** The interface [Dialect]. *)
Record Dialect : Type := {
  DataTypeOf : FieldType → golang.Res string;
  TableExistSQL : string → string * list golang.Value;
}.

(** [sqlite3.DataTypeOf]. *)
Definition sqlite3_DataTypeOf (typ : FieldType) : golang.Res string :=
  let refuse :=
    golang.Panic ("invalid sql type " +:+ type_name typ +:+ " ("
                  +:+ kind_name (kind typ) +:+ ")") in
  match kind typ with
  | Bool => mret "bool"
  | Int | Int8 | Int16 | Int32 | Uint | Uint8 | Uint16 | Uint32 | Uintptr =>
      mret "integer"
  | Uint64 | Int64 => mret "bigint"
  | Float32 | Float64 => mret "real"
  | Array | Slice => mret "blob"
  | String => mret "text"
  | Struct => if is_Time typ then mret "datetime" else refuse
  | _ => refuse
  end.

Definition sqlite3_TableExistSQL (tableName : string) : string * list golang.Value :=
  ("SELECT name FROM sqlite_master WHERE type='table' and name = ?",
   [golang.VStr tableName]).

Definition sqlite3 : Dialect :=
  {| DataTypeOf := sqlite3_DataTypeOf; TableExistSQL := sqlite3_TableExistSQL |}.

(** [dialectMap] with [RegisterDialect] and [GetDialect]. *)
Definition RegisterDialect (dialectMap : gmap string Dialect) (name : string) (d : Dialect)
  : gmap string Dialect :=
  <[name := d]> dialectMap.

Definition GetDialect (dialectMap : gmap string Dialect) (name : string) : option Dialect :=
  dialectMap !! name.

(** [dialectMap] after [init]. *)
Definition dialectMap_init : gmap string Dialect := RegisterDialect ∅ "sqlite3" sqlite3.

Module Field.
Record t : Type := {
  Name : string;
  Type_ : string;
  Tag : string;
}.
End Field.

(** A field of the model's struct type as [modelType.Field(i)] gives it:
    its name, its type and what [Tag.Lookup("geeorm")] finds. *)
Record StructField : Type := {
  SName : string;
  SType : FieldType;
  STag : option string;
}.

(** A model: a struct (or a pointer to one) with the name of its type
    and, in the order of declaration, its fields and their values. *)
Record Model : Type := {
  model_name : string;
  model_fields : list (StructField * golang.Value);
}.

Record Schema : Type := {
  Model_ : Model;
  Name : string;
  Fields : list Field.t;
  FieldNames : list string;
  fieldMap : gmap string Field.t;
}.

Definition GetFields (s : Schema) (name : string) : option Field.t :=
  fieldMap s !! name.

(** The loop of [Parse] over the fields of the model type. *)
Fixpoint Parse_loop (d : Dialect) (fs : list StructField) (schema : Schema)
  : golang.Res Schema :=
  match fs with
  | [] => mret schema
  | p :: fs =>
      t ← DataTypeOf d (SType p);
      let field := {| Field.Name := SName p; Field.Type_ := t;
                      Field.Tag := match STag p with Some v => v | None => "" end |} in
      Parse_loop d fs
        {| Model_ := Model_ schema; Name := Name schema;
           Fields := Fields schema ++ [field];
           FieldNames := FieldNames schema ++ [SName p];
           fieldMap := <[SName p := field]> (fieldMap schema) |}
  end.

Definition Parse (dest : Model) (d : Dialect) : golang.Res Schema :=
  Parse_loop d (fst <$> model_fields dest)
    {| Model_ := dest; Name := model_name dest; Fields := []; FieldNames := [];
       fieldMap := ∅ |}.

(** [destValue.FieldByName(name)]: the field of that name, if there is
    one. *)
Definition FieldByName (dest : Model) (name : string) : option (StructField * golang.Value) :=
  snd <$> list_find (fun fv => SName fv.1 = name) (model_fields dest).

(** [v.Interface()] on what [FieldByName] returned: it panics on the zero
    [Value] and on a field that is not exported. *)
Definition Value_Interface (found : option (StructField * golang.Value))
  : golang.Res golang.Value :=
  match found with
  | None => golang.Panic "reflect: call of reflect.Value.Interface on zero Value"
  | Some (sf, v) =>
      if ast.IsExported (SName sf) then mret v
      else golang.Panic
             "reflect.Value.Interface: cannot return value obtained from unexported field or method"
  end.

Fixpoint RecordValues_loop (dest : Model) (fields : list Field.t)
  (fieldsValues : list golang.Value) : golang.Res (list golang.Value) :=
  match fields with
  | [] => mret fieldsValues
  | field :: fields =>
      v ← Value_Interface (FieldByName dest (Field.Name field));
      RecordValues_loop dest fields (fieldsValues ++ [v])
  end.

Definition RecordValues (s : Schema) (dest : Model) : golang.Res (list golang.Value) :=
  RecordValues_loop dest (Fields s) [].

End orm.

(** ** Package geerpc: the goroutines of [serveCodec]

    [serveCodec] starts one goroutine per request with
    [go server.handleRequest(...)], and the handlers run beside the loop
    that reads the next requests. The goroutines share the codec, the
    registry and the [WaitGroup]. A step below is one of the actions
    between which they can interleave: one read from the connection, the
    call of a method, one [sendResponse] (a critical section of the mutex
    [sending]), the return of a handler, and [wg.Wait] with the
    [cc.Close()] behind it. Reads and writes of a connection meet in
    [Close] only, which is the last action of a failing [Write]. *)

Module serving.

Import codec service server.

(** Where the goroutine of [serveCodec] stands: about to read a header
    in [readRequest]; about to read the body for a method it has
    found; back from [readRequest] with a request and an error; at
    [wg.Wait()]; returned. *)
Inductive Main : Type :=
| ReadingHeader
| ReadingBody (hd : Header) (s : option service) (m : methodType) (a r : golang.Value)
| Refusing (req : request) (e : string)
| Waiting
| Returned.

(** Where a goroutine of [handleRequest] stands: before [req.svc.call],
    or behind it with calls of [sendResponse] still to make, all with the
    header [hd]; with none left it is about to return. *)
Inductive Handler : Type :=
| Calling (req : request)
| Responding (hd : Header) (bodies : list golang.Value).

Record State : Type := {
  registry : Server;
  cc : GobCodec;
  main : Main;
  handlers : list Handler;
}.

(** [atomic.AddUint64(&m.numCalls, 1)] on the descriptor that [m] points
    to. [s] and [m] are pointers into the registry, where [Register]
    stores a service under its own name and [registerMethods] a
    descriptor under the name of its method: the counter that advances is
    the one the registry holds now, whatever it was when [findService]
    handed the pointers out. *)
Definition AddUint64_numCalls (server : Server) (s : service) (m : methodType) : Server :=
  {| serviceMap :=
       alter (fun s' =>
                {| name := name s'; typ := typ s'; rcvr := rcvr s';
                   method :=
                     alter (fun m' =>
                              {| method_ := method_ m'; ArgType := ArgType m';
                                 ReplyType := ReplyType m';
                                 numCalls := golang.uint64 (numCalls m' + 1) |})
                           (reflect.MName (method_ m)) (method s') |})
             (name s) (serviceMap server) |}.

(** [serveCodec(cc)] as it starts. *)
Definition start (server : Server) (c : GobCodec) : State :=
  {| registry := server; cc := c; main := ReadingHeader; handlers := [] |}.

(** A step of the goroutine of [serveCodec]; [None] when it cannot move:
    [wg.Wait()] blocks while a handler is running. The statement
    [go server.handleRequest(...)] goes with the step before it. *)
Definition main_step (st : State) : option (golang.Res State) :=
  match main st with
  | ReadingHeader =>
      Some
        match readRequestHeader (cc st) with
        | (cc1, _, Some _) =>
            mret {| registry := registry st; cc := cc1; main := Waiting;
                    handlers := handlers st |}
        | (cc1, None, None) => golang.Panic golang.nil_deref
        | (cc1, Some hd, None) =>
            let '(svc0, mtype0, err) := findService (registry st) (ServiceMethod hd) in
            match err, mtype0 with
            | Some e, _ =>
                mret {| registry := registry st; cc := cc1;
                        main := Refusing {| h := hd; argv := golang.VNil; replyv := None;
                                            mtype := mtype0; svc := svc0 |} e;
                        handlers := handlers st |}
            | None, None => golang.Panic golang.nil_deref
            | None, Some mt =>
                a ← newArgv mt;
                r ← newReplyv mt;
                mret {| registry := registry st; cc := cc1;
                        main := ReadingBody hd svc0 mt a r;
                        handlers := handlers st |}
            end
        end
  | ReadingBody hd svc0 mt a r =>
      Some
        match ReadBody (cc st) (Some (value_fits (ArgType mt))) with
        | (cc1, inr e) =>
            mret {| registry := registry st; cc := cc1;
                    main := Refusing {| h := hd; argv := a; replyv := Some r;
                                        mtype := Some mt; svc := svc0 |} e;
                    handlers := handlers st |}
        | (cc1, inl v) =>
            mret {| registry := registry st; cc := cc1; main := ReadingHeader;
                    handlers :=
                      handlers st ++ [Calling {| h := hd; argv := v; replyv := Some r;
                                                 mtype := Some mt; svc := svc0 |}] |}
        end
  | Refusing req e =>
      let req := {| h := set_Error (h req) e; argv := argv req;
                    replyv := replyv req; mtype := mtype req; svc := svc req |} in
      Some (mret {| registry := registry st;
                    cc := sendResponse (cc st) (h req) invalidRequest;
                    main := ReadingHeader;
                    handlers := handlers st ++ [Calling req] |})
  | Waiting =>
      match handlers st with
      | [] => Some (mret {| registry := registry st; cc := (Close (cc st)).1;
                            main := Returned; handlers := [] |})
      | _ :: _ => None
      end
  | Returned => None
  end.

(** A step of the [j]-th handler that is still running; [None] when
    there is none. The deferred [wg.Done()] takes the handler off the
    list. *)
Definition handler_step (j : nat) (st : State) : option (golang.Res State) :=
  match handlers st !! j with
  | None => None
  | Some (Calling req) =>
      Some ('(_, reply', err) ← call (svc req) (mtype req) (argv req) (replyv req);
            let reg := match svc req, mtype req with
                       | Some s, Some m => AddUint64_numCalls (registry st) s m
                       | _, _ => registry st
                       end in
            let hl := match err with
                      | Some e => Responding (set_Error (h req) e) [invalidRequest; reply']
                      | None => Responding (h req) [reply']
                      end in
            mret {| registry := reg; cc := cc st; main := main st;
                    handlers := <[j := hl]> (handlers st) |})
  | Some (Responding hd (body :: rest)) =>
      Some (mret {| registry := registry st; cc := sendResponse (cc st) hd body;
                    main := main st;
                    handlers := <[j := Responding hd rest]> (handlers st) |})
  | Some (Responding hd []) =>
      Some (mret {| registry := registry st; cc := cc st; main := main st;
                    handlers := delete j (handlers st) |})
  end.

(** The goroutine [i] moves: [0] is the goroutine of [serveCodec],
    [S j] the [j]-th running handler. *)
Definition step (i : nat) (st : State) : option (golang.Res State) :=
  match i with
  | O => main_step st
  | S j => handler_step j st
  end.

(** A schedule is the list of the goroutines picked in turn; a pick that
    cannot move is passed over. A panic in any goroutine ends the
    program. *)
Fixpoint run (schedule : list nat) (st : State) : golang.Res State :=
  match schedule with
  | [] => mret st
  | i :: schedule =>
      match step i st with
      | None => run schedule st
      | Some r => st ← r; run schedule st
      end
  end.

End serving.

(** ** Further values used in the examples *)

Module more_samples.

(** The service [newService(&foo)] builds and its descriptor of [Fail]. *)
Definition foo_service : service.service :=
  service.registerMethods
    {| service.name := "Foo"; service.typ := reflect.PtrTo samples.Foo;
       service.rcvr := samples.foo; service.method := ∅ |}.

Definition Fail_descriptor : service.methodType :=
  {| service.method_ := samples.Fail; service.ArgType := samples.Args;
     service.ReplyType := reflect.PtrTo samples.int; service.numCalls := 0 |}.

(** The client of [samples.one_pending_world] when the caller's reply
    variable is a struct that holds [{5, 5}] already. *)
Definition pair_call : client.Call :=
  {| client.Seq := 1; client.ServiceMethod := "Foo.Pair";
     client.Args := golang.VStruct [1; 3]%Z; client.Reply := golang.VStruct [5; 5]%Z;
     client.Error := None; client.Done := Some 0 |}.

Definition pair_pending_world : client.World :=
  client.with_calls samples.one_pending_world {[ 0 := pair_call ]}.

End more_samples.

(** ** Models used in the examples of the schema *)

Module orm_samples.

Definition string_type : orm.FieldType :=
  {| orm.kind := orm.String; orm.type_name := "string"; orm.is_Time := false |}.
Definition int_type : orm.FieldType :=
  {| orm.kind := orm.Int; orm.type_name := "int"; orm.is_Time := false |}.
Definition map_type : orm.FieldType :=
  {| orm.kind := orm.Map; orm.type_name := ""; orm.is_Time := false |}.

(** [type User struct { Name string `geeorm:"PRIMARY KEY"`; Age int }]
    and the value [User{"Tom", 18}]. *)
Definition Name_field : orm.StructField :=
  {| orm.SName := "Name"; orm.SType := string_type; orm.STag := Some "PRIMARY KEY" |}.
Definition Age_field : orm.StructField :=
  {| orm.SName := "Age"; orm.SType := int_type; orm.STag := None |}.

Definition Tom : orm.Model :=
  {| orm.model_name := "User";
     orm.model_fields := [(Name_field, golang.VStr "Tom"); (Age_field, golang.VInt 18)] |}.

Definition Sam : orm.Model :=
  {| orm.model_name := "User";
     orm.model_fields := [(Name_field, golang.VStr "Sam"); (Age_field, golang.VInt 25)] |}.

(** [type Account struct { ID int; Labels map[string]string; Name string }]. *)
Definition Account : orm.Model :=
  {| orm.model_name := "Account";
     orm.model_fields :=
       [({| orm.SName := "ID"; orm.SType := int_type; orm.STag := None |}, golang.VInt 1);
        ({| orm.SName := "Labels"; orm.SType := map_type; orm.STag := None |},
         golang.VMap []);
        (Name_field, golang.VStr "Tom")] |}.

End orm_samples.

(** ** Vocabulary of the further statements *)

Section more_vocabulary.

(** The characters of [s], none of which is the dot. *)
Definition no_dot (s : string) : Prop :=
  Forall (fun a => a ≠ "."%char) (String.list_ascii_of_string s).

(** A registry as [Register] builds it: every service is stored under
    its own name and every descriptor under the name of its method. *)
Definition registry_ok (srv : server.Server) : Prop :=
  ∀ k svc, server.serviceMap srv !! k = Some svc →
    service.name svc = k ∧
    ∀ n d, service.method svc !! n = Some d → reflect.MName (service.method_ d) = n.

(** The sequence numbers of the pending calls lie below the next one to
    be given out, which is a [uint64]. *)
Definition pending_below (w : client.World) : Prop :=
  (∀ n p, client.pending (client.self w) !! n = Some p →
          (0 ≤ n < client.seq (client.self w))%Z) ∧
  (0 ≤ client.seq (client.self w) < 2 ^ 64)%Z.

(** Descriptors, services and registries that differ at most in the call
    counters of their methods. *)
Definition same_method (d d' : service.methodType) : Prop :=
  service.method_ d = service.method_ d' ∧
  service.ArgType d = service.ArgType d' ∧
  service.ReplyType d = service.ReplyType d'.

Definition same_service (s s' : service.service) : Prop :=
  service.name s = service.name s' ∧ service.typ s = service.typ s' ∧
  service.rcvr s = service.rcvr s' ∧
  ∀ n, match service.method s !! n, service.method s' !! n with
       | Some d, Some d' => same_method d d'
       | None, None => True
       | _, _ => False
       end.

Definition same_registry (srv srv' : server.Server) : Prop :=
  ∀ k, match server.serviceMap srv !! k, server.serviceMap srv' !! k with
       | Some s, Some s' => same_service s s'
       | None, None => True
       | _, _ => False
       end.





(** The characters of [s], none of which is the at sign; and the number
    of at signs in [s]. *)
Definition no_at (s : string) : Prop :=
  Forall (fun a => a ≠ "@"%char) (String.list_ascii_of_string s).

Definition count_at (s : string) : nat :=
  length (filter (fun a => a = "@"%char) (String.list_ascii_of_string s)).

(** The schema field [f] is what [Parse] makes of the struct field [sf]
    under the dialect [d]: the same name, the dialect's data type for the
    field's type, and the [geeorm] tag, empty when there is none. *)
Definition parsed (d : orm.Dialect) (sf : orm.StructField) (f : orm.Field.t) : Prop :=
  orm.Field.Name f = orm.SName sf ∧
  orm.DataTypeOf d (orm.SType sf) = golang.Ok (orm.Field.Type_ f) ∧
  orm.Field.Tag f = match orm.STag sf with Some v => v | None => "" end.

(** The names of the fields of a model, in the order of declaration. *)
Definition field_names (dest : orm.Model) : list string :=
  (fun fv => orm.SName fv.1) <$> orm.model_fields dest.







(** The schedule of [server.serveCodec_loop]: after every step of the
    loop the handler that it has started, if it has started one, is given
    the four steps that take it to its end. *)
Definition inline (turns : nat) : list nat :=
  concat (replicate turns [0; 1; 1; 1; 1]).

(** One more field entered in the field map of a schema. *)
Definition remember (m : gmap string orm.Field.t) (f : orm.Field.t)
  : gmap string orm.Field.t :=
  <[orm.Field.Name f := f]> m.

End more_vocabulary.

(** * Properties *)

(** ** The gob codec *)

Section GobCodec_facts.

Import codec.

Lemma conn_write_ok k m k' :
  conn_write k m = (k', None) →
  closed k = false ∧ broken k = false ∧ closed k' = false ∧ broken k' = false ∧
  wire k' = wire k ++ [m] ∧ inbox k' = inbox k.
Proof.
  unfold conn_write. destruct (closed k) eqn:Hc; [discriminate|].
  destruct (broken k) eqn:Hb; [discriminate|].
  intros [= <-]. done.
Qed.

Lemma conn_write_err k m k' e :
  conn_write k m = (k', Some e) → k' = k.
Proof.
  unfold conn_write. destruct (closed k); [by intros [= <- _]|].
  destruct (broken k); [by intros [= <- _]|]. discriminate.
Qed.

Lemma flush_all_open k ms :
  closed k = false → broken k = false →
  ∃ k', flush_all k ms = (k', []) ∧ closed k' = false ∧ broken k' = false ∧
        wire k' = wire k ++ ms ∧ inbox k' = inbox k.
Proof.
  revert k. induction ms as [|m ms IH]; intros k Hc Hb; simpl.
  - exists k. by rewrite app_nil_r.
  - unfold conn_write. rewrite Hc, Hb.
    destruct (IH {| inbox := inbox k; wire := wire k ++ [m];
                    closed := false; broken := false |}) as (k' & -> & ? & ? & Hw & Hi);
      [done..|].
    exists k'. simpl in Hw, Hi. rewrite Hw, <- app_assoc. done.
Qed.

Lemma flush_all_closed k ms : closed (flush_all k ms).1 = closed k.
Proof.
  revert k. induction ms as [|m ms IH]; intros k; simpl; [done|].
  destruct (conn_write k m) as [k' [e|]] eqn:Hw.
  - by rewrite (conn_write_err _ _ _ _ Hw).
  - rewrite IH. apply conn_write_ok in Hw as (-> & _ & -> & _). done.
Qed.

Lemma Close_closed c : closed (conn (Close c).1) = true.
Proof. unfold Close. by destruct (closed (conn c)) eqn:E. Qed.

Lemma Write_deferred_err c e : closed (conn (Write_deferred c (Some e))) = true.
Proof. unfold Write_deferred. apply Close_closed. Qed.

Lemma Write_deferred_ok c :
  closed (conn c) = false → broken (conn c) = false →
  let c' := Write_deferred c None in
  flushes c' = S (flushes c) ∧ buf c' = [] ∧ closed (conn c') = false ∧
  wire (conn c') = wire (conn c) ++ buf c ∧ inbox (conn c') = inbox (conn c).
Proof.
  intros Hc Hb. unfold Write_deferred, buf_Flush.
  destruct (flush_all_open (conn c) (buf c) Hc Hb) as (k' & -> & ? & ? & ? & ?).
  done.
Qed.

(** C9. Whenever [GobCodec.Write] returns an error the connection has
    been closed by the time it returns; when it returns nil the buffered
    writer was flushed (one more flush, nothing left in the buffer) and
    the connection is open. *)
Theorem GobCodec_Write_error_is_fatal (c : GobCodec) (h : Header) (body : golang.Value) :
  match Write c h body with
  | (c', Some _) => closed (conn c') = true
  | (c', None) =>
      flushes c' = S (flushes c) ∧ buf c' = [] ∧ closed (conn c') = false
  end.
Proof.
  unfold Write, enc_Encode_header.
  destruct (conn_write (conn c) (MsgHeader h)) as [k1 [e1|]] eqn:H1.
  { apply Write_deferred_err. }
  apply conn_write_ok in H1 as (_ & _ & Hc1 & Hb1 & _).
  unfold enc_Encode_body. simpl.
  destruct (gob_encodable body).
  - destruct (conn_write k1 (MsgBody body)) as [k2 [e2|]] eqn:H2.
    { apply Write_deferred_err. }
    apply conn_write_ok in H2 as (_ & _ & Hc2 & Hb2 & _).
    destruct (Write_deferred_ok (with_conn (with_conn c k1) k2)) as (? & ? & ? & _);
      done.
  - apply Write_deferred_err.
Qed.

End GobCodec_facts.

(** ** Options and the handshake *)

Section Option_facts.

Import geerpc.

(** C6. [parseOptions] called with exactly one non-nil option returns that
    option without error, with [MagicNumber] overwritten by the default
    [0x3bef5c] whatever the caller put there, and with an empty
    [CodecType] replaced by the gob codec type (any other is kept). *)
Theorem parseOptions_single (o : Option.t) :
  ∃ o', parseOptions [Some o] = (Some o', None) ∧
        Option.MagicNumber o' = 0x3bef5c%Z ∧
        Option.CodecType o' =
          (if bool_decide (Option.CodecType o = "") then "application/gob"
           else Option.CodecType o) ∧
        Option.ConnectTimeout o' = Option.ConnectTimeout o ∧
        Option.HandleTimeout o' = Option.HandleTimeout o.
Proof.
  unfold parseOptions. simpl.
  destruct (bool_decide (Option.CodecType o = "")); eexists; done.
Qed.

Lemma parseOptions_default_when_absent (rest : list (option Option.t)) :
  parseOptions [] = (Some DefaultOption, None) ∧
  parseOptions (None :: rest) = (Some DefaultOption, None).
Proof. done. Qed.

Lemma parseOptions_too_many (o : Option.t) (x : option Option.t) rest :
  parseOptions (Some o :: x :: rest) = (None, Some "number of options is more than 1").
Proof. done. Qed.

Lemma NewCodecFuncMap_lookup (t : string) :
  codec.NewCodecFuncMap !! t =
    if bool_decide (t = codec.GobType) then Some codec.NewGobCodec else None.
Proof.
  unfold codec.NewCodecFuncMap. case_bool_decide as E.
  - subst. apply lookup_singleton_eq.
  - apply lookup_singleton_ne. congruence.
Qed.

(** C5. When the decoded option carries a magic number other than
    [0x3bef5c], or names a codec type without a constructor in
    [NewCodecFuncMap], [ServerConn] returns with the connection closed,
    having read no request from it and written nothing to it; the
    registry is as it was. *)
Theorem ServerConn_rejects (srv : server.Server) (o : Option.t) (conn : codec.Conn) :
  Option.MagicNumber o ≠ 0x3bef5c%Z ∨ codec.NewCodecFuncMap !! Option.CodecType o = None →
  ∃ conn', server.ServerConn srv (inl o) conn = golang.Ok (Some (srv, conn')) ∧
           codec.closed conn' = true ∧
           codec.inbox conn' = codec.inbox conn ∧
           codec.wire conn' = codec.wire conn.
Proof.
  intros H. exists (codec.conn_close conn). split; [|done].
  unfold server.ServerConn. case_bool_decide as Hm; [done|].
  destruct H as [H| ->]; [|done]. by destruct H.
Qed.

Lemma ServerConn_rejects_witness :
  ∃ conn', server.ServerConn server.NewServer
             (inl {| Option.MagicNumber := 1; Option.CodecType := "application/gob";
                     Option.ConnectTimeout := 0; Option.HandleTimeout := 0 |})
             {| codec.inbox := [codec.MsgBody (golang.VInt 1)]; codec.wire := [];
                codec.closed := false; codec.broken := false |}
           = golang.Ok (Some (server.NewServer, conn')) ∧
           codec.closed conn' = true ∧
           codec.inbox conn' = [codec.MsgBody (golang.VInt 1)] ∧
           codec.wire conn' = [].
Proof. apply (ServerConn_rejects server.NewServer); left; simpl; lia. Defined.

Lemma ServerConn_rejects_unknown_codec :
  codec.NewCodecFuncMap !! "application/json" = None.
Proof. by rewrite NewCodecFuncMap_lookup. Qed.

End Option_facts.

(** ** The service reflector *)

Section service_facts.

Import service.

Lemma registerMethods_body_spec (acc : gmap string methodType) (m : reflect.Method) :
  registerMethods_body acc m = acc ∨
  ∃ d, registerMethods_body acc m = <[reflect.MName m := d]> acc ∧ recorded_from m d.
Proof.
  unfold registerMethods_body, reflect.NumIn, reflect.NumOut.
  case_bool_decide as Harity; [by left|].
  destruct (reflect.MType m) as [ins outs] eqn:HT; simpl in *.
  destruct outs as [|out0 [|? ?]]; simpl in *;
    [destruct Harity; lia| |destruct Harity; lia].
  destruct ins as [|recv [|a [|r [|? ?]]]]; simpl in *;
    [destruct Harity; lia..| |destruct Harity; lia].
  case_bool_decide as Hout; [by left|].
  destruct (isExportedOrBuiltinType a) eqn:Ha; [|by left].
  destruct (isExportedOrBuiltinType r) eqn:Hr; [|by left].
  right. eexists. split; [done|].
  unfold recorded_from. simpl. rewrite HT. simpl.
  repeat split; try done.
  - f_equal. destruct (decide (out0 = reflect.errorType)); [done|by destruct Hout].
  - by exists recv.
Qed.

Lemma registerMethods_fold (ms : list reflect.Method) (acc : gmap string methodType) n d :
  foldl registerMethods_body acc ms !! n = Some d →
  acc !! n = Some d ∨ ∃ m, m ∈ ms ∧ reflect.MName m = n ∧ recorded_from m d.
Proof.
  revert acc. induction ms as [|m ms IH]; intros acc; simpl; [by left|].
  intros H. apply IH in H as [H|(m' & ? & ? & ?)].
  - destruct (registerMethods_body_spec acc m) as [->|(d' & -> & Hd')] in H; [by left|].
    destruct (decide (reflect.MName m = n)) as [<-|Hne].
    + rewrite lookup_insert_eq in H. injection H as <-.
      right. exists m. split; [left|done].
    + rewrite lookup_insert_ne in H by done. by left.
  - right. exists m'. split; [by right|done].
Qed.

(** Every entry of the method map of a new service was recorded from one
    of the receiver's methods. *)
Lemma newService_method (obj : reflect.Object) (s : service) n d :
  newService obj = golang.Ok s → method s !! n = Some d →
  ∃ m, m ∈ reflect.omethods obj ∧ reflect.MName m = n ∧ recorded_from m d.
Proof.
  unfold newService. destruct (negb _); [done|].
  intros [= <-]. simpl. intros H.
  apply registerMethods_fold in H as [H|H]; [|done].
  by rewrite lookup_empty in H.
Qed.

(** The repository's [TestNewService]: [newService(&foo)] for a [Foo] with
    the exported method [Sum] has exactly that method. *)
Example TestNewService :
  ∃ s, newService {| reflect.otype := reflect.PtrTo samples.Foo;
                     reflect.omethods := [samples.Sum];
                     reflect.ovalue := golang.VInt 0 |} = golang.Ok s ∧
       size (method s) = 1 ∧ is_Some (method s !! "Sum").
Proof. eexists. split; [reflexivity|]. split; [vm_compute; reflexivity|]. eexists; reflexivity. Qed.

(** C4 (the code departs from it). [newService(&bar)], where [Bar] has the
    method [Echo(arg int, reply int) error], records [Echo] with the reply
    type [int], which is not a pointer type; [newReplyv] on that
    descriptor panics. *)
Theorem registerMethods_records_non_pointer_reply :
  ∃ s d, newService samples.bar = golang.Ok s ∧
         method s !! "Echo" = Some d ∧
         ReplyType d = reflect.Builtin "int" reflect.Int ∧
         reflect.is_ptr (ReplyType d) = false ∧
         reflect.kind (ReplyType d) ≠ reflect.Ptr ∧
         newReplyv d = golang.Panic "reflect: Elem of invalid type".
Proof.
  do 2 eexists. split; [reflexivity|].
  split; [reflexivity|]. simpl. repeat split; done.
Qed.

End service_facts.

(** ** The server *)

Section server_facts.

Import codec server.

Lemma frames_written_app (k : Conn) (ms : list Msg) (k' : Conn) :
  wire k' = wire k ++ ms →
  frames_written k' =
    frames_written k ++
    omap (fun m => match m with MsgHeader h => Some h | MsgBody _ => None end) ms.
Proof. unfold frames_written. intros ->. apply omap_app. Qed.

(** A write on an open, working connection puts one frame on the wire. *)
Lemma Write_open (c : GobCodec) (hd : Header) (body : golang.Value) :
  closed (conn c) = false → broken (conn c) = false → buf c = [] →
  gob_encodable body = true →
  ∃ c', Write c hd body = (c', None) ∧
        closed (conn c') = false ∧ broken (conn c') = false ∧ buf c' = [] ∧
        inbox (conn c') = inbox (conn c) ∧
        wire (conn c') = wire (conn c) ++ [MsgHeader hd; MsgBody body].
Proof.
  intros Hc Hb Hbuf Henc.
  unfold Write, enc_Encode_header, enc_Encode_body, conn_write.
  rewrite Hc, Hb. simpl. rewrite Henc. simpl.
  unfold Write_deferred, buf_Flush. simpl. rewrite Hbuf. simpl.
  eexists. split; [done|]. simpl. rewrite <- app_assoc. done.
Qed.

Lemma sendResponse_open (c : GobCodec) (hd : Header) (body : golang.Value) :
  closed (conn c) = false → broken (conn c) = false → buf c = [] →
  gob_encodable body = true →
  let c' := sendResponse c hd body in
  closed (conn c') = false ∧ broken (conn c') = false ∧ buf c' = [] ∧
  inbox (conn c') = inbox (conn c) ∧
  frames_written (conn c') = frames_written (conn c) ++ [hd].
Proof.
  intros Hc Hb Hbuf Henc. unfold sendResponse.
  destruct (Write_open c hd body) as (c' & -> & ? & ? & ? & ? & Hw); [done..|].
  simpl. repeat split; try done. by rewrite (frames_written_app _ _ _ Hw).
Qed.

(** When the method returns nil, [handleRequest] writes one frame, under
    the header of the request. *)
Lemma handleRequest_success (srv : Server) (c : GobCodec) (req : request) m' reply' :
  service.call (svc req) (mtype req) (argv req) (replyv req) = golang.Ok (m', reply', None) →
  closed (conn c) = false → broken (conn c) = false → buf c = [] →
  gob_encodable reply' = true →
  ∃ srv' c', handleRequest srv c req = golang.Ok (srv', c') ∧
             frames_written (conn c') = frames_written (conn c) ++ [h req].
Proof.
  intros Hcall Hc Hb Hbuf Henc. unfold handleRequest. rewrite Hcall. simpl.
  do 2 eexists. split; [done|].
  by destruct (sendResponse_open c (h req) reply') as (_ & _ & _ & _ & ->).
Qed.

(** When the method returns an error, [handleRequest] writes two frames,
    both under the header of the request with [Error] set. *)
Lemma handleRequest_failure (srv : Server) (c : GobCodec) (req : request) m' reply' e :
  service.call (svc req) (mtype req) (argv req) (replyv req)
    = golang.Ok (m', reply', Some e) →
  closed (conn c) = false → broken (conn c) = false → buf c = [] →
  gob_encodable reply' = true →
  ∃ srv' c', handleRequest srv c req = golang.Ok (srv', c') ∧
             frames_written (conn c') =
               frames_written (conn c) ++ [set_Error (h req) e; set_Error (h req) e].
Proof.
  intros Hcall Hc Hb Hbuf Henc. unfold handleRequest. rewrite Hcall. simpl.
  do 2 eexists. split; [done|].
  destruct (sendResponse_open c (set_Error (h req) e) invalidRequest)
    as (Hc1 & Hb1 & Hbuf1 & _ & Hw1); [done..|].
  destruct (sendResponse_open _ (set_Error (h req) e) reply' Hc1 Hb1 Hbuf1 Henc)
    as (_ & _ & _ & _ & ->).
  rewrite Hw1, <- app_assoc. done.
Qed.

(** C1 (the code departs from it). One request frame for [Foo.Fail], with
    [Seq] 7, is read and dispatched; the method returns the error "boom".
    [handleRequest] then writes two response frames, not one: both carry
    [Seq] 7 and the error. [serveCodec] on the same connection writes the
    same two frames. For [Foo.Sum] one frame is written. *)
Theorem handleRequest_error_writes_two_frames :
  let failed := {| ServiceMethod := "Foo.Fail"; Seq := 7; Error := "boom" |} in
  let cc := samples.incoming (samples.request_frame "Foo.Fail" 7 (golang.VStruct [1; 3]%Z)) in
  ∃ srv cc1 req srv1 cc2 srv2 cc3,
    samples.foo_server = golang.Ok srv ∧
    readRequest srv cc = golang.Ok (cc1, Some req, None) ∧
    h req = {| ServiceMethod := "Foo.Fail"; Seq := 7; Error := "" |} ∧
    handleRequest srv cc1 req = golang.Ok (srv1, cc2) ∧
    frames_written (conn cc2) = [failed; failed] ∧
    serveCodec srv cc = golang.Ok (Some (srv2, cc3)) ∧
    frames_written (conn cc3) = [failed; failed].
Proof.
  intros failed cc. do 7 eexists.
  split; [reflexivity|].
  split; [reflexivity|].
  split; [reflexivity|].
  split; [reflexivity|].
  split; [vm_compute; reflexivity|].
  split; [reflexivity|].
  vm_compute; reflexivity.
Qed.

Example handleRequest_Sum_writes_one_frame :
  let cc := samples.incoming (samples.request_frame "Foo.Sum" 7 (golang.VStruct [1; 3]%Z)) in
  ∃ srv srv' cc',
    samples.foo_server = golang.Ok srv ∧
    serveCodec srv cc = golang.Ok (Some (srv', cc')) ∧
    wire (conn cc') =
      [MsgHeader {| ServiceMethod := "Foo.Sum"; Seq := 7; Error := "" |};
       MsgBody (golang.VInt 4)].
Proof.
  intros cc. do 3 eexists.
  split; [reflexivity|].
  split; [reflexivity|].
  vm_compute; reflexivity.
Qed.

(** When the lookup of the service method fails, [readRequest] returns the
    request and the error right after the header: the connection is where
    [ReadHeader] left it, with the body of the request still unread. *)
Lemma readRequest_lookup_failure (srv : Server) (c c1 : GobCodec) (hd : Header) s m e :
  ReadHeader c = (c1, inl hd) →
  findService srv (ServiceMethod hd) = (s, m, Some e) →
  readRequest srv c =
    golang.Ok (c1, Some {| h := hd; argv := golang.VNil; replyv := None;
                           mtype := m; svc := s |}, Some e).
Proof.
  intros Hh Hf. unfold readRequest, readRequestHeader. by rewrite Hh, Hf.
Qed.

Lemma findService_error_no_method (srv : Server) (name : string) s m e :
  findService srv name = (s, m, Some e) → m = None.
Proof.
  unfold findService. destruct (_ <? _)%Z; [by intros [= <- <- <-]|].
  destruct (serviceMap srv !! _) as [sv|]; [|by intros [= <- <- <-]].
  destruct (service.method sv !! _); [done|by intros [= <- <- <-]].
Qed.

(** C2 (the code departs from it). A request frame for the unknown method
    [Foo.Nope] arrives, followed by nothing else. [readRequest] reports the
    lookup error with the body still first in the connection's unread
    input: nothing read it. The error response that [serveCodec] then sends
    reuses the header with [Error] set; after it the handler is started on
    the failed request and the nil method descriptor makes it panic. *)
Theorem readRequest_lookup_failure_leaves_body :
  let body := golang.VStruct [1; 3]%Z in
  let hd := {| ServiceMethod := "Foo.Nope"; Seq := 3; Error := "" |} in
  let cc := samples.incoming (samples.request_frame "Foo.Nope" 3 body) in
  ∃ srv cc1 req e,
    samples.foo_server = golang.Ok srv ∧
    readRequest srv cc = golang.Ok (cc1, Some req, Some e) ∧
    e = "rpc server: can't find method Nope" ∧
    h req = hd ∧ mtype req = None ∧
    inbox (conn cc1) = [MsgBody body] ∧
    wire (conn (sendResponse cc1 (set_Error (h req) e) invalidRequest)) =
      [MsgHeader (set_Error hd e); MsgBody golang.VEmptyStruct] ∧
    inbox (conn (sendResponse cc1 (set_Error (h req) e) invalidRequest)) = [MsgBody body] ∧
    serveCodec srv cc = golang.Panic golang.nil_deref.
Proof.
  intros body hd cc. do 4 eexists.
  split; [reflexivity|].
  split; [reflexivity|].
  split; [reflexivity|].
  repeat split; vm_compute; reflexivity.
Qed.

End server_facts.

(** ** The client *)

Section client_facts.

Import client.

Lemma store_Error_inv (p : ptr) (e : golang.error) (w w' : World) :
  store_Error p e w = golang.Ok w' →
  self w' = self w ∧ chans w' = chans w ∧
  ∃ c, calls w !! p = Some c ∧ calls w' = <[p := set_Error c e]> (calls w).
Proof.
  unfold store_Error. destruct (calls w !! p) as [c|]; [|done].
  intros [= <-]. eauto.
Qed.

Lemma done_inv (p : ptr) (w w' : World) :
  done p w = golang.Ok w' → self w' = self w ∧ calls w' = calls w.
Proof.
  unfold done. destruct (calls w !! p) as [c|]; [|done].
  destruct (Done c) as [ch|]; [|done].
  destruct (chans w !! ch) as [k|]; [|done].
  destruct (chan_closed k); [done|].
  case_bool_decide; [|done]. by intros [= <-].
Qed.

Lemma terminate_one_inv (err : golang.error) (w w' : World) (p : ptr) :
  terminate_one err w p = golang.Ok w' →
  self w' = self w ∧
  ∃ c, calls w !! p = Some c ∧ calls w' = <[p := set_Error c err]> (calls w).
Proof.
  unfold terminate_one.
  destruct (store_Error p err w) as [w1| |] eqn:H1; [|done..]. simpl.
  intros H2. apply store_Error_inv in H1 as (Hs & _ & c & Hc & Hcalls).
  apply done_inv in H2 as [-> ->]. eauto.
Qed.

(** A call whose [Error] is [err] keeps it through the loop, and every
    call the loop visits gets it. *)
Lemma terminate_all_inv (err : golang.error) (visit : list (Z * ptr)) (w w' : World) :
  terminate_all err visit w = golang.Ok w' →
  self w' = self w ∧
  (∀ p c, calls w !! p = Some c → Error c = err →
          ∃ c', calls w' !! p = Some c' ∧ Error c' = err) ∧
  (∀ n p, (n, p) ∈ visit → ∃ c', calls w' !! p = Some c' ∧ Error c' = err).
Proof.
  revert w. induction visit as [|[n p] visit IH]; intros w; simpl.
  - intros [= <-]. split; [done|]. split; [eauto|]. intros ?? H. by apply elem_of_nil in H.
  - destruct (terminate_one err w p) as [w1| |] eqn:H1; [|done..]. simpl.
    intros H2. apply terminate_one_inv in H1 as (Hs & c & Hc & Hcalls).
    apply IH in H2 as (-> & Hkeep & Hvisit).
    assert (Hstep : ∀ q d, calls w !! q = Some d → Error d = err →
                           ∃ d', calls w1 !! q = Some d' ∧ Error d' = err).
    { intros q d Hq Hd. rewrite Hcalls. destruct (decide (p = q)) as [->|Hne].
      - rewrite lookup_insert_eq. eauto.
      - rewrite lookup_insert_ne by done. eauto. }
    split; [done|]. split.
    + intros q d Hq Hd. destruct (Hstep q d Hq Hd) as (d' & Hq' & Hd'). eauto.
    + intros m q Hin. apply elem_of_cons in Hin as [[= -> ->]|Hin]; [|eauto].
      apply (Hkeep p (set_Error c err)); [|done].
      rewrite Hcalls. apply lookup_insert_eq.
Qed.






End client_facts.

Section client_pending_examples.

Import client.

Example one_pending_is_reached :
  samples.one_pending = golang.Ok (0, samples.one_pending_world).
Proof. vm_compute. reflexivity. Qed.



End client_pending_examples.

(** ** [Client.Go] and the [done] channel *)

Section client_Go_facts.

Import client.

Lemma store_Error_panic (p : ptr) (e : golang.error) (w : World) msg :
  store_Error p e w = golang.Panic msg → msg = golang.nil_deref.
Proof. unfold store_Error. destruct (calls w !! p); [done|]. by intros [= <-]. Qed.

Lemma done_panic (p : ptr) (w : World) msg :
  done p w = golang.Panic msg → msg = golang.nil_deref ∨ msg = golang.send_on_closed.
Proof.
  unfold done. destruct (calls w !! p) as [c|]; [|intros [= <-]; by left].
  destruct (Done c) as [ch|]; [|done].
  destruct (chans w !! ch) as [k|]; [|done].
  destruct (chan_closed k); [intros [= <-]; by right|].
  by case_bool_decide.
Qed.

Lemma store_then_done_panic (p : ptr) (e : golang.error) (w : World) msg :
  (w1 ← store_Error p e w; done p w1) = golang.Panic msg →
  msg = golang.nil_deref ∨ msg = golang.send_on_closed.
Proof.
  destruct (store_Error p e w) as [w1|m|] eqn:H1; simpl; [apply done_panic| |done].
  intros [= <-]. left. by apply store_Error_panic in H1.
Qed.

(** The only panics [send] can end in are those of the runtime. *)
Lemma send_panic (p : ptr) (w : World) msg :
  send p w = golang.Panic msg → msg = golang.nil_deref ∨ msg = golang.send_on_closed.
Proof.
  unfold send, registerCall.
  destruct (closing (self w) || shutdown (self w)); simpl.
  { apply store_then_done_panic. }
  destruct (calls w !! p) as [c|]; simpl; [|intros [= <-]; by left].
  rewrite lookup_insert_eq.
  destruct (codec.Write _ _ _) as [cc' [e|]]; [|done].
  unfold removeCall. simpl. rewrite lookup_insert_eq.
  apply store_then_done_panic.
Qed.

(** C8. [Client.Go] called with a non-nil [done] channel panics with "rpc
    client: done channel is unbuffered" exactly when the capacity of the
    channel is 0: always for capacity 0, never for capacity 1 or more. *)
Theorem Go_panics_iff_unbuffered
  (serviceMethod : string) (args reply : golang.Value) (ch : ptr) (w : World) :
  Go serviceMethod args reply (Some ch) w = golang.Panic unbuffered ↔ chan_cap w ch = 0.
Proof.
  unfold Go. case_bool_decide as Hcap; simpl.
  - done.
  - split; [|done]. intros H. exfalso.
    match type of H with
    | context [send ?p ?w0] => destruct (send p w0) as [w1|msg|] eqn:Hs
    end; simpl in H; [done| |done].
    injection H as ->. by apply send_panic in Hs as [Hs|Hs].
Qed.

Lemma Go_panics_iff_unbuffered_witness :
  chan_cap samples.unbuffered_world 0 = 0 ∧
  Go "Foo.Sum" (golang.VStruct [1; 3]%Z) (golang.VInt 0) (Some 0) samples.unbuffered_world
    = golang.Panic unbuffered ∧
  chan_cap samples.buffered_world 0 = 1 ∧
  Go "Foo.Sum" (golang.VStruct [1; 3]%Z) (golang.VInt 0) (Some 0) samples.buffered_world
    ≠ golang.Panic unbuffered.
Proof.
  split; [reflexivity|]. split.
  - apply (Go_panics_iff_unbuffered "Foo.Sum" _ _ 0 samples.unbuffered_world). reflexivity.
  - split; [reflexivity|]. intros H.
    apply (Go_panics_iff_unbuffered "Foo.Sum" _ _ 0 samples.buffered_world) in H.
    vm_compute in H. discriminate.
Defined.

Lemma done_room (p : ptr) (w : World) (c : Call) (ch : ptr) (k : Chan) :
  calls w !! p = Some c → Done c = Some ch → chans w !! ch = Some k →
  chan_closed k = false → length (queue k) < cap k →
  done p w =
    golang.Ok (with_chans w (<[ch := {| cap := cap k; queue := queue k ++ [p];
                                        chan_closed := false |}]> (chans w))).
Proof.
  intros Hp Hd Hch Hcl Hlen. unfold done. rewrite Hp, Hd, Hch, Hcl.
  by rewrite bool_decide_true.
Qed.

(** A call with room in its [Done] channel goes through [send]: the call
    keeps its method, arguments, reply and channel, and the channel its
    capacity. *)
Lemma send_returns (p : ptr) (w : World) (c : Call) (ch : ptr) (k : Chan) :
  calls w !! p = Some c → Done c = Some ch → chans w !! ch = Some k →
  chan_closed k = false → length (queue k) < cap k →
  ∃ w' c' k', send p w = golang.Ok w' ∧
              calls w' !! p = Some c' ∧ Done c' = Some ch ∧
              ServiceMethod c' = ServiceMethod c ∧ Args c' = Args c ∧ Reply c' = Reply c ∧
              chans w' !! ch = Some k' ∧ cap k' = cap k ∧ chan_closed k' = false.
Proof.
  intros Hp Hd Hch Hcl Hlen. unfold send, registerCall.
  destruct (closing (self w) || shutdown (self w)); simpl.
  - unfold store_Error. rewrite Hp. simpl.
    erewrite done_room; [| apply lookup_insert_eq | exact Hd | exact Hch | done..].
    do 3 eexists. split; [done|]. simpl.
    rewrite !lookup_insert_eq. done.
  - rewrite Hp. simpl. rewrite lookup_insert_eq.
    destruct (codec.Write _ _ _) as [cc' [e|]].
    + unfold removeCall. simpl. rewrite lookup_insert_eq.
      unfold store_Error. simpl. rewrite lookup_insert_eq. simpl.
      erewrite done_room; [| apply lookup_insert_eq | exact Hd | exact Hch | done..].
      do 3 eexists. split; [done|]. simpl.
      rewrite !lookup_insert_eq. done.
    + do 3 eexists. split; [done|]. simpl.
      rewrite lookup_insert_eq. done.
Qed.

(** C10. [Client.Go] called with a nil [done] channel returns: it makes a
    new channel of capacity 10 (at an address no channel had before) and
    returns a new [Call] whose [Done] is that channel, open and non-nil,
    and whose method, arguments and reply are the ones passed in. *)
Theorem Go_nil_done_makes_buffered_channel
  (serviceMethod : string) (args reply : golang.Value) (w : World) :
  ∃ p w' c ch k,
    Go serviceMethod args reply None w = golang.Ok (p, w') ∧
    calls w !! p = None ∧ calls w' !! p = Some c ∧
    Done c = Some ch ∧
    chans w !! ch = None ∧ chans w' !! ch = Some k ∧
    cap k = 10 ∧ chan_closed k = false ∧
    ServiceMethod c = serviceMethod ∧ Args c = args ∧ Reply c = reply.
Proof.
  unfold Go, make_chan. simpl.
  set (ch := fresh (dom (chans w))).
  set (p := fresh (dom (calls w))).
  set (c0 := {| Seq := 0; ServiceMethod := serviceMethod; Args := args; Reply := reply;
                Error := None; Done := Some ch |}).
  set (k0 := {| cap := 10; queue := []; chan_closed := false |}).
  destruct (send_returns p
              (with_calls (with_chans w (<[ch := k0]> (chans w))) (<[p := c0]> (calls w)))
              c0 ch k0)
    as (w' & c' & k' & -> & Hp & Hd & Hsm & Ha & Hr & Hch & Hcap & Hcl).
  { apply lookup_insert_eq. }
  { done. }
  { apply lookup_insert_eq. }
  { done. }
  { simpl. lia. }
  simpl. exists p, w', c', ch, k'.
  split; [done|]. split; [apply not_elem_of_dom, is_fresh|].
  split; [done|]. split; [done|].
  split; [apply not_elem_of_dom, is_fresh|]. done.
Qed.

End client_Go_facts.

(** ** Round-robin selection *)

Section xclient_facts.

Import xclient.

Local Open Scope Z_scope.

Lemma int_in_range (z : Z) : - 2 ^ 63 ≤ z < 2 ^ 63 → golang.int z = z.
Proof. intros H. unfold golang.int. rewrite Z.mod_small; lia. Qed.

Lemma Intn_range (rnd : Rand) (n : Z) :
  0 < n → ∃ i, Intn rnd n = golang.Ok (i, {| raw := raw rnd; used := S (used rnd) |}) ∧
               i = raw rnd (used rnd) mod n ∧ 0 ≤ i < n.
Proof.
  intros Hn. unfold Intn. destruct (n <=? 0) eqn:E; [lia|].
  eexists. split; [done|]. split; [done|]. apply Z.mod_pos_bound. lia.
Qed.

Lemma slice_index_in_range (s : list string) (i : Z) :
  0 ≤ i < Z.of_nat (length s) →
  ∃ x, slice_index s i = golang.Ok x ∧ s !! Z.to_nat i = Some x.
Proof.
  intros Hi. unfold slice_index. destruct (i <? 0) eqn:E; [lia|].
  destruct (lookup_lt_is_Some_2 s (Z.to_nat i)) as [x Hx]; [lia|].
  rewrite Hx. eauto.
Qed.

(** One round-robin [Get] returns the server at [index mod n] and moves
    the index to [(index + 1) mod n]. *)
Lemma Get_RoundRobin (ss : list string) (d : MultiServersDiscovery) :
  discovery_of ss d → (0 < length ss)%nat → Z.of_nat (length ss) < 2 ^ 63 →
  ∃ s, Get d RoundRobinSelect =
         golang.Ok (s, None, {| r := r d; servers := ss;
                                index := (index d + 1) mod Z.of_nat (length ss) |}) ∧
       ss !! Z.to_nat (index d mod Z.of_nat (length ss)) = Some s.
Proof.
  intros [Hss Hi] Hn Hlen. unfold Get. rewrite Hss.
  set (n := Z.of_nat (length ss)). assert (0 < n) by lia.
  destruct (n =? 0) eqn:E; [lia|]. simpl.
  rewrite int_in_range by lia.
  rewrite !Z.rem_mod_nonneg by lia.
  destruct (slice_index_in_range ss (index d mod n)) as (s & -> & Hs).
  { apply Z.mod_pos_bound. lia. }
  simpl. eauto.
Qed.

Lemma Get_total (ss : list string) (d : MultiServersDiscovery) (mode : Z) :
  discovery_of ss d → (0 < length ss)%nat → Z.of_nat (length ss) < 2 ^ 63 →
  ∃ s err d', Get d mode = golang.Ok (s, err, d') ∧ discovery_of ss d'.
Proof.
  intros Hd Hn Hlen.
  destruct (decide (mode = RoundRobinSelect)) as [->|Hrr].
  { destruct (Get_RoundRobin ss d) as (s & -> & _); [done..|].
    do 3 eexists. split; [done|]. split; [done|]. simpl.
    pose proof (Z.mod_pos_bound (index d + 1) (Z.of_nat (length ss))). lia. }
  destruct Hd as [Hss Hi]. unfold Get. rewrite Hss.
  set (n := Z.of_nat (length ss)). assert (0 < n) by lia.
  destruct (n =? 0) eqn:E; [lia|].
  destruct (mode =? RandomSelect) eqn:E0.
  - destruct (Intn_range (r d) n) as (i & -> & _ & Hi'); [done|]. simpl.
    destruct (slice_index_in_range ss i) as (s & -> & _); [done|]. simpl.
    do 3 eexists. split; [done|]. done.
  - destruct (mode =? RoundRobinSelect) eqn:E1; [lia|].
    do 3 eexists. split; [done|]. done.
Qed.

Lemma Get_each_total (ss : list string) (modes : list Z) (d : MultiServersDiscovery) :
  discovery_of ss d → (0 < length ss)%nat → Z.of_nat (length ss) < 2 ^ 63 →
  ∃ out d', Get_each modes d = golang.Ok (out, d') ∧ discovery_of ss d' ∧
            length out = length modes.
Proof.
  intros Hd Hn Hlen. revert d Hd.
  induction modes as [|mode modes IH]; intros d Hd; simpl.
  - by exists [], d.
  - destruct (Get_total ss d mode) as (s & err & d1 & -> & Hd1); [done..|]. simpl.
    destruct (IH d1 Hd1) as (out & d2 & -> & Hd2 & Hout). simpl.
    do 2 eexists. split; [done|]. split; [done|]. simpl. by rewrite Hout.
Qed.

(** [k] round-robin calls in a row return the servers at
    [index mod n], [(index + 1) mod n], ... *)
Lemma Get_n_RoundRobin (ss : list string) (k : nat) (d : MultiServersDiscovery) :
  discovery_of ss d → (0 < length ss)%nat → Z.of_nat (length ss) < 2 ^ 63 →
  ∃ out d', Get_n k RoundRobinSelect d = golang.Ok (out, None, d') ∧
            discovery_of ss d' ∧ length out = k ∧
            ∀ j, (j < k)%nat →
                 out !! j = ss !! Z.to_nat ((index d + Z.of_nat j) mod Z.of_nat (length ss)).
Proof.
  intros Hd Hn Hlen. revert d Hd.
  induction k as [|k IH]; intros d Hd; simpl.
  - exists [], d. split; [done|]. split; [done|]. split; [done|]. intros j Hj. lia.
  - destruct (Get_RoundRobin ss d) as (s & -> & Hs); [done..|]. simpl.
    set (n := Z.of_nat (length ss)) in *. assert (0 < n) by lia.
    set (d1 := {| r := r d; servers := ss; index := (index d + 1) mod n |}).
    assert (Hd1 : discovery_of ss d1).
    { split; [done|]. simpl. pose proof (Z.mod_pos_bound (index d + 1) n). lia. }
    destruct (IH d1 Hd1) as (out & d2 & -> & Hd2 & Hout & Hlook). simpl.
    do 2 eexists. split; [done|]. split; [done|]. split; [simpl; lia|].
    intros [|j] Hj.
    + simpl. by rewrite Z.add_0_r.
    + change ((s :: out) !! S j) with (out !! j).
      rewrite Hlook by lia. unfold d1. cbn [index].
      rewrite Z.add_mod_idemp_l by lia. do 3 f_equal. lia.
Qed.

Lemma rotate_Permutation (m : nat) (l : list string) : rotate m l ≡ₚ l.
Proof.
  unfold rotate. rewrite Permutation_app_comm. by rewrite take_drop.
Qed.

(** [n] round-robin calls, [n] the number of servers, return the list of
    servers rotated by the index. *)
Lemma Get_n_rotate (ss : list string) (d : MultiServersDiscovery) :
  discovery_of ss d → (0 < length ss)%nat → Z.of_nat (length ss) < 2 ^ 63 →
  ∃ d', Get_n (length ss) RoundRobinSelect d
          = golang.Ok (rotate (Z.to_nat (index d)) ss, None, d') ∧
        discovery_of ss d'.
Proof.
  intros Hd Hn Hlen.
  destruct (Get_n_RoundRobin ss (length ss) d) as (out & d' & -> & Hd' & Hout & Hlook);
    [done..|].
  exists d'. split; [|done]. do 3 f_equal.
  apply list_eq_same_length with (length ss); [by rewrite length_rotate|done|].
  intros j x y Hj Hx Hy.
  rewrite lookup_rotate_r in Hy by done. rewrite Hlook in Hx by done.
  unfold rotate_nat_add in Hy. rewrite Z2Nat.id in Hy by (destruct Hd; lia).
  congruence.
Qed.

(** C7. A discovery built by [NewMultiServersDiscovery] over [n >= 1]
    servers starts at the index [Intn(MaxInt32 - 1)] drawn from its random
    source. After any earlier calls of [Get], [n] consecutive calls of
    [Get(RoundRobinSelect)] with no [Update] in between return without
    error the list of servers rotated by the current index: every server
    once. *)
Theorem RoundRobin_visits_every_server_once
  (ss : list string) (rnd : Rand) (earlier : list Z) :
  (1 ≤ length ss)%nat → Z.of_nat (length ss) < 2 ^ 63 →
  ∃ d0 out d1 d2,
    NewMultiServersDiscovery ss rnd = golang.Ok d0 ∧
    index d0 = raw rnd (used rnd) mod (MaxInt32 - 1) ∧
    Get_each earlier d0 = golang.Ok (out, d1) ∧
    Get_n (length ss) RoundRobinSelect d1
      = golang.Ok (rotate (Z.to_nat (index d1)) ss, None, d2) ∧
    rotate (Z.to_nat (index d1)) ss ≡ₚ ss ∧
    servers d2 = ss.
Proof.
  intros Hn Hlen. unfold NewMultiServersDiscovery.
  destruct (Intn_range rnd (MaxInt32 - 1)) as (i & -> & Hi & Hrange); [done|]. simpl.
  set (d0 := {| r := _; servers := ss; index := i |}).
  assert (Hd0 : discovery_of ss d0).
  { split; [done|]. simpl. unfold MaxInt32 in Hrange. lia. }
  destruct (Get_each_total ss earlier d0) as (out & d1 & Hrun & Hd1 & _); [done..|lia|done|].
  destruct (Get_n_rotate ss d1) as (d2 & Hget & Hd2); [done|lia|done|].
  exists d0, out, d1, d2. split; [done|]. split; [done|]. split; [done|].
  split; [done|]. split; [apply rotate_Permutation|apply Hd2].
Qed.

Lemma RoundRobin_visits_every_server_once_witness :
  ∃ d0 out d1 d2,
    NewMultiServersDiscovery ["a"; "b"; "c"] {| raw := fun _ => 7; used := 0 |}
      = golang.Ok d0 ∧
    index d0 = 7 mod (MaxInt32 - 1) ∧
    Get_each [RoundRobinSelect; RandomSelect; RoundRobinSelect] d0 = golang.Ok (out, d1) ∧
    Get_n 3 RoundRobinSelect d1
      = golang.Ok (rotate (Z.to_nat (index d1)) ["a"; "b"; "c"], None, d2) ∧
    rotate (Z.to_nat (index d1)) ["a"; "b"; "c"] ≡ₚ ["a"; "b"; "c"] ∧
    servers d2 = ["a"; "b"; "c"].
Proof.
  apply (RoundRobin_visits_every_server_once ["a"; "b"; "c"]
           {| raw := fun _ => 7; used := 0 |}
           [RoundRobinSelect; RandomSelect; RoundRobinSelect]).
  - simpl. lia.
  - simpl. lia.
Defined.

Example RoundRobin_from_index_7 :
  ∃ d0 d1,
    NewMultiServersDiscovery ["a"; "b"; "c"] {| raw := fun _ => 7; used := 0 |}
      = golang.Ok d0 ∧
    Get_n 3 RoundRobinSelect d0 = golang.Ok (["b"; "c"; "a"], None, d1) ∧ index d1 = 1.
Proof. do 2 eexists. split; [reflexivity|]. split; reflexivity. Qed.

End xclient_facts.

(** ** The request loop ends within its fuel *)

Section serveCodec_fuel.

Import codec server.

Lemma conn_write_inbox (k : Conn) (m : Msg) : inbox (conn_write k m).1 = inbox k.
Proof. unfold conn_write. destruct (closed k); [done|]. by destruct (broken k). Qed.

Lemma flush_all_inbox (ms : list Msg) (k : Conn) : inbox (flush_all k ms).1 = inbox k.
Proof.
  revert k. induction ms as [|m ms IH]; intros k; simpl; [done|].
  pose proof (conn_write_inbox k m) as Hw.
  destruct (conn_write k m) as [k' [e|]]; simpl in *; [done|].
  by rewrite IH.
Qed.

Lemma Close_inbox (c : GobCodec) : inbox (conn (Close c).1) = inbox (conn c).
Proof. unfold Close. by destruct (closed (conn c)). Qed.

Lemma Write_deferred_inbox (c : GobCodec) (err : golang.error) :
  inbox (conn (Write_deferred c err)) = inbox (conn c).
Proof.
  unfold Write_deferred.
  assert (inbox (conn (buf_Flush c)) = inbox (conn c)) as Hf.
  { unfold buf_Flush. pose proof (flush_all_inbox (buf c) (conn c)) as H.
    by destruct (flush_all (conn c) (buf c)). }
  destruct err; [|done]. by rewrite Close_inbox.
Qed.

(** Writing reads nothing. *)
Lemma Write_inbox (c : GobCodec) (hd : Header) (body : golang.Value) :
  inbox (conn (Write c hd body).1) = inbox (conn c).
Proof.
  unfold Write, enc_Encode_header.
  pose proof (conn_write_inbox (conn c) (MsgHeader hd)) as H1.
  destruct (conn_write (conn c) (MsgHeader hd)) as [k1 e1]; cbn [fst] in H1.
  destruct e1; cbn -[Write_deferred]; [by rewrite Write_deferred_inbox|].
  unfold enc_Encode_body. destruct (gob_encodable body).
  - pose proof (conn_write_inbox k1 (MsgBody body)) as H2. cbn [conn with_conn].
    destruct (conn_write k1 (MsgBody body)) as [k2 e2]; cbn [fst] in H2.
    destruct e2; cbn -[Write_deferred]; rewrite Write_deferred_inbox; cbn; congruence.
  - cbn -[Write_deferred]. by rewrite Write_deferred_inbox.
Qed.

Lemma sendResponse_inbox (c : GobCodec) (hd : Header) (body : golang.Value) :
  inbox (conn (sendResponse c hd body)) = inbox (conn c).
Proof. apply Write_inbox. Qed.

Lemma handleRequest_inbox (srv srv' : Server) (c c' : GobCodec) (req : request) :
  handleRequest srv c req = golang.Ok (srv', c') → inbox (conn c') = inbox (conn c).
Proof.
  unfold handleRequest.
  destruct (service.call _ _ _ _) as [[[m' reply'] err]| |]; simpl; [|done..].
  destruct err; intros [= _ <-]; by rewrite !sendResponse_inbox.
Qed.

Lemma conn_read_inbox (k k' : Conn) (o : option Msg) :
  conn_read k = (k', o) →
  match o with
  | Some _ => length (inbox k) = S (length (inbox k'))
  | None => inbox k' = inbox k
  end.
Proof.
  unfold conn_read. destruct (closed k); [by intros [= <- <-]|].
  destruct (inbox k) as [|m rest] eqn:E; intros [= <- <-]; simpl; done.
Qed.

Lemma ReadBody_inbox (c : GobCodec) (accept : option (golang.Value → bool)) :
  length (inbox (conn (ReadBody c accept).1)) ≤ length (inbox (conn c)).
Proof.
  unfold ReadBody. pose proof (conn_read_inbox (conn c)) as H.
  destruct (conn_read (conn c)) as [k [m|]]; specialize (H _ _ eq_refl); simpl in H.
  - destruct accept as [ok|]; [|simpl; lia].
    destruct m as [?|v]; [simpl; lia|]. destruct (ok v); simpl; lia.
  - simpl. by rewrite H.
Qed.

(** A request that [readRequest] hands over has cost the connection at
    least its header. *)
Lemma readRequest_consumes (srv : Server) (c c' : GobCodec) (req : request) err :
  readRequest srv c = golang.Ok (c', Some req, err) →
  length (inbox (conn c')) < length (inbox (conn c)).
Proof.
  unfold readRequest, readRequestHeader, ReadHeader.
  pose proof (conn_read_inbox (conn c)) as H.
  destruct (conn_read (conn c)) as [k [m|]]; specialize (H _ _ eq_refl); simpl in H;
    [|done].
  destruct m as [hd|v]; [|done].
  destruct (findService srv (ServiceMethod hd)) as [[s m] e].
  destruct e as [e|]; [intros [= <- _ _]; simpl; lia|].
  destruct m as [mt|]; [|done].
  destruct (service.newArgv mt) as [a| |]; simpl; [|done..].
  destruct (service.newReplyv mt) as [rv| |]; simpl; [|done..].
  pose proof (ReadBody_inbox (with_conn c k) (Some (value_fits (service.ArgType mt)))) as Hb.
  destruct (ReadBody _ _) as [c2 [v|e]]; simpl in Hb; intros [= <- _ _]; lia.
Qed.

(** With more turns than unread messages the loop of [serveCodec] never
    stops for lack of fuel: it leaves through [break] or a panic. *)
Lemma serveCodec_loop_fuel (fuel : nat) (srv : Server) (c : GobCodec) :
  length (inbox (conn c)) < fuel → serveCodec_loop fuel srv c ≠ golang.Ok None.
Proof.
  revert srv c. induction fuel as [|fuel IH]; intros srv c Hlen; [lia|]. simpl.
  destruct (readRequest srv c) as [[[c1 req] err]| |] eqn:Hr; simpl; [|done..].
  destruct err as [e|], req as [req|]; try done.
  - apply readRequest_consumes in Hr.
    destruct (handleRequest _ _ _) as [[srv2 c2]| |] eqn:Hh; simpl; [|done..].
    apply handleRequest_inbox in Hh. rewrite sendResponse_inbox in Hh.
    apply IH. rewrite Hh. lia.
  - apply readRequest_consumes in Hr.
    destruct (handleRequest _ _ _) as [[srv2 c2]| |] eqn:Hh; simpl; [|done..].
    apply handleRequest_inbox in Hh. apply IH. rewrite Hh. lia.
Qed.

Lemma serveCodec_ends (srv : Server) (c : GobCodec) :
  serveCodec srv c ≠ golang.Ok None.
Proof.
  unfold serveCodec.
  pose proof (serveCodec_loop_fuel (S (length (inbox (conn c)))) srv c) as H.
  destruct (serveCodec_loop _ srv c) as [[[srv' c']|]| |]; simpl; try done.
  by destruct H; [lia|].
Qed.

End serveCodec_fuel.

(** * Further properties of the code *)

(** ** Registration of methods, in both directions *)

Section registration_facts.

Import service.

Lemma recorded_from_inserts (acc : gmap string methodType) (m : reflect.Method)
  (d : methodType) :
  recorded_from m d → registerMethods_body acc m = <[reflect.MName m := d]> acc.
Proof.
  intros (Hm & Hn & Hout & (recv & Hin) & Ha & Hr).
  unfold registerMethods_body, reflect.NumIn, reflect.NumOut.
  rewrite Hin, Hout. simpl.
  rewrite Ha, Hr. simpl. f_equal.
  destruct d as [dm da dr dn]. simpl in *. by subst.
Qed.

Lemma registerMethods_fold_other (ms : list reflect.Method)
  (acc : gmap string methodType) (n : string) :
  (∀ m, m ∈ ms → reflect.MName m ≠ n) →
  foldl registerMethods_body acc ms !! n = acc !! n.
Proof.
  revert acc. induction ms as [|m ms IH]; intros acc Hne; simpl; [done|].
  rewrite IH by (intros m' Hm'; apply Hne; by right).
  destruct (registerMethods_body_spec acc m) as [->|(d & -> & _)]; [done|].
  apply lookup_insert_ne, Hne. by left.
Qed.

Lemma registerMethods_fold_records (ms : list reflect.Method)
  (acc : gmap string methodType) (m : reflect.Method) (d : methodType) :
  NoDup (reflect.MName <$> ms) → m ∈ ms → recorded_from m d →
  foldl registerMethods_body acc ms !! reflect.MName m = Some d.
Proof.
  revert acc. induction ms as [|m0 ms IH]; intros acc Hnd Hin Hrec.
  { by apply elem_of_nil in Hin. }
  rewrite fmap_cons in Hnd. apply NoDup_cons in Hnd as [Hfresh Hnd]. simpl.
  apply elem_of_cons in Hin as [->|Hin]; [|by apply IH].
  rewrite registerMethods_fold_other.
  - rewrite (recorded_from_inserts acc m0 d Hrec). apply lookup_insert_eq.
  - intros m' Hm' Heq. apply Hfresh. rewrite <- Heq. by apply list_elem_of_fmap_2.
Qed.

Lemma newService_method_recorded (obj : reflect.Object) (s : service)
  (m : reflect.Method) (d : methodType) :
  newService obj = golang.Ok s →
  NoDup (reflect.MName <$> reflect.omethods obj) →
  m ∈ reflect.omethods obj → recorded_from m d →
  method s !! reflect.MName m = Some d.
Proof.
  intros Hnew Hnd Hin Hrec.
  unfold newService in Hnew. destruct (negb _); [done|].
  injection Hnew as <-. simpl. by apply registerMethods_fold_records.
Qed.

(** X1. The method map of a new service holds, for a receiver whose
    methods have distinct names, exactly the descriptors of its eligible
    methods: three inputs, the single output [error], argument and reply
    types exported or predeclared. An entry is there if and only if it was
    recorded from such a method of the receiver. *)
Theorem newService_method_iff (obj : reflect.Object) (s : service)
  (n : string) (d : methodType) :
  newService obj = golang.Ok s →
  NoDup (reflect.MName <$> reflect.omethods obj) →
  method s !! n = Some d ↔
  ∃ m, m ∈ reflect.omethods obj ∧ reflect.MName m = n ∧ recorded_from m d.
Proof.
  intros Hnew Hnd. split; [by apply newService_method|].
  intros (m & Hin & <- & Hrec). by eapply newService_method_recorded.
Qed.

Lemma newService_method_iff_witness :
  ∃ s, newService samples.foo = golang.Ok s ∧
       (method s !! "Sum" =
          Some {| method_ := samples.Sum; ArgType := samples.Args;
                  ReplyType := reflect.PtrTo samples.int; numCalls := 0 |} ↔
        ∃ m, m ∈ reflect.omethods samples.foo ∧ reflect.MName m = "Sum" ∧
             recorded_from m {| method_ := samples.Sum; ArgType := samples.Args;
                                ReplyType := reflect.PtrTo samples.int; numCalls := 0 |}).
Proof.
  eexists. split; [reflexivity|].
  apply (newService_method_iff samples.foo); [reflexivity|].
  apply (bool_decide_unpack _). reflexivity.
Defined.

End registration_facts.

(** ** Looking a service method up *)

Section findService_facts.

Import service server.

Lemma LastIndexDot_lower (s : string) : (-1 ≤ LastIndexDot s)%Z.
Proof.
  induction s as [|a s IH]; simpl; [lia|].
  destruct (0 <=? LastIndexDot s)%Z eqn:E; [lia|]. case_bool_decide; lia.
Qed.

Lemma LastIndexDot_no_dot (s : string) : no_dot s → LastIndexDot s = (-1)%Z.
Proof.
  unfold no_dot. induction s as [|a s IH]; simpl; [done|].
  intros [Ha Hs]%Forall_cons. rewrite (IH Hs). simpl.
  by rewrite bool_decide_false.
Qed.

Lemma LastIndexDot_app (s t : string) :
  no_dot t → LastIndexDot (s +:+ "." +:+ t) = Z.of_nat (String.length s).
Proof.
  intros Ht. induction s as [|a s IH].
  - change ("" +:+ "." +:+ t) with (String "."%char t).
    cbn [LastIndexDot]. rewrite (LastIndexDot_no_dot t Ht). reflexivity.
  - change (String a s +:+ "." +:+ t) with (String a (s +:+ "." +:+ t)).
    cbn [LastIndexDot]. rewrite IH.
    destruct (0 <=? Z.of_nat (String.length s))%Z eqn:E; [|lia].
    cbn [String.length]. lia.
Qed.

Lemma substring_all (t : string) : String.substring 0 (String.length t) t = t.
Proof. induction t as [|a t IH]; simpl; [done|]. by rewrite IH. Qed.

Lemma substring_prefix (s t : string) :
  String.substring 0 (String.length s) (s +:+ t) = s.
Proof.
  induction s as [|a s IH]; simpl; [by destruct t|]. by rewrite IH.
Qed.

Lemma substring_suffix (s t : string) :
  String.substring (String.length s) (String.length t) (s +:+ t) = t.
Proof. induction s as [|a s IH]; simpl; [apply substring_all|done]. Qed.

Lemma length_append (s t : string) :
  String.length (s +:+ t) = String.length s + String.length t.
Proof. induction s as [|a s IH]; simpl; [done|]. by rewrite IH. Qed.

Lemma findService_split (srv : Server) (sname mname : string) :
  no_dot mname →
  findService srv (sname +:+ "." +:+ mname) =
    match serviceMap srv !! sname with
    | None => (None, None, Some ("rpc server: can't find service " +:+ sname))
    | Some svc =>
        match method svc !! mname with
        | None => (Some svc, None, Some ("rpc server: can't find method " +:+ mname))
        | Some d => (Some svc, Some d, None)
        end
    end.
Proof.
  intros Hm. unfold findService. rewrite (LastIndexDot_app sname mname Hm).
  destruct (Z.ltb_spec (Z.of_nat (String.length sname)) 0) as [E|E]; [lia|].
  rewrite Nat2Z.id, substring_prefix.
  replace (Z.to_nat (Z.of_nat (String.length sname) + 1)) with (String.length (sname +:+ "."))
    by (rewrite length_append; cbn [String.length]; lia).
  replace (String.length (sname +:+ "." +:+ mname) - String.length (sname +:+ "."))
    with (String.length mname) by (rewrite !length_append; cbn [String.length]; lia).
  replace (sname +:+ "." +:+ mname) with ((sname +:+ ".") +:+ mname).
  - by rewrite substring_suffix.
  - clear. induction sname as [|a s IH]; [done|].
    change (String a ((s +:+ ".") +:+ mname) = String a (s +:+ "." +:+ mname)).
    by f_equal.
Qed.

(** X2. [findService] splits the name at its last dot. For a request
    [service.method] whose method part has no dot it reports an unknown
    service, or the service together with an unknown method, or the
    service and the descriptor stored under exactly these two names and no
    error. *)
Theorem findService_splits_at_last_dot (srv : Server) (sname mname : string) :
  no_dot mname →
  findService srv (sname +:+ "." +:+ mname) =
    match serviceMap srv !! sname with
    | None => (None, None, Some ("rpc server: can't find service " +:+ sname))
    | Some svc =>
        match method svc !! mname with
        | None => (Some svc, None, Some ("rpc server: can't find method " +:+ mname))
        | Some d => (Some svc, Some d, None)
        end
    end.
Proof. apply findService_split. Qed.

Lemma findService_splits_at_last_dot_witness :
  ∃ srv, samples.foo_server = golang.Ok srv ∧
         findService srv ("Foo" +:+ "." +:+ "Sum") =
           match serviceMap srv !! "Foo" with
           | None => (None, None, Some ("rpc server: can't find service " +:+ "Foo"))
           | Some svc =>
               match method svc !! "Sum" with
               | None => (Some svc, None, Some ("rpc server: can't find method " +:+ "Sum"))
               | Some d => (Some svc, Some d, None)
               end
           end.
Proof.
  eexists. split; [reflexivity|].
  apply findService_splits_at_last_dot. unfold no_dot. simpl.
  repeat (apply Forall_cons; split; [discriminate|]). apply Forall_nil_2.
Defined.

(** X3. A name without any dot is refused as ill-formed whatever is
    registered. *)
Theorem findService_ill_formed (srv : Server) (serviceMethod : string) :
  no_dot serviceMethod →
  findService srv serviceMethod =
    (None, None,
     Some ("rpc server: service/method request ill-formed:" +:+ serviceMethod)).
Proof.
  intros H. unfold findService. by rewrite (LastIndexDot_no_dot _ H).
Qed.

Lemma findService_ill_formed_witness :
  ∃ srv, samples.foo_server = golang.Ok srv ∧
         findService srv "FooSum" =
           (None, None, Some "rpc server: service/method request ill-formed:FooSum").
Proof.
  eexists. split; [reflexivity|].
  apply findService_ill_formed. unfold no_dot. simpl.
  repeat (apply Forall_cons; split; [discriminate|]). apply Forall_nil_2.
Defined.

End findService_facts.

(** ** The registry of services *)

Section Register_facts.

Import service server.

Lemma NewServer_registry_ok : registry_ok NewServer.
Proof. intros k svc H. unfold NewServer in H. simpl in H. by rewrite lookup_empty in H. Qed.

Lemma Register_keeps_keys (srv srv' : Server) (obj : reflect.Object) (e : golang.error) :
  registry_ok srv → Register srv obj = golang.Ok (srv', e) → registry_ok srv'.
Proof.
  intros Hok. unfold Register.
  destruct (newService obj) as [s| |] eqn:Hs; simpl; [|done..].
  destruct (serviceMap srv !! name s) eqn:Hl; intros [= <- <-]; [done|].
  intros k svc. simpl. destruct (decide (name s = k)) as [<-|Hne].
  - rewrite lookup_insert_eq. intros [= <-]. split; [done|].
    intros n d Hd. destruct (newService_method obj s n d Hs Hd) as (m & _ & <- & Hrec).
    destruct Hrec as [-> _]. done.
  - rewrite lookup_insert_ne by done. apply Hok.
Qed.

Lemma foo_server_registry_ok (srv : Server) :
  samples.foo_server = golang.Ok srv → registry_ok srv.
Proof.
  intros [= <-].
  by apply (Register_keeps_keys NewServer _ samples.foo None NewServer_registry_ok).
Qed.

(** X4. [Register] keeps the registry well-keyed: every service stays
    stored under its own name and every descriptor under the name of its
    method. *)
Theorem Register_registry_ok (srv srv' : Server) (obj : reflect.Object) (e : golang.error) :
  registry_ok srv → Register srv obj = golang.Ok (srv', e) → registry_ok srv'.
Proof. apply Register_keeps_keys. Qed.

Lemma Register_registry_ok_witness :
  ∃ srv, samples.foo_server = golang.Ok srv ∧ registry_ok srv.
Proof.
  eexists. split; [reflexivity|].
  apply (Register_registry_ok NewServer _ samples.foo None NewServer_registry_ok).
  reflexivity.
Defined.

Lemma Register_fresh (srv srv1 : Server) (obj : reflect.Object) :
  Register srv obj = golang.Ok (srv1, None) →
  ∃ s, newService obj = golang.Ok s ∧
       serviceMap srv !! name s = None ∧
       serviceMap srv1 = <[name s := s]> (serviceMap srv).
Proof.
  unfold Register.
  destruct (newService obj) as [s| |] eqn:Hs; simpl; [|done..].
  destruct (serviceMap srv !! name s) eqn:Hl; intros [= <-].
  exists s. done.
Qed.

(** X5. Registering the same receiver a second time fails with "rpc:
    service already defined" and leaves the registry as the first
    registration made it. *)
Theorem Register_twice (srv srv1 : Server) (obj : reflect.Object) :
  Register srv obj = golang.Ok (srv1, None) →
  ∃ s, newService obj = golang.Ok s ∧
       serviceMap srv !! name s = None ∧
       serviceMap srv1 !! name s = Some s ∧
       Register srv1 obj =
         golang.Ok (srv1, Some ("rpc: service already defined" +:+ name s)).
Proof.
  intros Hreg. destruct (Register_fresh srv srv1 obj Hreg) as (s & Hs & Hl & Hmap).
  exists s. split; [done|]. split; [done|].
  split; [rewrite Hmap; apply lookup_insert_eq|].
  unfold Register. rewrite Hs. simpl. rewrite Hmap, lookup_insert_eq.
  destruct srv1 as [m1]. simpl in Hmap. by subst.
Qed.

Lemma Register_twice_witness :
  ∃ srv1 s, Register NewServer samples.foo = golang.Ok (srv1, None) ∧
            newService samples.foo = golang.Ok s ∧
            serviceMap NewServer !! name s = None ∧
            serviceMap srv1 !! name s = Some s ∧
            Register srv1 samples.foo =
              golang.Ok (srv1, Some ("rpc: service already defined" +:+ name s)).
Proof.
  eexists.
  destruct (Register_twice NewServer _ samples.foo eq_refl) as (s & H).
  exists s. split; [reflexivity|]. exact H.
Defined.

(** X6. After a successful [Register], every eligible method of the
    receiver is found by [findService] under ["Service.Method"], with the
    descriptor recorded for it (method names are distinct and have no
    dot, as Go identifiers). *)
Theorem Register_then_findService (srv srv' : Server) (obj : reflect.Object)
  (m : reflect.Method) (d : methodType) :
  Register srv obj = golang.Ok (srv', None) →
  NoDup (reflect.MName <$> reflect.omethods obj) →
  m ∈ reflect.omethods obj → recorded_from m d → no_dot (reflect.MName m) →
  ∃ s, newService obj = golang.Ok s ∧
       findService srv' (name s +:+ "." +:+ reflect.MName m) = (Some s, Some d, None).
Proof.
  intros Hreg Hnd Hin Hrec Hdot.
  destruct (Register_fresh srv srv' obj Hreg) as (s & Hs & _ & Hl).
  exists s. split; [done|].
  rewrite findService_split by done. rewrite Hl, lookup_insert_eq.
  by rewrite (newService_method_recorded obj s m d).
Qed.

Lemma Register_then_findService_witness :
  ∃ srv' s, Register NewServer samples.foo = golang.Ok (srv', None) ∧
            newService samples.foo = golang.Ok s ∧
            findService srv' (name s +:+ "." +:+ "Sum") =
              (Some s,
               Some {| method_ := samples.Sum; ArgType := samples.Args;
                       ReplyType := reflect.PtrTo samples.int; numCalls := 0 |},
               None).
Proof.
  eexists.
  destruct (Register_then_findService NewServer _ samples.foo samples.Sum
              {| method_ := samples.Sum; ArgType := samples.Args;
                 ReplyType := reflect.PtrTo samples.int; numCalls := 0 |} eq_refl)
    as (s & Hs & Hf).
  - apply (bool_decide_unpack _). reflexivity.
  - right. left.
  - unfold recorded_from. simpl. repeat split; try reflexivity. by eexists.
  - unfold no_dot. simpl.
    repeat (apply Forall_cons; split; [discriminate|]). apply Forall_nil_2.
  - exists s. split; [reflexivity|]. split; [exact Hs|exact Hf].
Defined.

End Register_facts.

(** ** The request loop on requests the server can answer *)

Section serveCodec_facts.

Import codec service server.

Lemma same_method_refl (d : methodType) : same_method d d.
Proof. done. Qed.

Lemma same_service_refl (s : service) : same_service s s.
Proof.
  repeat split. intros n. destruct (method s !! n); [apply same_method_refl|done].
Qed.







(** The write-back of the counter keeps the registry well-keyed and
    changes nothing but that counter. *)
Lemma store_methodType_same (srv : Server) (k n : string) (svc : service)
  (d d2 : methodType) :
  registry_ok srv → serviceMap srv !! k = Some svc → method svc !! n = Some d →
  same_method d d2 →
  registry_ok (store_methodType srv (Some svc) d2) ∧
  same_registry srv (store_methodType srv (Some svc) d2).
Proof.
  intros Hok Hs Hd Hsame. destruct (Hok k svc Hs) as [Hname Hkeys].
  pose proof (Hkeys n d Hd) as Hn. destruct Hsame as (Hm & Hat & Hrt).
  unfold store_methodType. rewrite Hname, <- Hm, Hn. split.
  - intros k' s'. simpl. destruct (decide (k = k')) as [<-|Hne].
    + rewrite lookup_insert_eq. intros [= <-]. simpl. split; [done|].
      intros n' d'. destruct (decide (n = n')) as [<-|Hne].
      * rewrite lookup_insert_eq. intros [= <-]. congruence.
      * rewrite lookup_insert_ne by done. apply Hkeys.
    + rewrite lookup_insert_ne by done. apply Hok.
  - intros k'. simpl. destruct (decide (k = k')) as [<-|Hne].
    + rewrite lookup_insert_eq, Hs.
      split; [done|]. split; [done|]. split; [done|]. simpl.
      intros n'. destruct (decide (n = n')) as [<-|Hne].
      * rewrite lookup_insert_eq, Hd. done.
      * rewrite lookup_insert_ne by done.
        destruct (method svc !! n'); [apply same_method_refl|done].
    + rewrite lookup_insert_ne by done.
      destruct (serviceMap srv !! k'); [apply same_service_refl|done].
Qed.










End serveCodec_facts.

(** ** Call counters *)

Section NumCalls_facts.

Import codec service server.

(** X8. [handleRequest] on a request for a registered method returns and
    advances the call counter of that method in the registry by one
    (modulo 2^64), whether the method returns an error or not; the
    descriptor is otherwise the same and no other method or service
    changes. *)
Theorem handleRequest_counts_the_call
  (srv : Server) (c : GobCodec) (k n : string) (sv : service) (d : methodType)
  (hd : Header) (a rv : golang.Value) :
  registry_ok srv → serviceMap srv !! k = Some sv → method sv !! n = Some d →
  ∃ srv' c' sv' d',
    handleRequest srv c {| h := hd; argv := a; replyv := Some rv;
                           mtype := Some d; svc := Some sv |} = golang.Ok (srv', c') ∧
    serviceMap srv' !! k = Some sv' ∧ method sv' !! n = Some d' ∧
    NumCalls d' = golang.uint64 (NumCalls d + 1) ∧ same_method d d' ∧
    (∀ n', n' ≠ n → method sv' !! n' = method sv !! n') ∧
    (∀ k', k' ≠ k → serviceMap srv' !! k' = serviceMap srv !! k').
Proof.
  intros Hok Hk Hn. destruct (Hok k sv Hk) as [Hname Hkeys].
  pose proof (Hkeys n d Hn) as Hmn. subst k n.
  unfold handleRequest, call. simpl.
  destruct (reflect.MFunc (method_ d) (reflect.ovalue (rcvr sv)) a rv) as [reply' err].
  simpl.
  destruct err; do 4 eexists; (split; [reflexivity|]); simpl;
    (split; [apply lookup_insert_eq|]); simpl;
    (split; [apply lookup_insert_eq|]);
    (split; [reflexivity|]); (split; [done|]);
    (split; [intros n' Hne; by rewrite lookup_insert_ne
            |intros k' Hne; by rewrite lookup_insert_ne]).
Qed.

Lemma handleRequest_counts_the_call_witness :
  ∃ srv srv' c' sv' d',
    samples.foo_server = golang.Ok srv ∧
    handleRequest srv (samples.incoming [])
      {| h := {| ServiceMethod := "Foo.Fail"; Seq := 1; Error := "" |};
         argv := golang.VStruct [1; 3]%Z; replyv := Some (golang.VInt 0);
         mtype := Some more_samples.Fail_descriptor;
         svc := Some more_samples.foo_service |} = golang.Ok (srv', c') ∧
    serviceMap srv' !! "Foo" = Some sv' ∧ method sv' !! "Fail" = Some d' ∧
    NumCalls d' = golang.uint64 (NumCalls more_samples.Fail_descriptor + 1).
Proof.
  destruct samples.foo_server as [srv| |] eqn:Hsrv; [|discriminate Hsrv..].
  pose proof (foo_server_registry_ok srv Hsrv) as Hok.
  destruct (handleRequest_counts_the_call srv (samples.incoming []) "Foo" "Fail"
              more_samples.foo_service more_samples.Fail_descriptor
              {| ServiceMethod := "Foo.Fail"; Seq := 1; Error := "" |}
              (golang.VStruct [1; 3]%Z) (golang.VInt 0) Hok)
    as (srv' & c' & sv' & d' & Hrun & Hk & Hn & Hcount & _).
  - injection Hsrv as <-. reflexivity.
  - reflexivity.
  - exists srv, srv', c', sv', d'. split; [reflexivity|]. split; [exact Hrun|].
    split; [exact Hk|]. split; [exact Hn|exact Hcount].
Defined.

End NumCalls_facts.

(** ** A write that fails half way *)

Section Write_facts.

Import codec.

Lemma Write_returns_nil (c c' : GobCodec) (hd : Header) (body : golang.Value) :
  Write c hd body = (c', None) →
  closed (conn c) = false ∧ broken (conn c) = false ∧ gob_encodable body = true ∧
  wire (conn c') = wire (conn c) ++ [MsgHeader hd; MsgBody body] ++ buf c.
Proof.
  unfold Write, enc_Encode_header.
  destruct (conn_write (conn c) (MsgHeader hd)) as [k1 [e1|]] eqn:H1; [done|].
  apply conn_write_ok in H1 as (Hc & Hb & Hc1 & Hb1 & Hw1 & _).
  unfold enc_Encode_body. cbn [conn with_conn].
  destruct (gob_encodable body); [|done].
  destruct (conn_write k1 (MsgBody body)) as [k2 [e2|]] eqn:H2; [done|].
  apply conn_write_ok in H2 as (_ & _ & Hc2 & Hb2 & Hw2 & _).
  intros [= <-]. unfold Write_deferred, buf_Flush. cbn [conn with_conn buf].
  destruct (flush_all_open k2 (buf c) Hc2 Hb2) as (k3 & -> & _ & _ & Hw3 & _).
  cbn [conn]. rewrite Hw3, Hw2, Hw1, <- !app_assoc. done.
Qed.

(** X10. A body for which gob's [Encode] returns an error, which among
    the values of the model is the nil interface or a function, makes
    [Write] fail after the header has gone out: on an open, working
    connection the header is on the wire without its body, the error is
    returned and the connection is closed. (A nil pointer, on which
    [Encode] panics instead of returning, is not a value of the model.) *)
Theorem Write_unencodable_body (c : GobCodec) (hd : Header) (body : golang.Value) :
  closed (conn c) = false → broken (conn c) = false →
  gob_encodable body = false →
  ∃ c', Write c hd body = (c', Some "gob: cannot encode value") ∧
        wire (conn c') = wire (conn c) ++ [MsgHeader hd] ++ buf c ∧
        closed (conn c') = true.
Proof.
  intros Hc Hb Henc. unfold Write, enc_Encode_header, enc_Encode_body, conn_write.
  rewrite Hc, Hb. cbn [conn with_conn]. rewrite Henc.
  unfold Write_deferred, buf_Flush. cbn [conn with_conn buf].
  set (k1 := {| inbox := _; wire := wire (conn c) ++ [MsgHeader hd];
                closed := false; broken := false |}).
  destruct (flush_all_open k1 (buf c)) as (k2 & -> & Hc2 & _ & Hw2 & _); [done..|].
  eexists. split; [done|]. unfold Close. cbn [conn with_conn]. rewrite Hc2.
  cbn. rewrite Hw2. subst k1. cbn. rewrite <- app_assoc. done.
Qed.

Lemma Write_unencodable_body_witness :
  ∃ c', Write (samples.incoming [])
              {| ServiceMethod := "Foo.Sum"; Seq := 1; Error := "" |} golang.VFunc
          = (c', Some "gob: cannot encode value") ∧
        wire (conn c') =
          [] ++ [MsgHeader {| ServiceMethod := "Foo.Sum"; Seq := 1; Error := "" |}] ++ [] ∧
        closed (conn c') = true.
Proof. apply (Write_unencodable_body (samples.incoming [])); reflexivity. Defined.

End Write_facts.

(** ** The pending table of the client *)

Section pending_facts.

Import client.

Local Open Scope Z_scope.

Lemma uint64_in_range (z : Z) : 0 ≤ z < 2 ^ 64 → golang.uint64 z = z.
Proof. intros H. unfold golang.uint64. by rewrite Z.mod_small. Qed.

Lemma registerCall_available (p : ptr) (w : World) (c : Call) :
  IsAvailable w = true → calls w !! p = Some c →
  registerCall p w =
    golang.Ok (seq (self w), None,
               with_self (with_calls w (<[p := set_Seq c (seq (self w))]> (calls w)))
                 {| cc := cc (self w); opt := opt (self w); header := header (self w);
                    seq := golang.uint64 (seq (self w) + 1);
                    pending := <[seq (self w) := p]> (pending (self w));
                    closing := false; shutdown := false |}).
Proof.
  unfold IsAvailable, registerCall. intros Hav Hp.
  destruct (closing (self w)), (shutdown (self w)); try done.
  simpl. rewrite Hp. done.
Qed.

(** X11. On a client that is neither closing nor shut down, [registerCall]
    gives the call the next sequence number, which no pending call has,
    enters it in the pending table under that number and moves the counter
    on by one; the numbers of the pending calls stay below the counter. *)
Theorem registerCall_gives_fresh_seq (p : ptr) (w : World) (c : Call) :
  pending_below w → seq (self w) + 1 < 2 ^ 64 →
  IsAvailable w = true → calls w !! p = Some c →
  ∃ w', registerCall p w = golang.Ok (seq (self w), None, w') ∧
        pending (self w) !! seq (self w) = None ∧
        pending (self w') = <[seq (self w) := p]> (pending (self w)) ∧
        seq (self w') = seq (self w) + 1 ∧
        calls w' !! p = Some (set_Seq c (seq (self w))) ∧
        pending_below w'.
Proof.
  intros [Hbelow Hseq] Hroom Hav Hp.
  rewrite (registerCall_available p w c Hav Hp). eexists. split; [done|]. simpl.
  rewrite uint64_in_range by lia.
  split.
  { destruct (pending (self w) !! seq (self w)) as [q|] eqn:E; [|done].
    apply Hbelow in E. lia. }
  split; [done|]. split; [done|]. split; [apply lookup_insert_eq|].
  split; simpl; [|lia].
  intros n q. destruct (decide (seq (self w) = n)) as [<-|Hne].
  - intros _. lia.
  - rewrite lookup_insert_ne by done. intros H%Hbelow. lia.
Qed.

Lemma registerCall_gives_fresh_seq_witness :
  ∃ w', registerCall 0%nat samples.one_pending_world = golang.Ok (2, None, w') ∧
        pending (self samples.one_pending_world) !! 2 = None ∧
        pending (self w') = <[2 := 0%nat]> (pending (self samples.one_pending_world)) ∧
        seq (self w') = 2 + 1 ∧
        calls w' !! 0%nat = Some (set_Seq samples.sum_call 2) ∧
        pending_below w'.
Proof.
  apply (registerCall_gives_fresh_seq 0%nat samples.one_pending_world samples.sum_call).
  - split; simpl; [|lia]. intros n q H.
    destruct (decide (n = 1)) as [->|Hne]; [lia|].
    by rewrite lookup_singleton_ne in H.
  - simpl. lia.
  - reflexivity.
  - reflexivity.
Defined.

(** X12. Removing a call right after registering it hands back that call
    and leaves the pending table as it was before the registration. *)
Theorem registerCall_then_removeCall (p : ptr) (w : World) (c : Call) :
  pending_below w → IsAvailable w = true → calls w !! p = Some c →
  ∃ n w1 w2, registerCall p w = golang.Ok (n, None, w1) ∧
             removeCall n w1 = (Some p, w2) ∧
             pending (self w2) = pending (self w).
Proof.
  intros [Hbelow Hseq] Hav Hp.
  rewrite (registerCall_available p w c Hav Hp). eexists _, _, _.
  split; [done|]. unfold removeCall. simpl. rewrite lookup_insert_eq.
  split; [done|]. simpl. rewrite delete_insert_eq. apply delete_id.
  destruct (pending (self w) !! seq (self w)) as [q|] eqn:E; [|done].
  apply Hbelow in E. lia.
Qed.

Lemma registerCall_then_removeCall_witness :
  ∃ n w1 w2, registerCall 0%nat samples.one_pending_world = golang.Ok (n, None, w1) ∧
             removeCall n w1 = (Some 0%nat, w2) ∧
             pending (self w2) = pending (self samples.one_pending_world).
Proof.
  apply (registerCall_then_removeCall 0%nat samples.one_pending_world samples.sum_call).
  - split; simpl; [|lia]. intros n q H.
    destruct (decide (n = 1)) as [->|Hne]; [lia|].
    by rewrite lookup_singleton_ne in H.
  - reflexivity.
  - reflexivity.
Defined.

(** X13. Removing a sequence number twice: the second [removeCall] finds
    nothing and changes nothing, whatever the first one found. *)
Theorem removeCall_twice (n : Z) (w : World) :
  removeCall n (removeCall n w).2 = (None, (removeCall n w).2).
Proof.
  unfold removeCall. simpl. rewrite lookup_delete_eq. f_equal.
  unfold with_self. simpl. by rewrite delete_delete_eq.
Qed.

(** X14. [Close] a second time returns [ErrShutdown] and changes nothing;
    once [Close] has been called the client is not available. *)
Theorem Close_twice (w : World) :
  Close (Close w).2 = (Some ErrShutdown, (Close w).2) ∧
  IsAvailable (Close w).2 = false.
Proof.
  unfold Close, IsAvailable. destruct (closing (self w)) eqn:E; simpl.
  - rewrite E. simpl. by rewrite andb_false_r.
  - destruct (codec.Close (cc (self w))) as [cc' err]. simpl.
    by rewrite andb_false_r.
Qed.

End pending_facts.

(** ** What [Client.Go] leaves behind *)

Section Go_outcomes.

Import client.

Local Open Scope Z_scope.

Lemma chan_cap_room (w : World) (ch : ptr) (k : Chan) :
  chans w !! ch = Some k → (length (queue k) < cap k)%nat → chan_cap w ch ≠ 0%nat.
Proof. intros Hch Hlen. unfold chan_cap. rewrite Hch. lia. Qed.

(** X15. On a client that is closing or shut down, [Go] with a [done]
    channel that has room sends nothing and registers nothing: it returns
    a new call that carries [ErrShutdown] and is already queued on [done];
    the client itself is untouched. *)
Theorem Go_when_unavailable
  (serviceMethod : string) (args reply : golang.Value) (ch : ptr) (k : Chan) (w : World) :
  IsAvailable w = false →
  chans w !! ch = Some k → chan_closed k = false → (length (queue k) < cap k)%nat →
  ∃ p w' c,
    Go serviceMethod args reply (Some ch) w = golang.Ok (p, w') ∧
    calls w !! p = None ∧ calls w' !! p = Some c ∧
    Error c = Some ErrShutdown ∧ Done c = Some ch ∧
    self w' = self w ∧
    chans w' !! ch = Some {| cap := cap k; queue := queue k ++ [p];
                             chan_closed := false |}.
Proof.
  intros Hav Hch Hcl Hlen. unfold Go.
  rewrite bool_decide_false by (by eapply chan_cap_room). simpl.
  set (p := fresh (dom (calls w))).
  unfold send, registerCall. simpl.
  assert (closing (self w) || shutdown (self w) = true) as ->.
  { unfold IsAvailable in Hav. by destruct (closing (self w)), (shutdown (self w)). }
  simpl. unfold store_Error. simpl. rewrite lookup_insert_eq. simpl.
  erewrite done_room; [|apply lookup_insert_eq|reflexivity|exact Hch|done..].
  simpl. eexists _, _, _. split; [reflexivity|]. simpl.
  split; [exact (proj1 (not_elem_of_dom (calls w) p) (is_fresh (dom (calls w))))|].
  rewrite !lookup_insert_eq. done.
Qed.

Lemma Go_when_unavailable_witness :
  ∃ p w' c,
    Go "Foo.Sum" (golang.VStruct [1; 3]) (golang.VInt 0) (Some 0%nat)
       (Close samples.buffered_world).2 = golang.Ok (p, w') ∧
    calls (Close samples.buffered_world).2 !! p = None ∧ calls w' !! p = Some c ∧
    Error c = Some ErrShutdown ∧ Done c = Some 0%nat ∧
    self w' = self (Close samples.buffered_world).2 ∧
    chans w' !! 0%nat = Some {| cap := 1; queue := [] ++ [p]; chan_closed := false |}.
Proof.
  apply (Go_when_unavailable "Foo.Sum" _ _ 0%nat
           {| cap := 1; queue := []; chan_closed := false |}
           (Close samples.buffered_world).2); try reflexivity.
  simpl. lia.
Defined.

(** X16. When the write of the request fails, [Go] does not leave the
    call pending: the call got the next sequence number, carries the write
    error and is queued on [done], and the pending table is as it was. *)
Theorem Go_write_error
  (serviceMethod : string) (args reply : golang.Value) (ch : ptr) (k : Chan) (w : World)
  (cc' : codec.GobCodec) (e : string) :
  pending_below w → IsAvailable w = true →
  chans w !! ch = Some k → chan_closed k = false → (length (queue k) < cap k)%nat →
  codec.Write (cc (self w))
    {| codec.ServiceMethod := serviceMethod; codec.Seq := seq (self w);
       codec.Error := "" |} args = (cc', Some e) →
  ∃ p w' c,
    Go serviceMethod args reply (Some ch) w = golang.Ok (p, w') ∧
    calls w' !! p = Some c ∧ Seq c = seq (self w) ∧ Error c = Some e ∧
    pending (self w') = pending (self w) ∧
    cc (self w') = cc' ∧
    chans w' !! ch = Some {| cap := cap k; queue := queue k ++ [p];
                             chan_closed := false |}.
Proof.
  intros [Hbelow Hseq] Hav Hch Hcl Hlen Hwrite. unfold Go.
  rewrite bool_decide_false by (by eapply chan_cap_room). simpl.
  set (p := fresh (dom (calls w))).
  unfold send.
  erewrite registerCall_available; [|exact Hav|apply lookup_insert_eq].
  simpl. rewrite lookup_insert_eq. simpl. rewrite Hwrite.
  unfold removeCall. simpl. rewrite lookup_insert_eq.
  unfold store_Error. simpl. rewrite lookup_insert_eq. simpl.
  erewrite done_room; [|apply lookup_insert_eq|reflexivity|exact Hch|done..].
  simpl. eexists _, _, _. split; [reflexivity|]. simpl.
  rewrite !lookup_insert_eq. split; [done|]. split; [done|]. split; [done|].
  split; [|done]. apply delete_insert_id.
  destruct (pending (self w) !! seq (self w)) as [q|] eqn:E; [|done].
  apply Hbelow in E. lia.
Qed.

Lemma Go_write_error_witness :
  ∃ cc',
    codec.Write (cc (self samples.buffered_world))
      {| codec.ServiceMethod := "Foo.Sum"; codec.Seq := 1; codec.Error := "" |}
      golang.VFunc = (cc', Some "gob: cannot encode value") ∧
    ∃ p w' c,
    Go "Foo.Sum" golang.VFunc (golang.VInt 0) (Some 0%nat) samples.buffered_world
      = golang.Ok (p, w') ∧
    calls w' !! p = Some c ∧ Seq c = 1 ∧ Error c = Some "gob: cannot encode value" ∧
    pending (self w') = pending (self samples.buffered_world) ∧
    cc (self w') = cc' ∧
    chans w' !! 0%nat = Some {| cap := 1; queue := [] ++ [p]; chan_closed := false |}.
Proof.
  eexists. split; [reflexivity|].
  apply (Go_write_error "Foo.Sum" golang.VFunc _ 0%nat
           {| cap := 1; queue := []; chan_closed := false |} samples.buffered_world
           _ "gob: cannot encode value");
    try reflexivity.
  - split; simpl; [|lia]. intros n q H. by rewrite lookup_empty in H.
  - simpl. lia.
Defined.

(** X17. When the write succeeds, [Go] returns a call that is pending
    under the sequence number it was sent with: the request header on the
    wire carries the method name, that number and no error, followed by
    the arguments; the call has no error and is not queued on [done]. *)
Theorem Go_sends_and_registers
  (serviceMethod : string) (args reply : golang.Value) (ch : ptr) (w : World)
  (cc' : codec.GobCodec) :
  IsAvailable w = true → chan_cap w ch ≠ 0%nat →
  codec.Write (cc (self w))
    {| codec.ServiceMethod := serviceMethod; codec.Seq := seq (self w);
       codec.Error := "" |} args = (cc', None) →
  ∃ p w' c,
    Go serviceMethod args reply (Some ch) w = golang.Ok (p, w') ∧
    calls w' !! p = Some c ∧ Seq c = seq (self w) ∧ Error c = None ∧
    Done c = Some ch ∧
    pending (self w') = <[seq (self w) := p]> (pending (self w)) ∧
    seq (self w') = golang.uint64 (seq (self w) + 1) ∧
    chans w' = chans w ∧
    codec.wire (codec.conn (cc (self w'))) =
      codec.wire (codec.conn (cc (self w))) ++
      [codec.MsgHeader {| codec.ServiceMethod := serviceMethod;
                          codec.Seq := seq (self w); codec.Error := "" |};
       codec.MsgBody args] ++ codec.buf (cc (self w)).
Proof.
  intros Hav Hcap Hwrite. unfold Go.
  rewrite bool_decide_false by done. simpl.
  set (p := fresh (dom (calls w))).
  unfold send.
  erewrite registerCall_available; [|exact Hav|apply lookup_insert_eq].
  simpl. rewrite lookup_insert_eq. simpl. rewrite Hwrite. simpl.
  eexists _, _, _. split; [reflexivity|]. simpl.
  rewrite lookup_insert_eq.
  apply Write_returns_nil in Hwrite as (_ & _ & _ & Hwire). done.
Qed.

Lemma Go_sends_and_registers_witness :
  ∃ cc',
    codec.Write (cc (self samples.buffered_world))
      {| codec.ServiceMethod := "Foo.Sum"; codec.Seq := 1; codec.Error := "" |}
      (golang.VStruct [1; 3]) = (cc', None) ∧
    ∃ p w' c,
    Go "Foo.Sum" (golang.VStruct [1; 3]) (golang.VInt 0) (Some 0%nat)
       samples.buffered_world = golang.Ok (p, w') ∧
    calls w' !! p = Some c ∧ Seq c = 1 ∧ Error c = None ∧ Done c = Some 0%nat ∧
    pending (self w') = <[1 := p]> (pending (self samples.buffered_world)) ∧
    seq (self w') = golang.uint64 (1 + 1) ∧
    chans w' = chans samples.buffered_world ∧
    codec.wire (codec.conn (cc (self w'))) =
      [] ++ [codec.MsgHeader {| codec.ServiceMethod := "Foo.Sum"; codec.Seq := 1;
                                codec.Error := "" |};
             codec.MsgBody (golang.VStruct [1; 3])] ++ [].
Proof.
  eexists. split; [reflexivity|].
  eapply (Go_sends_and_registers "Foo.Sum" (golang.VStruct [1; 3]) _ 0%nat
            samples.buffered_world); try reflexivity.
  vm_compute. discriminate.
Defined.

End Go_outcomes.

(** ** The receive loop *)

Section receive_facts.

Import client receive.

Variable Errorf : string → string.
Variable range : gmap Z ptr → list (Z * ptr).

(** X18. A response whose sequence number is not pending is skipped
    whole: the turn reads its header and discards its body, whatever it
    is, and touches no call, no channel and no pending entry; the loop
    goes on. *)
Theorem receive_turn_unknown_seq
  (w : World) (hd : codec.Header) (m : codec.Msg) (rest : list codec.Msg) :
  codec.closed (codec.conn (cc (self w))) = false →
  codec.inbox (codec.conn (cc (self w))) = codec.MsgHeader hd :: m :: rest →
  pending (self w) !! codec.Seq hd = None →
  ∃ w', receive_turn Errorf w = golang.Ok (None, w') ∧
        codec.inbox (codec.conn (cc (self w'))) = rest ∧
        pending (self w') = pending (self w) ∧
        calls w' = calls w ∧ chans w' = chans w.
Proof.
  destruct w as [[[[inb wr cl br] bf fl] op hdr sq pd clo shd] cs chs].
  simpl. intros -> -> Hp.
  unfold receive_turn, codec.ReadHeader, codec.conn_read, removeCall. simpl.
  rewrite Hp. unfold codec.ReadBody, codec.conn_read. simpl.
  eexists. split; [reflexivity|]. simpl. by rewrite delete_id.
Qed.

(** What [Decode_into] does to a struct, field by field: a field the
    body has with a non-zero value is taken from the body, every other
    field of the destination keeps its value. *)
Lemma fill_fields_lookup (dst body : list Z) (i : nat) :
  fill_fields dst body !! i =
    match body !! i, dst !! i with
    | Some b, Some d => Some (if bool_decide (b = 0%Z) then d else b)
    | Some b, None => Some b
    | None, d => d
    end.
Proof.
  revert body i. induction dst as [|d dst IH]; intros [|b body] [|i]; simpl; try done.
  all: try (by destruct (body !! i)); by destruct (dst !! i).
Qed.

(** Into a destination that holds the zero value the body arrives as it
    was sent. *)
Lemma Decode_into_zero_struct (bs : list Z) :
  Decode_into (golang.VStruct []) (golang.VStruct bs) = golang.VStruct bs.
Proof. done. Qed.

(** Into the fresh container that [server.readRequest] makes for the
    arguments, a body that fits arrives as it was sent. *)
Lemma Decode_into_fresh (t : reflect.Type_) (v : golang.Value) :
  server.value_fits t v = true → v ≠ golang.VEmptyStruct →
  Decode_into (reflect.zero (reflect.IndirectType t)) v = v.
Proof.
  unfold server.value_fits, reflect.zero.
  destruct (reflect.kind (reflect.IndirectType t)), v; done.
Qed.

Lemma Decode_into_whole (dst v : golang.Value) :
  match v with
  | golang.VBool _ | golang.VInt _ | golang.VStr _ | golang.VSlice _ => True
  | _ => False
  end →
  Decode_into dst v = v.
Proof. destruct v; try done; by destruct dst. Qed.

(** X19. A response without error for a pending call completes it: the
    body is decoded into the call's reply as gob does it, over the value
    the reply holds (a bool, int, string or slice is replaced, a struct
    keeps its value in the fields that are zero in the body, a map gains
    the entries of the body); the call keeps its error, is taken out of
    the pending table and is queued once on its [Done] channel; the loop
    goes on. *)
Theorem receive_turn_completes_call
  (w : World) (hd : codec.Header) (v : golang.Value) (rest : list codec.Msg)
  (p : ptr) (c : Call) (ch : ptr) (k : Chan) :
  codec.closed (codec.conn (cc (self w))) = false →
  codec.inbox (codec.conn (cc (self w))) = codec.MsgHeader hd :: codec.MsgBody v :: rest →
  codec.Error hd = "" →
  pending (self w) !! codec.Seq hd = Some p → calls w !! p = Some c →
  same_shape (Reply c) v = true →
  Done c = Some ch → chans w !! ch = Some k →
  chan_closed k = false → length (queue k) < cap k →
  ∃ w', receive_turn Errorf w = golang.Ok (None, w') ∧
        calls w' = <[p := set_Reply c (Decode_into (Reply c) v)]> (calls w) ∧
        pending (self w') = delete (codec.Seq hd) (pending (self w)) ∧
        chans w' = <[ch := {| cap := cap k; queue := queue k ++ [p];
                              chan_closed := false |}]> (chans w) ∧
        codec.inbox (codec.conn (cc (self w'))) = rest.
Proof.
  destruct w as [[[[inb wr cl br] bf fl] op hdr sq pd clo shd] cs chs].
  destruct hd as [sm n e]. simpl.
  intros -> -> -> Hp Hcall Hshape Hd Hch Hcl Hlen.
  unfold receive_turn, codec.ReadHeader, codec.conn_read, removeCall. simpl.
  rewrite Hp. simpl. rewrite Hcall.
  assert (reply_dest c = Some (same_shape (Reply c))) as ->.
  { unfold reply_dest. by destruct (Reply c). }
  unfold codec.ReadBody, codec.conn_read. simpl. rewrite Hshape.
  unfold store_Reply. simpl. rewrite Hcall.
  destruct (Reply c) eqn:HR; [done|..]; simpl;
    (erewrite done_room;
       [|apply lookup_insert_eq|exact Hd|exact Hch|done..]);
    simpl; eexists; (split; [reflexivity|]); done.
Qed.

(** X20. A response that carries an error for a pending call completes
    the call with that error: the body is discarded whatever it is, the
    reply is left alone, and the call is taken out of the pending table
    and queued on its [Done] channel; the loop goes on. *)
Theorem receive_turn_error_response
  (w : World) (hd : codec.Header) (m : codec.Msg) (rest : list codec.Msg)
  (p : ptr) (c : Call) (ch : ptr) (k : Chan) :
  codec.closed (codec.conn (cc (self w))) = false →
  codec.inbox (codec.conn (cc (self w))) = codec.MsgHeader hd :: m :: rest →
  codec.Error hd ≠ "" →
  pending (self w) !! codec.Seq hd = Some p → calls w !! p = Some c →
  Done c = Some ch → chans w !! ch = Some k →
  chan_closed k = false → length (queue k) < cap k →
  ∃ w', receive_turn Errorf w = golang.Ok (None, w') ∧
        calls w' = <[p := set_Error c (Some (Errorf (codec.Error hd)))]> (calls w) ∧
        pending (self w') = delete (codec.Seq hd) (pending (self w)) ∧
        chans w' = <[ch := {| cap := cap k; queue := queue k ++ [p];
                              chan_closed := false |}]> (chans w) ∧
        codec.inbox (codec.conn (cc (self w'))) = rest.
Proof.
  destruct w as [[[[inb wr cl br] bf fl] op hdr sq pd clo shd] cs chs].
  destruct hd as [sm n e]. simpl.
  intros -> -> He Hp Hcall Hd Hch Hcl Hlen.
  unfold receive_turn, codec.ReadHeader, codec.conn_read, removeCall. simpl.
  rewrite Hp. simpl. rewrite bool_decide_true by done.
  unfold store_Error. simpl. rewrite Hcall. simpl.
  unfold codec.ReadBody, codec.conn_read. simpl.
  erewrite done_room; [|apply lookup_insert_eq|exact Hd|exact Hch|done..].
  simpl. eexists. split; [reflexivity|]. done.
Qed.

Lemma store_Reply_self (p : ptr) (v : golang.Value) (w w' : World) :
  store_Reply p v w = golang.Ok w' → self w' = self w.
Proof.
  unfold store_Reply. destruct (calls w !! p) as [c|]; [|done].
  destruct (Reply c); by intros [= <-].
Qed.

Lemma ReadHeader_consumes (c c' : codec.GobCodec) (hd : codec.Header) :
  codec.ReadHeader c = (c', inl hd) →
  length (codec.inbox (codec.conn c')) < length (codec.inbox (codec.conn c)).
Proof.
  unfold codec.ReadHeader.
  pose proof (conn_read_inbox (codec.conn c)) as H.
  destruct (codec.conn_read (codec.conn c)) as [k [m|]];
    specialize (H _ _ eq_refl); simpl in H; [|done].
  destruct m; [|done]. intros [= <- _]. simpl. lia.
Qed.

(** A turn that lets the loop go on has read at least a header. *)
Lemma receive_turn_consumes (w w' : World) :
  receive_turn Errorf w = golang.Ok (None, w') →
  length (codec.inbox (codec.conn (cc (self w')))) <
  length (codec.inbox (codec.conn (cc (self w)))).
Proof.
  unfold receive_turn.
  destruct (codec.ReadHeader (cc (self w))) as [cc1 [hd|e]] eqn:Hh; [|done].
  apply ReadHeader_consumes in Hh.
  unfold removeCall. cbn [fst snd].
  set (w1 := with_self _ _).
  assert (Hcc1 : cc (self w1) = cc1) by done.
  destruct (pending (self (with_cc w cc1)) !! codec.Seq hd) as [p|].
  - case_bool_decide.
    + destruct (store_Error p _ w1) as [w2| |] eqn:Hs; simpl; [|done..].
      apply store_Error_inv in Hs as (Hs & _).
      pose proof (ReadBody_inbox (cc (self w2)) None) as Hb.
      destruct (codec.ReadBody (cc (self w2)) None) as [cc2 r].
      destruct (done p (with_cc w2 cc2)) as [w3| |] eqn:Hd; simpl; [|done..].
      apply done_inv in Hd as [Hd _]. intros [= _ <-].
      rewrite Hd. simpl. rewrite Hs, Hcc1 in Hb. simpl in Hb. lia.
    + destruct (calls w1 !! p) as [c|]; [|done].
      pose proof (ReadBody_inbox (cc (self w1)) (reply_dest c)) as Hb.
      destruct (codec.ReadBody (cc (self w1)) (reply_dest c)) as [cc2 r].
      rewrite Hcc1 in Hb. simpl in Hb.
      destruct r as [v|e].
      * destruct (store_Reply p v (with_cc w1 cc2)) as [w2| |] eqn:Hs; simpl; [|done..].
        apply store_Reply_self in Hs.
        destruct (done p w2) as [w3| |] eqn:Hd; simpl; [|done..].
        apply done_inv in Hd as [Hd _]. intros [= <-].
        rewrite Hd, Hs. simpl. lia.
      * destruct (store_Error p _ (with_cc w1 cc2)) as [w2| |] eqn:Hs; simpl; [|done..].
        destruct (done p w2) as [w3| |] eqn:Hd; simpl; done.
  - pose proof (ReadBody_inbox (cc (self w1)) None) as Hb.
    destruct (codec.ReadBody (cc (self w1)) None) as [cc2 r].
    rewrite Hcc1 in Hb. simpl in Hb. intros [= _ <-]. simpl. lia.
Qed.

(** With more turns than unread messages the loop of [receive] does not
    stop for lack of fuel. *)
Lemma receive_loop_fuel (fuel : nat) (w : World) :
  length (codec.inbox (codec.conn (cc (self w)))) < fuel →
  receive_loop Errorf fuel w ≠ golang.Ok None.
Proof.
  revert w. induction fuel as [|fuel IH]; intros w Hlen; [lia|]. simpl.
  destruct (receive_turn Errorf w) as [[[e|] w1]| |] eqn:Ht; simpl; [done| |done..].
  apply receive_turn_consumes in Ht. apply IH. lia.
Qed.

Lemma receive_ends (w : World) : receive Errorf range w ≠ golang.Ok None.
Proof.
  unfold receive.
  pose proof (receive_loop_fuel (S (length (codec.inbox (codec.conn (cc (self w)))))) w) as H.
  destruct (receive_loop Errorf _ w) as [[[err w1]|]| |]; simpl.
  - by destruct (terminateCalls _ _ _).
  - by destruct H; [lia|].
  - done.
  - done.
Qed.

(** The loop leaves only with an error. *)
Lemma receive_loop_error (fuel : nat) (w w' : World) (err : golang.error) :
  receive_loop Errorf fuel w = golang.Ok (Some (err, w')) → is_Some err.
Proof.
  revert w. induction fuel as [|fuel IH]; intros w; simpl; [done|].
  destruct (receive_turn Errorf w) as [[e w1]| |]; simpl; [|done..].
  destruct e as [e|]; [|apply IH]. intros [= <- _]. eauto.
Qed.

(** X21. Whenever [receive] returns it has gone through [terminateCalls]
    with the error that ended the loop: the client is shut down, so not
    available any more, and every call still in the pending table carries
    that error. *)
Theorem receive_ends_in_shutdown (w w' : World) :
  (∀ m, range m ≡ₚ map_to_list m) →
  receive Errorf range w = golang.Ok (Some w') →
  shutdown (self w') = true ∧ IsAvailable w' = false ∧
  ∃ e, ∀ n p, pending (self w') !! n = Some p →
              ∃ c, calls w' !! p = Some c ∧ Error c = Some e.
Proof.
  intros Hrange. unfold receive.
  destruct (receive_loop Errorf _ w) as [[[err w1]|]| |] eqn:Hloop; simpl; [|done..].
  destruct (receive_loop_error _ _ _ _ Hloop) as [e ->].
  destruct (terminateCalls (Some e) (range (pending (self w1))) w1) as [w2| |] eqn:Ht;
    simpl; [|done..].
  intros [= <-]. unfold terminateCalls in Ht.
  apply terminate_all_inv in Ht as (Hs & _ & Hvisit). rewrite Hs.
  unfold IsAvailable. rewrite Hs. simpl. split; [done|]. split; [done|].
  exists e. intros n p Hp. apply (Hvisit n). rewrite Hrange.
  by apply elem_of_map_to_list.
Qed.

End receive_facts.

Section receive_witnesses.

Import client receive.

Lemma receive_turn_unknown_seq_witness :
  ∃ w', receive_turn (fun e => e)
          (with_cc samples.one_pending_world
             (samples.incoming
                (samples.request_frame "Foo.Sum" 9 (golang.VInt 4))))
        = golang.Ok (None, w') ∧
        codec.inbox (codec.conn (cc (self w'))) = [] ∧
        pending (self w') =
          pending (self (with_cc samples.one_pending_world
                           (samples.incoming
                              (samples.request_frame "Foo.Sum" 9 (golang.VInt 4))))) ∧
        calls w' =
          calls (with_cc samples.one_pending_world
                   (samples.incoming
                      (samples.request_frame "Foo.Sum" 9 (golang.VInt 4)))) ∧
        chans w' =
          chans (with_cc samples.one_pending_world
                   (samples.incoming
                      (samples.request_frame "Foo.Sum" 9 (golang.VInt 4)))).
Proof.
  apply (receive_turn_unknown_seq (fun e => e)
           (with_cc samples.one_pending_world
              (samples.incoming (samples.request_frame "Foo.Sum" 9 (golang.VInt 4))))
           {| codec.ServiceMethod := "Foo.Sum"; codec.Seq := 9; codec.Error := "" |}
           (codec.MsgBody (golang.VInt 4)) []); reflexivity.
Defined.

Lemma receive_turn_completes_call_witness :
  ∃ w', receive_turn (fun e => e)
          (with_cc more_samples.pair_pending_world
             (samples.incoming
                (samples.request_frame "Foo.Pair" 1 (golang.VStruct [0; 3]%Z))))
        = golang.Ok (None, w') ∧
        calls w' = <[0 := set_Reply more_samples.pair_call (golang.VStruct [5; 3]%Z)]>
                     (calls more_samples.pair_pending_world) ∧
        pending (self w') = delete 1%Z (pending (self more_samples.pair_pending_world)) ∧
        chans w' = <[0 := {| cap := 10; queue := [] ++ [0]; chan_closed := false |}]>
                     (chans more_samples.pair_pending_world) ∧
        codec.inbox (codec.conn (cc (self w'))) = [].
Proof.
  apply (receive_turn_completes_call (fun e => e)
           (with_cc more_samples.pair_pending_world
              (samples.incoming
                 (samples.request_frame "Foo.Pair" 1 (golang.VStruct [0; 3]%Z))))
           {| codec.ServiceMethod := "Foo.Pair"; codec.Seq := 1; codec.Error := "" |}
           (golang.VStruct [0; 3]%Z) [] 0 more_samples.pair_call 0
           {| cap := 10; queue := []; chan_closed := false |}); try reflexivity.
  simpl. lia.
Defined.

Lemma receive_turn_error_response_witness :
  ∃ w', receive_turn (fun e => e)
          (with_cc samples.one_pending_world
             (samples.incoming
                [codec.MsgHeader {| codec.ServiceMethod := "Foo.Sum"; codec.Seq := 1;
                                    codec.Error := "boom" |};
                 codec.MsgBody golang.VEmptyStruct]))
        = golang.Ok (None, w') ∧
        calls w' = <[0 := set_Error samples.sum_call (Some "boom")]>
                     (calls samples.one_pending_world) ∧
        pending (self w') = delete 1%Z (pending (self samples.one_pending_world)) ∧
        chans w' = <[0 := {| cap := 10; queue := [] ++ [0]; chan_closed := false |}]>
                     (chans samples.one_pending_world) ∧
        codec.inbox (codec.conn (cc (self w'))) = [].
Proof.
  apply (receive_turn_error_response (fun e => e)
           (with_cc samples.one_pending_world
              (samples.incoming
                 [codec.MsgHeader {| codec.ServiceMethod := "Foo.Sum"; codec.Seq := 1;
                                     codec.Error := "boom" |};
                  codec.MsgBody golang.VEmptyStruct]))
           {| codec.ServiceMethod := "Foo.Sum"; codec.Seq := 1; codec.Error := "boom" |}
           (codec.MsgBody golang.VEmptyStruct) [] 0 samples.sum_call 0
           {| cap := 10; queue := []; chan_closed := false |}); try reflexivity.
  - discriminate.
  - simpl. lia.
Defined.

Lemma receive_ends_in_shutdown_witness :
  ∃ w', receive (fun e => e) map_to_list samples.one_pending_world = golang.Ok (Some w') ∧
        shutdown (self w') = true ∧ IsAvailable w' = false ∧
        ∃ e, ∀ n p, pending (self w') !! n = Some p →
                    ∃ c, calls w' !! p = Some c ∧ Error c = Some e.
Proof.
  eexists. split; [vm_compute; reflexivity|].
  apply (receive_ends_in_shutdown (fun e => e) map_to_list samples.one_pending_world); [done|].
  vm_compute. reflexivity.
Defined.

End receive_witnesses.

(** ** Selection of a server, every mode and every list *)

Section Get_facts.

Import xclient.

Local Open Scope Z_scope.

(** X22. [Get] never panics, whatever the mode and the list: with
    servers in the list and one of the two modes it returns a server of
    the list and no error; with an empty list, or with any other mode, it
    returns the empty string and an error and changes nothing. The index
    stays a non-negative [int] and the list is kept. *)
Theorem Get_returns_a_server_or_an_error
  (ss : list string) (d : MultiServersDiscovery) (mode : Z) :
  discovery_of ss d → Z.of_nat (length ss) < 2 ^ 63 →
  ∃ s err d',
    Get d mode = golang.Ok (s, err, d') ∧ discovery_of ss d' ∧
    match err with
    | None => s ∈ ss ∧ (mode = RandomSelect ∨ mode = RoundRobinSelect)
    | Some _ =>
        s = "" ∧ d' = d ∧
        (ss = [] ∨ (mode ≠ RandomSelect ∧ mode ≠ RoundRobinSelect))
    end.
Proof.
  intros Hd Hlen. destruct (decide (ss = [])) as [->|Hne].
  { destruct Hd as [Hss Hi]. unfold Get. rewrite Hss. simpl.
    eexists _, _, _. split; [done|]. split; [done|]. split; [done|]. split; [done|].
    by left. }
  assert (Hn : (0 < length ss)%nat) by (destruct ss; [done|simpl; lia]).
  destruct (decide (mode = RoundRobinSelect)) as [->|Hrr].
  { destruct (Get_RoundRobin ss d) as (s & -> & Hs); [done..|].
    eexists _, _, _. split; [done|]. split.
    - split; [done|]. simpl.
      pose proof (Z.mod_pos_bound (index d + 1) (Z.of_nat (length ss))). lia.
    - split; [|by right]. by eapply list_elem_of_lookup_2. }
  destruct Hd as [Hss Hi]. unfold Get. rewrite Hss.
  set (n := Z.of_nat (length ss)). assert (0 < n) by lia.
  destruct (n =? 0) eqn:E; [lia|].
  destruct (mode =? RandomSelect) eqn:E0.
  - destruct (Intn_range (r d) n) as (i & -> & _ & Hi'); [done|]. simpl.
    destruct (slice_index_in_range ss i) as (s & -> & Hs); [done|]. simpl.
    eexists _, _, _. split; [done|]. split; [done|].
    split; [by eapply list_elem_of_lookup_2|]. left. lia.
  - destruct (mode =? RoundRobinSelect) eqn:E1; [lia|].
    eexists _, _, _. split; [done|]. split; [done|]. split; [done|]. split; [done|].
    right. split; [lia|done].
Qed.

Lemma Get_returns_a_server_or_an_error_witness :
  ∃ s err d',
    Get {| r := {| raw := fun _ => 7; used := 0 |}; servers := ["a"; "b"; "c"];
           index := 5 |} 2 = golang.Ok (s, err, d') ∧
    discovery_of ["a"; "b"; "c"] d' ∧
    match err with
    | None => s ∈ ["a"; "b"; "c"] ∧ (2 = RandomSelect ∨ 2 = RoundRobinSelect)
    | Some _ =>
        s = "" ∧
        d' = {| r := {| raw := fun _ => 7; used := 0 |}; servers := ["a"; "b"; "c"];
                index := 5 |} ∧
        (["a"; "b"; "c"] = [] ∨ (2 ≠ RandomSelect ∧ 2 ≠ RoundRobinSelect))
    end.
Proof.
  apply (Get_returns_a_server_or_an_error ["a"; "b"; "c"]
           {| r := {| raw := fun _ => 7; used := 0 |}; servers := ["a"; "b"; "c"];
              index := 5 |} 2).
  - split; [reflexivity|]. simpl. lia.
  - simpl. lia.
Defined.

(** X23. A random selection does not disturb the rotation: after
    [Get(RandomSelect)] the next [Get(RoundRobinSelect)] returns the server
    it would have returned without it. *)
Theorem RandomSelect_keeps_the_rotation
  (ss : list string) (d d1 : MultiServersDiscovery) (s : string) (err : golang.error) :
  discovery_of ss d → Z.of_nat (length ss) < 2 ^ 63 →
  Get d RandomSelect = golang.Ok (s, err, d1) →
  ∃ s' err' d2 d2',
    Get d RoundRobinSelect = golang.Ok (s', err', d2) ∧
    Get d1 RoundRobinSelect = golang.Ok (s', err', d2') ∧
    index d2' = index d2 ∧ servers d2' = servers d2.
Proof.
  intros [Hss Hi] Hlen. unfold Get. rewrite Hss.
  set (n := Z.of_nat (length ss)).
  destruct (n =? 0) eqn:E.
  { intros [= <- <- <-]. rewrite Hss. fold n. rewrite E.
    eexists _, _, _, _. done. }
  simpl.
  destruct (Intn (r d) n) as [[i r']| |] eqn:Hr; simpl; [|done..].
  destruct (slice_index ss i) as [x| |]; simpl; [|done..].
  intros [= <- <- <-]. simpl. fold n. rewrite E. simpl.
  destruct (slice_index ss (Z.rem (index d) n)) as [y| | ] eqn:Hy; simpl.
  - eexists _, _, _, _. done.
  - assert (0 < n) by lia.
    destruct (slice_index_in_range ss (Z.rem (index d) n)) as (y & Hy' & _).
    { rewrite Z.rem_mod_nonneg by lia. apply Z.mod_pos_bound. lia. }
    congruence.
  - unfold slice_index in Hy. destruct (_ <? 0); [done|].
    by destruct (ss !! _).
Qed.

Lemma RandomSelect_keeps_the_rotation_witness :
  ∃ s err d1 s' err' d2 d2',
    Get {| r := {| raw := fun _ => 7; used := 0 |}; servers := ["a"; "b"; "c"];
           index := 5 |} RandomSelect = golang.Ok (s, err, d1) ∧
    Get {| r := {| raw := fun _ => 7; used := 0 |}; servers := ["a"; "b"; "c"];
           index := 5 |} RoundRobinSelect = golang.Ok (s', err', d2) ∧
    Get d1 RoundRobinSelect = golang.Ok (s', err', d2') ∧
    index d2' = index d2 ∧ servers d2' = servers d2.
Proof.
  eexists _, _, _.
  edestruct (RandomSelect_keeps_the_rotation ["a"; "b"; "c"]
               {| r := {| raw := fun _ => 7; used := 0 |}; servers := ["a"; "b"; "c"];
                  index := 5 |})
    as (s' & err' & d2 & d2' & H1 & H2 & H3);
    [split; [reflexivity|simpl; lia]|simpl; lia|reflexivity|].
  exists s', err', d2, d2'. split; [reflexivity|]. split; [exact H1|].
  split; [exact H2|exact H3].
Defined.

(** X24. [Update] swaps the list and keeps the index, and the rotation
    goes on over the new list: after [Update(servers)] with [n >= 1]
    servers, [n] consecutive [Get(RoundRobinSelect)] calls return the new
    list rotated by the index reached before, even when that index lies
    beyond the new list. *)
Theorem Update_then_RoundRobin
  (ss ss' : list string) (d : MultiServersDiscovery) :
  discovery_of ss d → (1 ≤ length ss')%nat → Z.of_nat (length ss') < 2 ^ 63 →
  ∃ d2, Get_n (length ss') RoundRobinSelect (Update d ss').1
        = golang.Ok (rotate (Z.to_nat (index d)) ss', None, d2) ∧
        rotate (Z.to_nat (index d)) ss' ≡ₚ ss' ∧ servers d2 = ss'.
Proof.
  intros [Hss Hi] Hn Hlen.
  destruct (Get_n_rotate ss' (Update d ss').1) as (d2 & Hget & Hd2); [done|lia|done|].
  exists d2. split; [exact Hget|]. split; [apply rotate_Permutation|apply Hd2].
Qed.

Lemma Update_then_RoundRobin_witness :
  ∃ d2, Get_n 2 RoundRobinSelect
          (Update {| r := {| raw := fun _ => 7; used := 0 |};
                     servers := ["a"; "b"; "c"]; index := 5 |} ["x"; "y"]).1
        = golang.Ok (rotate (Z.to_nat 5) ["x"; "y"], None, d2) ∧
        rotate (Z.to_nat 5) ["x"; "y"] ≡ₚ ["x"; "y"] ∧ servers d2 = ["x"; "y"].
Proof.
  apply (Update_then_RoundRobin ["a"; "b"; "c"] ["x"; "y"]
           {| r := {| raw := fun _ => 7; used := 0 |};
              servers := ["a"; "b"; "c"]; index := 5 |}).
  - split; [reflexivity|]. simpl. lia.
  - simpl. lia.
  - simpl. lia.
Defined.

End Get_facts.

(** ** [XDial]: the address format *)

Section XDial_facts.

Import xdial.

Variable Outcome : Type.
Variable failed : string → Outcome.
Variable Dial DialHTTP : string → string → list (option geerpc.Option.t) → Outcome.

Lemma Split_at_nonempty (s : string) : Split_at s ≠ [].
Proof.
  induction s as [|a s IH]; simpl; [done|].
  case_bool_decide; [done|]. by destruct (Split_at s).
Qed.

Lemma Split_at_no_at (s : string) : no_at s → Split_at s = [s].
Proof.
  unfold no_at. induction s as [|a s IH]; simpl; [done|].
  intros [Ha Hs]%Forall_cons. rewrite bool_decide_false by done. by rewrite IH.
Qed.

Lemma Split_at_app (s t : string) :
  no_at s → Split_at (s +:+ "@" +:+ t) = s :: Split_at t.
Proof.
  unfold no_at. induction s as [|a s IH].
  - intros _. change ("" +:+ "@" +:+ t) with (String "@"%char t).
    cbn [Split_at]. by rewrite bool_decide_true.
  - intros [Ha Hs]%Forall_cons.
    change (String a s +:+ "@" +:+ t) with (String a (s +:+ "@" +:+ t)).
    cbn [Split_at]. rewrite bool_decide_false by done. by rewrite IH.
Qed.

Lemma Split_at_length (s : string) : length (Split_at s) = S (count_at s).
Proof.
  unfold count_at. induction s as [|a s IH]; [done|].
  cbn [Split_at String.list_ascii_of_string]. rewrite filter_cons.
  case_bool_decide as Ha.
  - rewrite decide_True by done. simpl. by rewrite IH.
  - rewrite decide_False by done. rewrite <- IH.
    pose proof (Split_at_nonempty s). by destruct (Split_at s).
Qed.

(** X25. [XDial] on ["protocol@addr"], neither part containing an at
    sign, dials [addr]: through [DialHTTP] on ["tcp"] when the protocol is
    ["http"], and through [Dial] with the protocol as the network
    otherwise; the options are passed on as they are. *)
Theorem XDial_routes (protocol addr : string) (opts : list (option geerpc.Option.t)) :
  no_at protocol → no_at addr →
  XDial Outcome failed Dial DialHTTP (protocol +:+ "@" +:+ addr) opts =
    if bool_decide (protocol = "http") then DialHTTP "tcp" addr opts
    else Dial protocol addr opts.
Proof.
  intros Hp Ha. unfold XDial. by rewrite (Split_at_app _ _ Hp), (Split_at_no_at _ Ha).
Qed.

(** X26. [XDial] refuses every address that does not hold exactly one at
    sign, with the wrong-format error, and dials nothing. *)
Theorem XDial_wrong_format (rpcAdr : string) (opts : list (option geerpc.Option.t)) :
  count_at rpcAdr ≠ 1 →
  XDial Outcome failed Dial DialHTTP rpcAdr opts =
    failed ("rpc client err: wrong format '" +:+ rpcAdr +:+ "', expect protocol@adr").
Proof.
  intros Hc. unfold XDial. pose proof (Split_at_length rpcAdr) as Hl.
  destruct (Split_at rpcAdr) as [|a [|b [|x l]]]; try done.
  simpl in Hl. lia.
Qed.

End XDial_facts.

Section XDial_witnesses.

Import xdial.

Lemma XDial_routes_witness :
  XDial (string * string * string) (fun e => ("failed", e, ""))
        (fun network address _ => ("Dial", network, address))
        (fun network address _ => ("DialHTTP", network, address))
        ("http" +:+ "@" +:+ "10.0.0.1:9999") [] =
    (if bool_decide ("http" = "http") then ("DialHTTP", "tcp", "10.0.0.1:9999")
     else ("Dial", "http", "10.0.0.1:9999")).
Proof.
  apply (XDial_routes (string * string * string) (fun e => ("failed", e, ""))
           (fun network address _ => ("Dial", network, address))
           (fun network address _ => ("DialHTTP", network, address))
           "http" "10.0.0.1:9999" []);
    unfold no_at; simpl;
    repeat (apply Forall_cons; split; [discriminate|]); apply Forall_nil_2.
Defined.

Lemma XDial_wrong_format_witness :
  XDial (string * string * string) (fun e => ("failed", e, ""))
        (fun network address _ => ("Dial", network, address))
        (fun network address _ => ("DialHTTP", network, address))
        "tcp@host@9999" [] =
    ("failed", "rpc client err: wrong format '" +:+ "tcp@host@9999"
               +:+ "', expect protocol@adr", "").
Proof.
  apply (XDial_wrong_format (string * string * string) (fun e => ("failed", e, ""))
           (fun network address _ => ("Dial", network, address))
           (fun network address _ => ("DialHTTP", network, address))
           "tcp@host@9999" []).
  vm_compute. discriminate.
Defined.

End XDial_witnesses.

(** ** A whole connection *)

Section ServerConn_facts.

Import codec service server.



End ServerConn_facts.

(** ** The handlers as goroutines *)

Section goroutine_facts.

Import codec service server serving.


















(** *** The loop of [server.serveCodec_loop] is one of the schedules *)

Lemma findService_current (srv : Server) (nm : string) (s : service) (d : methodType) :
  registry_ok srv → findService srv nm = (Some s, Some d, None) →
  serviceMap srv !! name s = Some s ∧ method s !! reflect.MName (method_ d) = Some d.
Proof.
  intros Hok. unfold findService.
  destruct (LastIndexDot nm <? 0)%Z; [done|].
  set (k := String.substring 0 _ nm). set (n := String.substring _ _ nm).
  destruct (serviceMap srv !! k) as [s0|] eqn:Hs; [|done].
  destruct (method s0 !! n) as [d0|] eqn:Hd; [|done].
  intros [= <- <-]. destruct (Hok k s0 Hs) as [Hname Hkeys].
  rewrite Hname, (Hkeys n d0 Hd). done.
Qed.

Lemma findService_error (srv : Server) (nm : string) (s : option service)
  (m : option methodType) (e : string) :
  findService srv nm = (s, m, Some e) → m = None.
Proof.
  unfold findService. destruct (LastIndexDot nm <? 0)%Z; [by intros [= _ <- _]|].
  destruct (serviceMap srv !! _) as [s0|]; [|by intros [= _ <- _]].
  destruct (method s0 !! _) as [d0|]; [done|by intros [= _ <- _]].
Qed.

(** On a descriptor that is the one the registry holds, the write-back
    of [server.handleRequest] and the atomic add are the same update. *)
Lemma store_methodType_is_AddUint64 (srv : Server) (s : service) (d : methodType) :
  serviceMap srv !! name s = Some s → method s !! reflect.MName (method_ d) = Some d →
  store_methodType srv (Some s)
    {| method_ := method_ d; ArgType := ArgType d; ReplyType := ReplyType d;
       numCalls := golang.uint64 (numCalls d + 1) |}
  = AddUint64_numCalls srv s d.
Proof.
  intros Hs Hd. unfold store_methodType, AddUint64_numCalls. cbn [method_]. f_equal.
  apply map_eq. intros k. destruct (decide (name s = k)) as [<-|Hne].
  - rewrite lookup_insert_eq, lookup_alter_eq, Hs. cbn. do 2 f_equal.
    apply map_eq. intros n. destruct (decide (reflect.MName (method_ d) = n)) as [<-|Hne].
    + by rewrite lookup_insert_eq, lookup_alter_eq, Hd.
    + by rewrite lookup_insert_ne, lookup_alter_ne.
  - by rewrite lookup_insert_ne, lookup_alter_ne.
Qed.

(** Four steps take a handler that was just started to its end, with
    the result of [server.handleRequest]. *)
Lemma handler_runs_inline (srv srv2 : Server) (c c2 : GobCodec) (req : request) (m : Main)
  (s : service) (d : methodType) (rest : list nat) :
  svc req = Some s → mtype req = Some d →
  serviceMap srv !! name s = Some s → method s !! reflect.MName (method_ d) = Some d →
  handleRequest srv c req = golang.Ok (srv2, c2) →
  run (1 :: 1 :: 1 :: 1 :: rest)
      {| registry := srv; cc := c; main := m; handlers := [Calling req] |}
  = run rest {| registry := srv2; cc := c2; main := m; handlers := [] |}.
Proof.
  intros Hsvc Hmt Hs Hd. unfold handleRequest.
  cbn [run step handler_step handlers lookup list_lookup registry cc main].
  rewrite Hsvc, Hmt.
  destruct (call (Some s) (Some d) (argv req) (replyv req))
    as [[[m' reply'] err]| |] eqn:Hcall; [|done..].
  assert (m' = {| method_ := method_ d; ArgType := ArgType d; ReplyType := ReplyType d;
                  numCalls := golang.uint64 (numCalls d + 1) |}) as ->.
  { unfold call in Hcall. destruct (replyv req); [|done].
    destruct (reflect.MFunc _ _ _ _). by injection Hcall as <- _ _. }
  pose proof (store_methodType_is_AddUint64 srv s d Hs Hd) as Hstore.
  destruct err as [e|]; cbn -[store_methodType AddUint64_numCalls]; rewrite Hstore;
    intros [= <- <-]; reflexivity.
Qed.

Lemma inline_S (n : nat) : inline (S n) = 0 :: 1 :: 1 :: 1 :: 1 :: inline n.
Proof. done. Qed.

Lemma run_cons (i : nat) (schedule : list nat) (st : State) :
  run (i :: schedule) st =
    match step i st with
    | None => run schedule st
    | Some r => st' ← r; run schedule st'
    end.
Proof. done. Qed.

Lemma run_no_handler (rest : list nat) (st : State) :
  handlers st = [] → run (1 :: 1 :: 1 :: 1 :: rest) st = run rest st.
Proof.
  intros H. rewrite !run_cons. unfold step, handler_step. by rewrite H.
Qed.

Lemma serveCodec_loop_inline (fuel : nat) :
  ∀ (srv srv' : Server) (c c' : GobCodec),
    registry_ok srv →
    serveCodec_loop fuel srv c = golang.Ok (Some (srv', c')) →
    ∃ turns, ∀ extra,
      run (inline (turns + extra))
          {| registry := srv; cc := c; main := ReadingHeader; handlers := [] |}
      = run (inline extra)
            {| registry := srv'; cc := c'; main := Waiting; handlers := [] |}.
Proof.
  induction fuel as [|fuel IH]; intros srv srv' c c' Hok; [done|].
  cbn [serveCodec_loop]. unfold readRequest, readRequestHeader.
  destruct (ReadHeader c) as [c1 [hd|e]] eqn:HR; cbn.
  2:{ intros [= <- <-]. exists 1. intros extra. cbn [Nat.add]. rewrite inline_S.
      rewrite run_cons. cbn [step main_step main cc registry handlers].
      unfold readRequestHeader. rewrite HR. cbn -[run].
      by rewrite run_no_handler. }
  destruct (findService srv (ServiceMethod hd)) as [[s0 m0] e0] eqn:Hf.
  destruct e0 as [e0|].
  { apply findService_error in Hf as ->. cbn. unfold handleRequest, call. done. }
  destruct m0 as [mt|]; [|done].
  destruct (newArgv mt) as [a| |] eqn:Ha; [|done..]. cbn.
  destruct (newReplyv mt) as [r| |] eqn:Hr; [|done..]. cbn.
  assert (∃ s, s0 = Some s) as [s ->].
  { unfold findService in Hf. destruct (LastIndexDot _ <? 0)%Z; [done|].
    destruct (serviceMap srv !! _) as [s1|]; [|done].
    destruct (method s1 !! _); [|done]. injection Hf as <- _. eauto. }
  destruct (findService_current srv _ s mt Hok Hf) as [Hs Hd].
  assert (Hok2 : ∀ cx req srv2 c2, handleRequest srv cx req = golang.Ok (srv2, c2) →
            svc req = Some s → mtype req = Some mt → registry_ok srv2).
  { intros cx req srv2 c2 Hh Hsv Hm. revert Hh. unfold handleRequest. rewrite Hsv, Hm.
    destruct (call _ _ _ _) as [[[m' reply'] err]| |] eqn:Hcall; [|done..].
    assert (same_method mt m') as Hsm.
    { unfold call in Hcall. destruct (replyv req); [|done].
      destruct (reflect.MFunc _ _ _ _). by injection Hcall as <- _ _. }
    cbn. intros Hres.
    assert (srv2 = store_methodType srv (Some s) m') as ->
      by (destruct err; by injection Hres as <- _).
    destruct (Hok (name s) s Hs) as [_ Hkeys].
    by destruct (store_methodType_same srv (name s) _ s mt m' Hok Hs Hd Hsm). }
  assert (Hhead : ∀ rest,
            run (0 :: 1 :: 1 :: 1 :: 1 :: rest)
                {| registry := srv; cc := c; main := ReadingHeader; handlers := [] |}
            = run rest {| registry := srv; cc := c1; main := ReadingBody hd (Some s) mt a r;
                          handlers := [] |}).
  { intros rest. rewrite run_cons. cbn [step main_step main cc registry handlers].
    unfold readRequestHeader. rewrite HR, Hf, Ha. cbn -[run]. rewrite Hr. cbn -[run].
    by rewrite run_no_handler. }
  destruct (ReadBody c1 (Some (value_fits (ArgType mt)))) as [c2 [v|e]] eqn:HB;
    cbn -[handleRequest serveCodec_loop].
  - (* the request is read whole *)
    destruct (handleRequest srv c2 _) as [[srv2 c3]| |] eqn:Hh; [|done..]. cbn.
    intros Hloop.
    pose proof (Hok2 _ _ _ _ Hh) as Hok'. specialize (Hok' eq_refl eq_refl).
    destruct (IH srv2 srv' c3 c' Hok' Hloop) as (turns & Hrun).
    exists (2 + turns). intros extra. cbn [Nat.add]. rewrite !inline_S, Hhead.
    rewrite run_cons. cbn [step main_step main cc registry handlers].
    rewrite HB. cbn -[run].
    erewrite (handler_runs_inline srv srv2 c2 c3);
      [apply Hrun|reflexivity|reflexivity|exact Hs|exact Hd|exact Hh].
  - (* the body cannot be read *)
    destruct (handleRequest srv _ _) as [[srv2 c3]| |] eqn:Hh; [|done..]. cbn.
    intros Hloop.
    pose proof (Hok2 _ _ _ _ Hh) as Hok'. specialize (Hok' eq_refl eq_refl).
    destruct (IH srv2 srv' c3 c' Hok' Hloop) as (turns & Hrun).
    exists (3 + turns). intros extra. cbn [Nat.add]. rewrite !inline_S, Hhead.
    rewrite run_cons. cbn [step main_step main cc registry handlers].
    rewrite HB. cbn -[run]. rewrite run_no_handler by done.
    rewrite run_cons. cbn -[run].
    erewrite (handler_runs_inline srv srv2 _ c3);
      [apply Hrun|reflexivity|reflexivity|exact Hs|exact Hd|exact Hh].
Qed.

(** Whatever [server.serveCodec] returns, with each handler run where
    it is started, is what the goroutines leave under the schedule
    [inline]: the sequential loop is one of the schedules of the
    goroutines. *)
Lemma serveCodec_is_the_inline_schedule (srv srv' : Server) (c c' : GobCodec) :
  registry_ok srv →
  server.serveCodec srv c = golang.Ok (Some (srv', c')) →
  ∃ turns,
    run (inline turns) (start srv c)
    = golang.Ok {| registry := srv'; cc := c'; main := Returned; handlers := [] |}.
Proof.
  intros Hok. unfold server.serveCodec.
  destruct (serveCodec_loop _ srv c) as [[[srv1 c1]|]| |] eqn:Hloop; [|done..]. cbn.
  intros [= <- <-].
  destruct (serveCodec_loop_inline _ srv srv1 c c1 Hok Hloop) as (turns & Hrun).
  exists (turns + 1). unfold start. rewrite Hrun, inline_S, run_cons.
  cbn -[run]. by rewrite run_no_handler.
Qed.

End goroutine_facts.

(** ** The schema of a model *)

Section schema_facts.

Import orm.

Lemma Parse_loop_spec (d : Dialect) (fs : list StructField) (acc s : Schema) :
  Parse_loop d fs acc = golang.Ok s →
  Model_ s = Model_ acc ∧ Name s = Name acc ∧
  ∃ fl, Fields s = Fields acc ++ fl ∧
        FieldNames s = FieldNames acc ++ (SName <$> fs) ∧
        Forall2 (parsed d) fs fl ∧
        fieldMap s = foldl remember (fieldMap acc) fl.
Proof.
  revert acc. induction fs as [|p fs IH]; intros acc; simpl.
  - intros [= <-]. split; [done|]. split; [done|]. exists [].
    rewrite !app_nil_r. done.
  - destruct (DataTypeOf d (SType p)) as [t| |] eqn:Ht; simpl; [|done..].
    intros H. apply IH in H as (Hm & Hn & fl & Hf & Hnames & Hall & Hmap).
    simpl in *. split; [done|]. split; [done|].
    eexists (_ :: fl). rewrite Hf, Hnames, <- !app_assoc. simpl.
    split; [done|]. split; [done|]. split; [|done].
    constructor; [|done]. done.
Qed.

Lemma remember_other (fl : list Field.t) (m : gmap string Field.t) (n : string) :
  n ∉ Field.Name <$> fl → foldl remember m fl !! n = m !! n.
Proof.
  revert m. induction fl as [|f fl IH]; intros m Hn; simpl; [done|].
  rewrite fmap_cons in Hn. apply not_elem_of_cons in Hn as [Hne Hn].
  rewrite IH by done. unfold remember. by rewrite lookup_insert_ne.
Qed.

Lemma remember_found (fl : list Field.t) (m : gmap string Field.t) (f : Field.t) :
  NoDup (Field.Name <$> fl) → f ∈ fl → foldl remember m fl !! Field.Name f = Some f.
Proof.
  revert m. induction fl as [|f0 fl IH]; intros m Hnd Hin.
  { by apply elem_of_nil in Hin. }
  rewrite fmap_cons in Hnd. apply NoDup_cons in Hnd as [Hfresh Hnd]. simpl.
  apply elem_of_cons in Hin as [->|Hin]; [|by apply IH].
  rewrite remember_other by done. unfold remember. apply lookup_insert_eq.
Qed.

Lemma parsed_names (d : Dialect) (fs : list StructField) (fl : list Field.t) :
  Forall2 (parsed d) fs fl → Field.Name <$> fl = SName <$> fs.
Proof.
  induction 1 as [|sf f fs fl [Hn _] _ IH]; [done|].
  rewrite !fmap_cons. by rewrite Hn, IH.
Qed.

(** X28. The three views a schema built by [Parse] gives of a model
    agree: [Fields] has one field per field of the struct, in the order of
    declaration, each with the struct field's name, the dialect's data
    type for its type and its [geeorm] tag; [FieldNames] lists the same
    names in the same order; and, the names being distinct, [GetFields]
    returns for each of these names the field of [Fields] that bears it,
    and nil for any other name. *)
Theorem Parse_views_agree (dest : Model) (d : Dialect) (s : Schema) :
  Parse dest d = golang.Ok s →
  Model_ s = dest ∧ Name s = model_name dest ∧
  FieldNames s = field_names dest ∧
  Field.Name <$> Fields s = FieldNames s ∧
  Forall2 (parsed d) (fst <$> model_fields dest) (Fields s) ∧
  (NoDup (field_names dest) →
   ∀ f, f ∈ Fields s → GetFields s (Field.Name f) = Some f) ∧
  (∀ n, n ∉ field_names dest → GetFields s n = None).
Proof.
  unfold Parse. intros H.
  apply Parse_loop_spec in H as (Hm & Hn & fl & Hf & Hnames & Hall & Hmap).
  simpl in *. subst fl.
  assert (Hfn : FieldNames s = field_names dest).
  { rewrite Hnames. unfold field_names. by rewrite <- list_fmap_compose. }
  pose proof (parsed_names _ _ _ Hall) as Hpn. rewrite <- Hnames in Hpn.
  split; [done|]. split; [done|]. split; [done|]. split; [done|]. split; [done|].
  unfold GetFields. rewrite Hmap. split.
  - intros Hnd f Hin. apply remember_found; [|done]. by rewrite Hpn, Hfn.
  - intros n Hn'. rewrite remember_other; [apply lookup_empty|].
    by rewrite Hpn, Hfn.
Qed.

(** X29. [Parse] gives up at the first field whose type the dialect
    refuses: when the dialect accepts the types of the fields before it,
    [Parse] panics with the dialect's panic for that field. *)
Theorem Parse_panics_at_first_refused
  (dest : Model) (d : Dialect) (before after : list (StructField * golang.Value))
  (sf : StructField) (v : golang.Value) (msg : string) :
  model_fields dest = before ++ (sf, v) :: after →
  Forall (fun fv => ∃ t, DataTypeOf d (SType fv.1) = golang.Ok t) before →
  DataTypeOf d (SType sf) = golang.Panic msg →
  Parse dest d = golang.Panic msg.
Proof.
  intros Hfields Hbefore Hsf. unfold Parse. rewrite Hfields.
  generalize {| Model_ := dest; Name := model_name dest; Fields := [];
                FieldNames := []; fieldMap := ∅ |}.
  clear Hfields. induction Hbefore as [|[p pv] before [t Ht] _ IH]; intros acc; simpl.
  - by rewrite Hsf.
  - simpl in Ht. rewrite Ht. simpl. apply IH.
Qed.

Lemma FieldByName_finds (dest : Model) (i : nat) (fv : StructField * golang.Value) :
  NoDup (field_names dest) → model_fields dest !! i = Some fv →
  FieldByName dest (SName fv.1) = Some fv.
Proof.
  intros Hnd Hi. unfold FieldByName.
  assert (list_find (fun fv' => SName fv'.1 = SName fv.1) (model_fields dest)
          = Some (i, fv)) as ->; [|done].
  apply list_find_Some. split; [done|]. split; [done|].
  intros j y Hj Hlt Heq.
  assert (i = j); [|lia].
  apply (NoDup_lookup (field_names dest) i j (SName fv.1)); [done|..];
    unfold field_names; rewrite list_lookup_fmap.
  - by rewrite Hi.
  - rewrite Hj. simpl. by rewrite Heq.
Qed.

Lemma RecordValues_loop_values (dest : Model)
  (sub : list (StructField * golang.Value)) :
  ∀ (fl : list Field.t) (acc : list golang.Value),
    Forall2 (fun fv f => Field.Name f = SName fv.1) sub fl →
    Forall (fun fv => FieldByName dest (SName fv.1) = Some fv ∧
                      ast.IsExported (SName fv.1) = true) sub →
    RecordValues_loop dest fl acc = golang.Ok (acc ++ (snd <$> sub)).
Proof.
  induction sub as [|[sf v] sub IH]; intros fl acc Hnames Hfound.
  - apply Forall2_nil_inv_l in Hnames as ->. simpl. by rewrite app_nil_r.
  - apply Forall2_cons_inv_l in Hnames as (f & fl' & Hn & Hrest & ->).
    apply Forall_cons in Hfound as [[Hf He] Hfound]. simpl in *.
    rewrite Hn, Hf. simpl. rewrite He. simpl.
    rewrite (IH fl' (acc ++ [v])) by done. by rewrite <- app_assoc.
Qed.

(** X30. [RecordValues] flattens a value into the order of the schema:
    for a schema that [Parse] built from a model whose field names are
    distinct and all exported, [RecordValues] on any value of the same
    struct type returns the values of its fields in the order of
    declaration. *)
Theorem RecordValues_in_order (dest dest' : Model) (d : Dialect) (s : Schema) :
  Parse dest d = golang.Ok s →
  fst <$> model_fields dest' = fst <$> model_fields dest →
  NoDup (field_names dest) →
  Forall (fun n => ast.IsExported n = true) (field_names dest) →
  RecordValues s dest' = golang.Ok (snd <$> model_fields dest').
Proof.
  intros Hparse Hsame Hnd Hexp. unfold Parse in Hparse.
  apply Parse_loop_spec in Hparse as (_ & _ & fl & Hf & _ & Hall & _).
  simpl in Hf. subst fl. unfold RecordValues.
  assert (Hnames : field_names dest' = field_names dest).
  { assert (Hfst : ∀ m, field_names m = SName <$> (fst <$> model_fields m)).
    { intros m. unfold field_names. by rewrite <- list_fmap_compose. }
    by rewrite !Hfst, Hsame. }
  rewrite (RecordValues_loop_values dest' (model_fields dest')); [done| |].
  - rewrite <- Hsame in Hall. rewrite Forall2_fmap_l in Hall.
    eapply Forall2_impl; [exact Hall|]. by intros fv f [Hn _].
  - apply Forall_lookup. intros i fv Hi. split.
    + apply (FieldByName_finds dest' i); [by rewrite Hnames|done].
    + rewrite <- Hnames in Hexp. rewrite Forall_lookup in Hexp.
      apply (Hexp i). unfold field_names. rewrite list_lookup_fmap, Hi. done.
Qed.

End schema_facts.

Section schema_witnesses.

Import orm.

Lemma Parse_views_agree_witness :
  ∃ s, Parse orm_samples.Tom sqlite3 = golang.Ok s ∧
       Model_ s = orm_samples.Tom ∧ Name s = model_name orm_samples.Tom ∧
       FieldNames s = field_names orm_samples.Tom ∧
       Field.Name <$> Fields s = FieldNames s ∧
       Forall2 (parsed sqlite3) (fst <$> model_fields orm_samples.Tom) (Fields s) ∧
       (NoDup (field_names orm_samples.Tom) →
        ∀ f, f ∈ Fields s → GetFields s (Field.Name f) = Some f) ∧
       (∀ n, n ∉ field_names orm_samples.Tom → GetFields s n = None).
Proof.
  eexists. split; [reflexivity|].
  apply (Parse_views_agree orm_samples.Tom sqlite3). reflexivity.
Defined.

Lemma Parse_panics_at_first_refused_witness :
  Parse orm_samples.Account sqlite3 = golang.Panic "invalid sql type  (map)".
Proof.
  apply (Parse_panics_at_first_refused orm_samples.Account sqlite3
           [({| SName := "ID"; SType := orm_samples.int_type; STag := None |},
             golang.VInt 1)]
           [(orm_samples.Name_field, golang.VStr "Tom")]
           {| SName := "Labels"; SType := orm_samples.map_type; STag := None |}
           (golang.VMap [])).
  - reflexivity.
  - apply Forall_cons. split; [by eexists|apply Forall_nil_2].
  - reflexivity.
Defined.

Lemma RecordValues_in_order_witness :
  ∃ s, Parse orm_samples.Tom sqlite3 = golang.Ok s ∧
       RecordValues s orm_samples.Sam = golang.Ok [golang.VStr "Sam"; golang.VInt 25].
Proof.
  eexists. split; [reflexivity|].
  apply (RecordValues_in_order orm_samples.Tom orm_samples.Sam sqlite3).
  - reflexivity.
  - reflexivity.
  - apply (bool_decide_unpack _). reflexivity.
  - repeat (apply Forall_cons; split; [reflexivity|]). apply Forall_nil_2.
Defined.

End schema_witnesses.
